(** * mcp-relay: the tool invocation pipeline

    A shallow embedding of the TypeScript sources of the relay's core
    (shared/logger.ts, shared/errors.ts, shared/http-client.ts,
    shared/validation.ts, config/index.ts, tools/jira/client.ts,
    tools/jira/schemas.ts, tools/jira/get-issue.ts,
    tools/jira/update-issue.ts, tools/jira/search-issues.ts,
    tools/jira/create-issue.ts) together with the properties its
    specification states about them and further properties of the code.

    Conventions of the embedding:
    - a JavaScript string is a [string]: a sequence of code units, each below
      256 (the Latin-1 range); [toLowerCase], [trim] and the URI encoders
      are written out for that range;
    - a JavaScript number is a [Z] (status codes, indices, millisecond
      clocks; payload numbers are never inspected by the code); an integer
      beyond 2^53 stands for the double nearest to it, and is printed as
      that double is;
    - a plain object is the list of its own enumerable entries in
      [Object.entries] order, under pairwise distinct keys none of which is
      an array index (an object lists those first, whenever they were
      added); an array is a list;
    - the call stack is finite: the functions of the sources that call
      themselves run on the frames that the runtime has room for, one frame
      per nested call, and throw a RangeError when they need more; the
      functions of the platform itself ([JSON.parse], [JSON.stringify],
      [new URL]) are functions of the runtime and are taken to have the
      room that they need;
    - [throw] is the [Throw] completion, an [await] that never resumes the
      [Never] completion, and code that logs, reads the clock, arms timers
      or reaches the network threads a [World]. *)

From Stdlib Require Import String Ascii List ZArith Lia Bool Arith.
From Stdlib Require Import DecimalString.
Import ListNotations.

Local Open Scope string_scope.
Local Open Scope list_scope.
Local Open Scope nat_scope.

(** String concatenation, the [+] and template literals of the sources. *)
Infix "+++" := String.append (right associativity, at level 60).

(* ================================================================== *)
(** ** JavaScript strings *)
(* ================================================================== *)

Module JsString.

(** The line feed, written '\n' in the sources. *)
Definition LF : ascii := ascii_of_nat 10.
Definition nl : string := String LF EmptyString.

Definition is_LF (c : ascii) : bool := Ascii.eqb c LF.

(** [String.prototype.toLowerCase] on one code unit below 256: the ASCII
    capitals and the Latin-1 capitals U+00C0..U+00DE (but not the
    multiplication sign U+00D7) move up by 32. *)
Definition lower_unit (c : ascii) : ascii :=
  let n := nat_of_ascii c in
  if ((65 <=? n) && (n <=? 90)) || ((192 <=? n) && (n <=? 222) && negb (n =? 215))
  then ascii_of_nat (n + 32)
  else c.

Fixpoint toLowerCase (s : string) : string :=
  match s with
  | EmptyString => EmptyString
  | String c s' => String (lower_unit c) (toLowerCase s')
  end.

(** White space and line terminators below 256: TAB, LF, VT, FF, CR,
    SPACE and NBSP. *)
Definition isWhiteSpace (c : ascii) : bool :=
  let n := nat_of_ascii c in
  ((9 <=? n) && (n <=? 13)) || (n =? 32) || (n =? 160).

Fixpoint trimStart (s : string) : string :=
  match s with
  | EmptyString => EmptyString
  | String c s' => if isWhiteSpace c then trimStart s' else s
  end.

Fixpoint trimEnd (s : string) : string :=
  match s with
  | EmptyString => EmptyString
  | String c s' =>
      match trimEnd s' with
      | EmptyString => if isWhiteSpace c then EmptyString else String c EmptyString
      | t => String c t
      end
  end.

Definition trim (s : string) : string := trimEnd (trimStart s).

(** [Boolean(s)] for a string: false exactly for the empty string. *)
Definition truthy (s : string) : bool :=
  match s with EmptyString => false | _ => true end.

(** [s.startsWith(p)]. *)
Fixpoint startsWith (s p : string) {struct p} : bool :=
  match p with
  | EmptyString => true
  | String a p' =>
      match s with
      | EmptyString => false
      | String b s' => Ascii.eqb a b && startsWith s' p'
      end
  end.

(** [s.slice(n)] for [0 <= n]. *)
Fixpoint slice (n : nat) (s : string) : string :=
  match n, s with
  | O, _ => s
  | S n', String _ s' => slice n' s'
  | S _, EmptyString => EmptyString
  end.

(** [xs.join(sep)] on an array of strings. *)
Definition join (sep : string) (xs : list string) : string := String.concat sep xs.

(** [s.split(c)] for a one-character separator: never the empty list. *)
Fixpoint split (sep : ascii) (s : string) : list string :=
  match s with
  | EmptyString => [EmptyString]
  | String c s' =>
      if Ascii.eqb c sep then EmptyString :: split sep s'
      else match split sep s' with
           | piece :: rest => String c piece :: rest
           | [] => [String c EmptyString]
           end
  end.

(** [s.split(/\n{2,}/)]: the separators are the maximal runs of two or more
    line feeds.  [pending] counts the line feeds read since the last other
    character (2 stands for two or more); [cur] is the piece being read. *)
Fixpoint split_blank_go (s : string) (cur : string) (pending : nat) : list string :=
  match s with
  | EmptyString =>
      match pending with
      | 0 => [cur]
      | 1 => [cur +++ nl]
      | _ => [cur; EmptyString]
      end
  | String c s' =>
      if is_LF c then split_blank_go s' cur (Nat.min 2 (S pending))
      else
        match pending with
        | 0 => split_blank_go s' (cur +++ String c EmptyString) 0
        | 1 => split_blank_go s' (cur +++ nl +++ String c EmptyString) 0
        | _ => cur :: split_blank_go s' (String c EmptyString) 0
        end
  end.

Definition split_blank_lines (s : string) : list string :=
  split_blank_go s EmptyString 0.

(** Whether a line feed occurs in [s]. *)
Fixpoint has_LF (s : string) : bool :=
  match s with
  | EmptyString => false
  | String c rest => is_LF c || has_LF rest
  end.

(** [s.includes(p)]. *)
Fixpoint includes (s p : string) : bool :=
  startsWith s p ||
  match s with
  | EmptyString => false
  | String _ s' => includes s' p
  end.

(** The decimal digits of an integer, after a minus sign when it is
    negative. *)
Definition decimal (z : Z) : string :=
  NilEmpty.string_of_int (Z.to_int z).

(** Up to this bound every integer is a Number value of its own. *)
Definition MAX_EXACT : Z := 2 ^ 53.

(** The Number value for a positive integer: the integer itself when it
    has at most 53 significant bits, the nearest integer with 53
    significant bits otherwise, the one with an even mantissa when two are
    equally near. *)
Definition nearest_double (m : Z) : Z :=
  let bits := (Z.log2 m + 1)%Z in
  if (bits <=? 53)%Z then m
  else
    let shift := (bits - 53)%Z in
    let mantissa := Z.shiftr m shift in
    let rest := (m - Z.shiftl mantissa shift)%Z in
    let half := Z.shiftl 1 (shift - 1) in
    let rounded :=
      if (half <? rest)%Z || ((rest =? half)%Z && Z.odd mantissa)
      then (mantissa + 1)%Z else mantissa in
    Z.shiftl rounded shift.

(** The digits [s] and the exponent [n] of Number::toString for a Number
    value [x] of [d] decimal digits: the least number [k] of digits, from
    [k] on, for which some [s] of [k] digits gives [x] as the Number value
    for [s * 10 ^ (n - k)]; of two such [s] the one nearer to [x], the even
    one when they are equally near. *)
Fixpoint shortest_digits (fuel : nat) (k d x : Z) : Z * Z :=
  match fuel with
  | O => (x, d)
  | S fuel' =>
      let unit := (10 ^ (d - k))%Z in
      let low := (x / unit)%Z in
      let below := (low * unit)%Z in
      let above := ((low + 1) * unit)%Z in
      let upper :=
        if (low + 1 =? 10 ^ k)%Z then (10 ^ (k - 1), d + 1)%Z else (low + 1, d)%Z in
      let fits_below := (nearest_double below =? x)%Z in
      let fits_above := (nearest_double above =? x)%Z in
      if fits_below && fits_above then
        if (x - below <? above - x)%Z || ((x - below =? above - x)%Z && Z.even low)
        then (low, d) else upper
      else if fits_below then (low, d)
      else if fits_above then upper
      else shortest_digits fuel' (k + 1)%Z d x
  end.

Fixpoint zeros (n : nat) : string :=
  match n with
  | O => EmptyString
  | S n' => String "0" (zeros n')
  end.

(** Template interpolation of an integer number, [Number::toString]: the
    decimal digits up to 2^53; beyond that the shortest digits that
    identify the double, followed by zeros below 10^21 and written with an
    exponent from there on. *)
Definition Number_toString (z : Z) : string :=
  if (Z.abs z <=? MAX_EXACT)%Z then decimal z
  else
    let x := nearest_double (Z.abs z) in
    let d := Z.of_nat (String.length (decimal x)) in
    let (s, n) := shortest_digits (Z.to_nat d) 1 d x in
    let digits := decimal s in
    (if (z <? 0)%Z then "-" else "")
      +++ (if (n <=? 21)%Z then digits +++ zeros (Z.to_nat n - String.length digits)
           else match digits with
                | EmptyString => EmptyString
                | String first EmptyString =>
                    String first ("e+" +++ decimal (n - 1))
                | String first rest =>
                    String first ("." +++ rest +++ "e+" +++ decimal (n - 1))
                end).

End JsString.
Import JsString.

(* ================================================================== *)
(** ** JavaScript values *)
(* ================================================================== *)

Module Js.

#[local] Set Warnings "-register-all".

(** The values that cross the boundaries of the pipeline: what
    [JSON.parse] produces, what a tool receives as arguments, what the
    logger is given.  An object is the list of its own enumerable
    string-keyed entries, in [Object.entries] order; its keys are pairwise
    distinct. *)
Inductive JsValue : Type :=
| JUndefined
| JNull
| JBool (b : bool)
| JNumber (n : Z)
| JString (s : string)
| JArray (items : list JsValue)
| JObject (entries : list (string * JsValue)).

Definition Entries := list (string * JsValue).

(** Induction that reaches the elements of arrays and the values of
    entries. *)
Section Induction.
Variable P : JsValue -> Prop.
Hypothesis P_undefined : P JUndefined.
Hypothesis P_null : P JNull.
Hypothesis P_bool : forall b, P (JBool b).
Hypothesis P_number : forall n, P (JNumber n).
Hypothesis P_string : forall s, P (JString s).
Hypothesis P_array : forall items, Forall P items -> P (JArray items).
Hypothesis P_object :
  forall entries, Forall (fun kv => P (snd kv)) entries -> P (JObject entries).

Fixpoint JsValue_deep_ind (v : JsValue) : P v :=
  match v with
  | JUndefined => P_undefined
  | JNull => P_null
  | JBool b => P_bool b
  | JNumber n => P_number n
  | JString s => P_string s
  | JArray items =>
      P_array items
        (list_ind (Forall P) (Forall_nil P)
           (fun x xs IH => Forall_cons x (JsValue_deep_ind x) IH) items)
  | JObject entries =>
      P_object entries
        (list_ind (Forall (fun kv => P (snd kv))) (Forall_nil _)
           (fun kv kvs IH =>
              Forall_cons (P := fun kv => P (snd kv)) kv
                (JsValue_deep_ind (snd kv)) IH) entries)
  end.
End Induction.

(** [typeof v]. *)
Definition typeof (v : JsValue) : string :=
  match v with
  | JUndefined => "undefined"
  | JNull => "object"
  | JBool _ => "boolean"
  | JNumber _ => "number"
  | JString _ => "string"
  | JArray _ => "object"
  | JObject _ => "object"
  end.

Definition isArray (v : JsValue) : bool :=
  match v with JArray _ => true | _ => false end.

(** The own entry stored under [key], if any. *)
Fixpoint own (key : string) (entries : Entries) : option JsValue :=
  match entries with
  | [] => None
  | (k, v) :: rest => if String.eqb k key then Some v else own key rest
  end.

(** [obj[key] = v] on a plain object: an existing entry keeps its place,
    a new one goes to the end (the key being no array index, which would
    go before the other keys, and not "__proto__", which names no entry of
    a plain object). *)
Fixpoint assign (key : string) (v : JsValue) (entries : Entries) : Entries :=
  match entries with
  | [] => [(key, v)]
  | (k, x) :: rest =>
      if String.eqb k key then (k, v) :: rest else (k, x) :: assign key v rest
  end.

(** [{ ...a, ...b }]: the entries of [b] defined over a copy of [a], in
    the order of [b]; no key of [a] or [b] being an array index, the result
    lists the keys of [a] and then the new keys of [b]. *)
Definition spread (a b : Entries) : Entries :=
  fold_left (fun acc kv => assign (fst kv) (snd kv) acc) b a.

(** [Object.keys(obj)]. *)
Definition keys (entries : Entries) : list string := map fst entries.

(** An array index: the canonical decimal text of an integer from 0 to
    2^32 - 2.  An object lists its entries under such keys first, in
    ascending order, and the others after them in the order in which they
    were added. *)
Definition is_array_index (key : string) : bool :=
  match NilEmpty.uint_of_string key with
  | Some digits =>
      String.eqb (decimal (Z.of_uint digits)) key
      && (Z.of_uint digits <? 4294967295)%Z
  | None => false
  end.

(** A step into a value: the entry of an object or the element of an
    array. *)
Inductive PathSegment : Type :=
| Key (name : string)
| Index (i : nat).

(** The value found by following a path, if the path exists. *)
Fixpoint at_path (p : list PathSegment) (v : JsValue) : option JsValue :=
  match p with
  | [] => Some v
  | Key name :: rest =>
      match v with
      | JObject entries =>
          match own name entries with
          | Some x => at_path rest x
          | None => None
          end
      | _ => None
      end
  | Index i :: rest =>
      match v with
      | JArray items =>
          match nth_error items i with
          | Some x => at_path rest x
          | None => None
          end
      | _ => None
      end
  end.

(** Neither an array nor an object. *)
Definition is_scalar (v : JsValue) : bool :=
  match v with
  | JArray _ | JObject _ => false
  | _ => true
  end.

(** How deep the arrays and objects of a value nest. *)
Fixpoint depth (v : JsValue) : nat :=
  match v with
  | JArray items => S (fold_right (fun x d => Nat.max (depth x) d) 0 items)
  | JObject entries =>
      S (fold_right (fun kv d => Nat.max (depth (snd kv)) d) 0 entries)
  | _ => 0
  end.

End Js.
Import Js.

(* ================================================================== *)
(** ** shared/errors.ts, completions and the world *)
(* ================================================================== *)

Module Errors.

Record ErrorMetadata : Type := {
  toolName : string;
  operation : string;
  correlationId : string
}.

(** What a [throw] can carry: the three subclasses of [ToolError], each
    with the message and metadata of its base class, and the errors the
    platform raises. *)
Inductive Thrown : Type :=
| ExternalServiceError (message : string) (metadata : ErrorMetadata)
                       (statusCode : option Z)
| ValidationError (message : string) (metadata : ErrorMetadata)
                  (issues : list string)
| ConfigurationError (message : string) (metadata : ErrorMetadata)
| DOMException (name message : string)
| PlatformError (name message : string)
| NonError (v : JsValue).

(** [error instanceof Error]. *)
Definition instanceof_Error (e : Thrown) : bool :=
  match e with NonError _ => false | _ => true end.

(** [error.message] of an [Error] instance. *)
Definition error_message (e : Thrown) : string :=
  match e with
  | ExternalServiceError m _ _ => m
  | ValidationError m _ _ => m
  | ConfigurationError m _ => m
  | DOMException _ m => m
  | PlatformError _ m => m
  | NonError _ => ""
  end.

(** [error instanceof ExternalServiceError && error.statusCode === code]. *)
Definition is_external_with_status (e : Thrown) (code : Z) : bool :=
  match e with
  | ExternalServiceError _ _ (Some c) => Z.eqb c code
  | _ => false
  end.

(** How an evaluation ends: with a value, with a [throw], or not at all
    (an [await] on a promise that never settles). *)
Inductive Completion (A : Type) : Type :=
| Return (a : A)
| Throw (e : Thrown)
| Never.
Arguments Return {A} a.
Arguments Throw {A} e.
Arguments Never {A}.

(** The message of what an evaluation threw, if it threw. *)
Definition thrown_message {A} (c : Completion A) : string :=
  match c with
  | Throw e => error_message e
  | _ => ""
  end.

Definition bindC {A B} (c : Completion A) (k : A -> Completion B) : Completion B :=
  match c with
  | Return a => k a
  | Throw e => Throw e
  | Never => Never
  end.

(** [xs.map(f)] for an [f] that may throw: the elements in order, up to
    the first that throws. *)
Fixpoint mapC {A B} (f : A -> Completion B) (xs : list A) : Completion (list B) :=
  match xs with
  | [] => Return []
  | x :: rest =>
      bindC (f x) (fun y => bindC (mapC f rest) (fun ys => Return (y :: ys)))
  end.

End Errors.
Import Errors.

Declare Scope completion_scope.
Delimit Scope completion_scope with completion.
Notation "'let!' x ':=' c 'in' k" := (bindC c (fun x => k))
  (at level 10, x name, c at level 100, k at level 200) : completion_scope.

(* ================================================================== *)
(** ** The platform: clock, standard error, network *)
(* ================================================================== *)

Module Platform.

(** The fields of [new URL(raw)] that the sources read. *)
Record URLRecord : Type := {
  origin : string;
  pathname : string;
  search : string;
  hash : string
}.

(** The URL and the second argument of [fetch], but for the abort signal,
    which [fetch] below takes apart. *)
Record FetchInit : Type := {
  init_url : string;
  init_method : string;
  init_headers : option (list (string * string));
  init_body : option string
}.

(** What becomes of a call of [fetch] that nobody aborts: a complete
    response (status and body text) after [after] milliseconds, a rejection
    after [after] milliseconds, or nothing, ever. *)
Inductive Settlement : Type :=
| Responds (after : Z) (status : Z) (body : string)
| Faults (after : Z) (error : Thrown)
| Silent.

(** The call is settled, one way or the other, within [ms]
    milliseconds. *)
Definition settles_within (ms : Z) (s : Settlement) : bool :=
  match s with
  | Responds after _ _ => (after <=? ms)%Z
  | Faults after _ => (after <=? ms)%Z
  | Silent => false
  end.

(** The built-ins of the runtime and the surroundings of the process.
    [JSON_parse] is [None] where [JSON.parse] throws a SyntaxError,
    [URL_parse] is [None] where [new URL] throws a TypeError.  [upstream]
    is what the network makes of a request that is put on it.
    [spare_frames] is the room of the call stack beyond the few frames
    that every process has, see [call_stack]. *)
Record Runtime : Type := {
  JSON_parse : string -> option JsValue;
  JSON_stringify : JsValue -> string;
  URL_parse : string -> option URLRecord;
  Buffer_base64 : string -> string;
  toISOString : Z -> string;
  randomUUID : nat -> string;
  upstream : FetchInit -> Settlement;
  spare_frames : nat
}.

(** A process that runs a handler has room for a handful of nested calls
    more. *)
Definition MIN_CALL_STACK : nat := 8.

(** How many calls of a function of the sources that calls itself can
    nest before the engine throws a RangeError: the frames that the stack
    has room for when the function is entered, a frame being the room that
    one such call takes, [Array.prototype.map] in between included. *)
Definition call_stack (rt : Runtime) : nat := MIN_CALL_STACK + spare_frames rt.

(** What the engine throws when the stack is full. *)
Definition StackOverflow : Thrown :=
  PlatformError "RangeError" "Maximum call stack size exceeded".

(** [method] is GET or HEAD, in whatever letter case. *)
Definition is_GET_or_HEAD (method : string) : bool :=
  String.eqb (toLowerCase method) "get" || String.eqb (toLowerCase method) "head".

(** The requests that [fetch] refuses before anything is sent, each with
    the TypeError of the rejection: one whose URL does not parse, and a GET
    or HEAD with a body. *)
Definition refusal (rt : Runtime) (init : FetchInit) : option Thrown :=
  match URL_parse rt (init_url init) with
  | None =>
      Some (PlatformError "TypeError" ("Failed to parse URL from " +++ init_url init))
  | Some _ =>
      match init_body init with
      | Some _ =>
          if is_GET_or_HEAD (init_method init)
          then Some (PlatformError "TypeError"
                       "Request with GET/HEAD method cannot have body.")
          else None
      | None => None
      end
  end.

(** What becomes of a call of [fetch] that nobody aborts: a request that
    [fetch] refuses is rejected at once, every other request is put on the
    network. *)
Definition network (rt : Runtime) (init : FetchInit) : Settlement :=
  match refusal rt init with
  | Some error => Faults 0 error
  | None => upstream rt init
  end.

(** An armed timer of [setTimeout(() => controller.abort(), delay)]: its
    handle, the clock reading at which it fires, and the controller that
    its callback aborts. *)
Record Timer : Type := {
  timer_id : nat;
  fires_at : Z;
  aborts : nat
}.

(** What an invocation can observe and change: the millisecond clock, the
    lines written to standard error (oldest first, each the object handed
    to [JSON.stringify]), the calls of [fetch], each with its arguments,
    those among them whose signal was aborted while they were in flight,
    how many UUIDs were drawn, the armed timers, and how many handles (of
    controllers and of timers) were given out. *)
Record World : Type := {
  now : Z;
  stderr : list JsValue;
  requests : list FetchInit;
  aborted : list FetchInit;
  uuids_drawn : nat;
  timers : list Timer;
  handles : nat
}.

Definition elapse (ms : Z) (w : World) : World :=
  {| now := now w + ms; stderr := stderr w; requests := requests w;
     aborted := aborted w; uuids_drawn := uuids_drawn w;
     timers := timers w; handles := handles w |}.

Definition write_stderr (line : JsValue) (w : World) : World :=
  {| now := now w; stderr := stderr w ++ [line]; requests := requests w;
     aborted := aborted w; uuids_drawn := uuids_drawn w;
     timers := timers w; handles := handles w |}.

Definition record_request (init : FetchInit) (w : World) : World :=
  {| now := now w; stderr := stderr w; requests := requests w ++ [init];
     aborted := aborted w; uuids_drawn := uuids_drawn w;
     timers := timers w; handles := handles w |}.

Definition record_abort (init : FetchInit) (w : World) : World :=
  {| now := now w; stderr := stderr w; requests := requests w;
     aborted := aborted w ++ [init]; uuids_drawn := uuids_drawn w;
     timers := timers w; handles := handles w |}.

Definition draw_uuid (w : World) : World :=
  {| now := now w; stderr := stderr w; requests := requests w;
     aborted := aborted w; uuids_drawn := S (uuids_drawn w);
     timers := timers w; handles := handles w |}.

Definition take_handle (w : World) : World :=
  {| now := now w; stderr := stderr w; requests := requests w;
     aborted := aborted w; uuids_drawn := uuids_drawn w;
     timers := timers w; handles := S (handles w) |}.

Definition set_timers (ts : list Timer) (w : World) : World :=
  {| now := now w; stderr := stderr w; requests := requests w;
     aborted := aborted w; uuids_drawn := uuids_drawn w;
     timers := ts; handles := handles w |}.

(** No armed timer refers to a handle that has not been given out yet. *)
Definition tidy (w : World) : Prop :=
  forall t, In t (timers w) -> timer_id t < handles w /\ aborts t < handles w.

(** Effectful code: a completion and the world it leaves. *)
Definition Eff (A : Type) : Type := World -> Completion A * World.

Definition ret {A} (a : A) : Eff A := fun w => (Return a, w).
Definition throw {A} (e : Thrown) : Eff A := fun w => (Throw e, w).
Definition lift {A} (c : Completion A) : Eff A := fun w => (c, w).

Definition bind {A B} (m : Eff A) (k : A -> Eff B) : Eff B :=
  fun w =>
    match m w with
    | (Return a, w') => k a w'
    | (Throw e, w') => (Throw e, w')
    | (Never, w') => (Never, w')
    end.

(** [try { body } catch (error) { handler }]. *)
Definition try_catch {A} (body : Eff A) (handler : Thrown -> Eff A) : Eff A :=
  fun w =>
    match body w with
    | (Throw e, w') => handler e w'
    | done => done
    end.

(** [try { body } finally { finalizer }], for a finalizer that does not
    throw: it runs when the body has ended, however it ended. *)
Definition try_finally {A} (body : Eff A) (finalizer : Eff unit) : Eff A :=
  fun w =>
    match body w with
    | (Never, w') => (Never, w')
    | (c, w') => (c, snd (finalizer w'))
    end.

Definition Date_now : Eff Z := fun w => (Return (now w), w).

(** [new AbortController()]: the handle of a fresh controller. *)
Definition new_AbortController : Eff nat :=
  fun w => (Return (handles w), take_handle w).

(** The longest delay of a timer, 2^31 - 1 ms. *)
Definition TIMEOUT_MAX : Z := 2147483647.

(** The delay that [setTimeout] arms for the delay it is given: a delay
    below 1 or above [TIMEOUT_MAX] is replaced by 1. *)
Definition timer_delay (delay : Z) : Z :=
  if (1 <=? delay)%Z && (delay <=? TIMEOUT_MAX)%Z then delay else 1%Z.

(** [setTimeout(() => controller.abort(), delay)]: the handle of the timer,
    armed to fire [timer_delay delay] milliseconds from now. *)
Definition setTimeout_abort (controller : nat) (delay : Z) : Eff nat :=
  fun w =>
    let timer := {| timer_id := handles w; fires_at := now w + timer_delay delay;
                    aborts := controller |} in
    (Return (handles w), set_timers (timers w ++ [timer]) (take_handle w)).

(** [clearTimeout(id)]. *)
Definition clearTimeout (id : nat) : Eff unit :=
  fun w =>
    (Return tt,
     set_timers (filter (fun t => negb (timer_id t =? id)) (timers w)) w).

(** The earliest clock reading at which one of the timers aborts the
    controller, if any does. *)
Fixpoint abort_time (controller : nat) (ts : list Timer) : option Z :=
  match ts with
  | [] => None
  | t :: rest =>
      if aborts t =? controller then
        match abort_time controller rest with
        | Some later => Some (Z.min (fires_at t) later)
        | None => Some (fires_at t)
        end
      else abort_time controller rest
  end.

(** The timers that have not fired by the clock reading [at_ms]. *)
Definition still_armed (at_ms : Z) (ts : list Timer) : list Timer :=
  filter (fun t => (at_ms <? fires_at t)%Z) ts.

Section WithRuntime.
Variable rt : Runtime.

Definition crypto_randomUUID : Eff string :=
  fun w => (Return (randomUUID rt (uuids_drawn w)), draw_uuid w).

(** The rejection of a [fetch] whose signal was aborted. *)
Definition AbortError : Thrown :=
  DOMException "AbortError" "This operation was aborted".

(** [await fetch(url, { ..., signal })] followed by
    [await response.text()]; [signal] is the controller whose signal the
    call was given, if it was given one.  The call is recorded.  With a
    signal that an armed timer aborts, the call settles on its own when
    [network] settles it by the time the timer fires (at once, for a
    request that [fetch] refuses); otherwise the timer fires first, the
    request in flight is aborted and the call rejects with an
    [AbortError].  Without such a signal the call waits for the network,
    for ever when the network stays silent. *)
Definition fetch (init : FetchInit) (signal : option nat) : Eff (Z * string) :=
  fun w =>
    let sent := record_request init w in
    let deadline :=
      match signal with
      | Some controller => abort_time controller (timers w)
      | None => None
      end in
    let settled (after : Z) (c : Completion (Z * string)) :=
      (c, set_timers (still_armed (now w + after) (timers w)) (elapse after sent)) in
    match deadline with
    | Some due =>
        let wait := (due - now w)%Z in
        if settles_within wait (network rt init) then
          match network rt init with
          | Responds after status body => settled after (Return (status, body))
          | Faults after error => settled after (Throw error)
          | Silent => (Never, sent)
          end
        else
          (Throw AbortError,
           record_abort init
             (set_timers (still_armed due (timers w)) (elapse wait sent)))
    | None =>
        match network rt init with
        | Responds after status body => settled after (Return (status, body))
        | Faults after error => settled after (Throw error)
        | Silent => (Never, sent)
        end
    end.
End WithRuntime.

End Platform.
Import Platform.

Declare Scope eff_scope.
Delimit Scope eff_scope with eff.
Notation "x <- m ;; k" := (bind m (fun x => k))
  (at level 61, m at next level, right associativity) : eff_scope.
Notation "m ;; k" := (bind m (fun _ => k))
  (at level 61, right associativity) : eff_scope.

(* ================================================================== *)
(** ** shared/logger.ts *)
(* ================================================================== *)

Module Logger.

(** Field names that must never appear in log output, matched
    case-insensitively against object keys at any nesting depth. *)
Definition SENSITIVE_KEYS : list string :=
  [ "apitoken"; "api_token"; "apikey"; "api_key";
    "accesskeyid"; "access_key_id"; "secretaccesskey"; "secret_access_key";
    "password"; "secret"; "token"; "authorization"; "cookie" ].

(** [SENSITIVE_KEYS.has(key.toLowerCase())]. *)
Definition is_sensitive (key : string) : bool :=
  existsb (String.eqb (toLowerCase key)) SENSITIVE_KEYS.

Definition REDACTED : JsValue := JString "[REDACTED]".

(** The key whose assignment [result[key] = ...] adds no entry to a plain
    object: it runs the setter that the object inherits. *)
Definition is_proto (key : string) : bool := String.eqb key "__proto__".

(** The loop of [sanitise] over the entries of an object: a fresh [result]
    is filled by one assignment [result[key] = ...] per entry, in order, a
    sensitive key receiving the marker and every other key the sanitised
    value.  The keys being distinct, each assignment adds one entry at the
    end, but for the assignment to "__proto__", which adds none.  [self] is
    the recursive call. *)
Fixpoint fill (self : JsValue -> Completion JsValue) (entries : Entries)
  : Completion Entries :=
  match entries with
  | [] => Return []
  | (key, val) :: rest =>
      (let! x := if is_sensitive key then Return REDACTED else self val in
       let! result := fill self rest in
       Return (if is_proto key then result else (key, x) :: result))%completion
  end.

(** The body of [sanitise]: null, undefined and everything that is not an
    object are returned as they are; an array is mapped; an object is
    rebuilt by [fill]. *)
Definition sanitise_body (self : JsValue -> Completion JsValue) (value : JsValue)
  : Completion JsValue :=
  match value with
  | JArray items => (let! xs := mapC self items in Return (JArray xs))%completion
  | JObject entries => (let! result := fill self entries in Return (JObject result))%completion
  | _ => Return value
  end.

(** [sanitise], with [fuel] call frames left on the stack. *)
Fixpoint sanitise_in (fuel : nat) (value : JsValue) : Completion JsValue :=
  match fuel with
  | O => Throw StackOverflow
  | S fuel' => sanitise_body (sanitise_in fuel') value
  end.

(** The frames that [sanitise] needs for a value: one for the call, and
    those of the deepest call that it makes, one per element and per entry
    under a key that is not sensitive. *)
Fixpoint frames_needed (value : JsValue) : nat :=
  match value with
  | JArray items => S (fold_right (fun x d => Nat.max (frames_needed x) d) 0 items)
  | JObject entries =>
      S (fold_right
           (fun kv d => Nat.max (if is_sensitive (fst kv) then 0
                                 else frames_needed (snd kv)) d)
           0 entries)
  | _ => 1
  end.

(** What [sanitise] returns for a value, when it returns. *)
Fixpoint sanitised (value : JsValue) : JsValue :=
  match value with
  | JArray items => JArray (map sanitised items)
  | JObject entries =>
      JObject
        (filter (fun kv => negb (is_proto (fst kv)))
           (map (fun kv =>
                   if is_sensitive (fst kv) then (fst kv, REDACTED)
                   else (fst kv, sanitised (snd kv)))
                entries))
  | _ => value
  end.

(** A key matches the denylist case-insensitively when it differs from one
    of its members by letter case only. *)
Definition matches_denylist (key : string) : Prop :=
  exists member, In member SENSITIVE_KEYS /\ toLowerCase key = toLowerCase member.

(** No key on the path matches the denylist. *)
Fixpoint clear_path (p : list PathSegment) : bool :=
  match p with
  | [] => true
  | Key name :: rest => negb (is_sensitive name) && clear_path rest
  | Index _ :: rest => clear_path rest
  end.

(** No key on the path is "__proto__". *)
Fixpoint plain_path (p : list PathSegment) : bool :=
  match p with
  | [] => true
  | Key name :: rest => negb (is_proto name) && plain_path rest
  | Index _ :: rest => plain_path rest
  end.

(** The entry that [sanitise] stores under a key. *)
Definition sanitised_entry (key : string) (x : JsValue) : JsValue :=
  if is_sensitive key then REDACTED else sanitised x.

Inductive LogLevel : Type := info | warn | error.

Definition level_name (l : LogLevel) : string :=
  match l with info => "info" | warn => "warn" | error => "error" end.

(** The three standard fields, as they are spread into a log entry. *)
Definition metadata_fields (md : ErrorMetadata) : Entries :=
  [ ("toolName", JString (toolName md));
    ("operation", JString (operation md));
    ("correlationId", JString (correlationId md)) ].

(** An entry literal [{ level, message, ...more }]. *)
Definition entry (l : LogLevel) (message : string) (more : Entries) : Entries :=
  spread [ ("level", JString (level_name l)); ("message", JString message) ] more.

Section WithRuntime.
Variable rt : Runtime.

(** [sanitise] on the stack of the runtime. *)
Definition sanitise (value : JsValue) : Completion JsValue :=
  sanitise_in (call_stack rt) value.

(** [log(entry)]: the entry under a fresh timestamp, sanitised, written
    as one line to standard error, which keeps the value that
    [JSON.stringify] is given; what [sanitise] throws passes through. *)
Definition log (e : Entries) : Eff unit :=
  fun w =>
    match sanitise (JObject (spread [("timestamp", JString (toISOString rt (now w)))] e))
    with
    | Return output => (Return tt, write_stderr output w)
    | Throw thrown => (Throw thrown, w)
    | Never => (Never, w)
    end.
End WithRuntime.

(** The level of an emitted line. *)
Definition line_level (line : JsValue) : option JsValue :=
  match line with
  | JObject entries => own "level" entries
  | _ => None
  end.

Definition is_level (l : LogLevel) (line : JsValue) : bool :=
  match line_level line with
  | Some (JString s) => String.eqb s (level_name l)
  | _ => false
  end.

(** How many lines of a given level a log holds. *)
Definition count_level (l : LogLevel) (lines : list JsValue) : nat :=
  length (filter (is_level l) lines).

End Logger.
Import Logger.

(* ================================================================== *)
(** ** shared/http-client.ts *)
(* ================================================================== *)

Module HttpClient.

Definition DEFAULT_TIMEOUT_MS : Z := 30000.

Record HttpRequestOptions : Type := {
  url : string;
  method : option string;
  headers : option (list (string * string));
  body : option string;
  timeoutMs : option Z;
  metadata : ErrorMetadata
}.

Record HttpResponse : Type := {
  status : Z;
  response_body : string
}.

Definition or_default {A} (o : option A) (d : A) : A :=
  match o with Some a => a | None => d end.

(** The arguments that [httpRequest] gives to [fetch]: the URL, the
    method ('GET' by default), and the headers and the body when they are
    defined. *)
Definition fetch_init (options : HttpRequestOptions) : FetchInit :=
  {| init_url := url options;
     init_method := or_default (method options) "GET";
     init_headers := headers options;
     init_body := body options |}.

(** The timer that [httpRequest] arms in the world [w]: it takes the
    second handle, the controller that it aborts the first. *)
Definition own_timer (timeout : Z) (w : World) : Timer :=
  {| timer_id := S (handles w); fires_at := now w + timer_delay timeout;
     aborts := handles w |}.

(** [error instanceof DOMException && error.name === 'AbortError']. *)
Definition is_AbortError (err : Thrown) : bool :=
  match err with
  | DOMException name _ => String.eqb name "AbortError"
  | _ => false
  end.

(** The [message] of the [catch] block:
    [error instanceof Error ? error.message : 'Unknown network error']. *)
Definition fault_text (err : Thrown) : string :=
  if instanceof_Error err then error_message err else "Unknown network error".

Section WithRuntime.
Variable rt : Runtime.

(** [safeUrl]: origin and path of a URL that parses, a fixed placeholder
    otherwise. *)
Definition safeUrl (raw : string) : string :=
  match URL_parse rt raw with
  | Some parsed => origin parsed +++ pathname parsed
  | None => "<malformed-url>"
  end.

(** The [catch] block of [httpRequest]. *)
Definition wrap_failure (raw_url : string) (timeout : Z) (md : ErrorMetadata)
           (err : Thrown) : Thrown :=
  let safe := safeUrl raw_url in
  if is_AbortError err then
    ExternalServiceError
      ("Request to " +++ safe +++ " timed out after "
         +++ Number_toString timeout +++ "ms")
      md None
  else
    let message := fault_text err in
    ExternalServiceError
      ("Request to " +++ safe +++ " failed: " +++ message) md None.

(** [httpRequest]: a controller is created and a timer armed to abort it
    after [timeoutMs] (30 000 ms by default; 1 ms when [timeoutMs] is out of
    the range of timers); the request is issued with
    the signal of the controller; a completed response is returned whatever
    its status, anything thrown is wrapped by the [catch] block; the timer
    is cleared in the [finally] block. *)
Definition httpRequest (options : HttpRequestOptions) : Eff HttpResponse :=
  let timeout := or_default (timeoutMs options) DEFAULT_TIMEOUT_MS in
  bind new_AbortController (fun controller =>
  bind (setTimeout_abort controller timeout) (fun timeoutId =>
  try_finally
    (try_catch
       (bind (fetch rt (fetch_init options) (Some controller))
          (fun response =>
             ret {| status := fst response; response_body := snd response |}))
       (fun err => throw (wrap_failure (url options) timeout (metadata options) err)))
    (clearTimeout timeoutId))).

(** [httpRequest] as it would be without [signal: controller.signal] among
    the arguments of [fetch]. *)
Definition httpRequest_without_signal (options : HttpRequestOptions) : Eff HttpResponse :=
  let timeout := or_default (timeoutMs options) DEFAULT_TIMEOUT_MS in
  bind new_AbortController (fun controller =>
  bind (setTimeout_abort controller timeout) (fun timeoutId =>
  try_finally
    (try_catch
       (bind (fetch rt (fetch_init options) None)
          (fun response =>
             ret {| status := fst response; response_body := snd response |}))
       (fun err => throw (wrap_failure (url options) timeout (metadata options) err)))
    (clearTimeout timeoutId))).

(** The [catch] block of the file's earlier revision, before [safeUrl]
    was introduced: the URL is interpolated as it was given. *)
Definition wrap_failure_rev0 (raw_url : string) (timeout : Z) (md : ErrorMetadata)
           (err : Thrown) : Thrown :=
  if is_AbortError err then
    ExternalServiceError
      ("Request to " +++ raw_url +++ " timed out after "
         +++ Number_toString timeout +++ "ms")
      md None
  else
    let message := fault_text err in
    ExternalServiceError
      ("Request to " +++ raw_url +++ " failed: " +++ message) md None.
End WithRuntime.

End HttpClient.
Import HttpClient.

(* ================================================================== *)
(** ** zod, as far as the schemas of the sources use it *)
(* ================================================================== *)

Module Zod.

Record ZodIssue : Type := {
  path : list PathSegment;
  message : string
}.

(** The result of [schema.safeParse(data)]: [success] with the typed data,
    or the issues of [error.issues]. *)
Inductive SafeParseReturn (T : Type) : Type :=
| Success (data : T)
| Failure (issues : list ZodIssue).
Arguments Success {T} data.
Arguments Failure {T} issues.

(** A schema, run at a path of the input. *)
Definition ZodType (T : Type) : Type := list PathSegment -> JsValue -> SafeParseReturn T.

Definition safeParse {T} (schema : ZodType T) (data : JsValue) : SafeParseReturn T :=
  schema [] data.

(** zod's name for the type it received. *)
Definition parsedType (v : JsValue) : string :=
  match v with
  | JUndefined => "undefined"
  | JNull => "null"
  | JBool _ => "boolean"
  | JNumber _ => "number"
  | JString _ => "string"
  | JArray _ => "array"
  | JObject _ => "object"
  end.

(** The [invalid_type] issue: "Required" for an absent value. *)
Definition invalid_type (p : list PathSegment) (expected : string) (v : JsValue) : ZodIssue :=
  {| path := p;
     message :=
       match v with
       | JUndefined => "Required"
       | _ => "Expected " +++ expected +++ ", received " +++ parsedType v
       end |}.

Definition z_string : ZodType string :=
  fun p v =>
    match v with
    | JString s => Success s
    | _ => Failure [invalid_type p "string" v]
    end.

Definition z_number : ZodType Z :=
  fun p v =>
    match v with
    | JNumber n => Success n
    | _ => Failure [invalid_type p "number" v]
    end.

Definition z_boolean : ZodType bool :=
  fun p v =>
    match v with
    | JBool b => Success b
    | _ => Failure [invalid_type p "boolean" v]
    end.

(** [schema.nullable()], on schemas whose data is not itself nullable. *)
Definition z_nullable {T} (schema : ZodType T) : ZodType (option T) :=
  fun p v =>
    match v with
    | JNull => Success None
    | _ =>
        match schema p v with
        | Success d => Success (Some d)
        | Failure issues => Failure issues
        end
    end.

(** [schema.optional()]. *)
Definition z_optional {T} (schema : ZodType T) : ZodType (option T) :=
  fun p v =>
    match v with
    | JUndefined => Success None
    | _ =>
        match schema p v with
        | Success d => Success (Some d)
        | Failure issues => Failure issues
        end
    end.

(** [z.unknown().nullable()]: every value passes, as it is. *)
Definition z_unknown_nullable : ZodType JsValue := fun _ v => Success v.

(** The shape of [z.object({ ... })]: every field is parsed, the issues of
    all of them are collected in the order of the shape. *)
Definition Shape (T : Type) : Type := list PathSegment -> Entries -> SafeParseReturn T.

Definition shape_of {T} (make : T) : Shape T := fun _ _ => Success make.

Definition with_field {A B} (shape : Shape (A -> B)) (name : string) (schema : ZodType A)
  : Shape B :=
  fun p entries =>
    let value := match own name entries with Some v => v | None => JUndefined end in
    match shape p entries, schema (p ++ [Key name]) value with
    | Success f, Success a => Success (f a)
    | Success _, Failure issues => Failure issues
    | Failure issues, Success _ => Failure issues
    | Failure issues, Failure more => Failure (issues ++ more)
    end.

Definition z_object {T} (shape : Shape T) : ZodType T :=
  fun p v =>
    match v with
    | JObject entries => shape p entries
    | _ => Failure [invalid_type p "object" v]
    end.

(** The elements of [z.array(schema)], from index [i] on. *)
Fixpoint parse_items {T} (schema : ZodType T) (p : list PathSegment) (i : nat)
         (items : list JsValue) : SafeParseReturn (list T) :=
  match items with
  | [] => Success []
  | x :: rest =>
      match schema (p ++ [Index i]) x, parse_items schema p (S i) rest with
      | Success d, Success ds => Success (d :: ds)
      | Success _, Failure issues => Failure issues
      | Failure issues, Success _ => Failure issues
      | Failure issues, Failure more => Failure (issues ++ more)
      end
  end.

Definition z_array {T} (schema : ZodType T) : ZodType (list T) :=
  fun p v =>
    match v with
    | JArray items => parse_items schema p 0 items
    | _ => Failure [invalid_type p "array" v]
    end.

(** zod rejects with at least one issue. *)
Definition reports {T} (schema : ZodType T) : Prop :=
  forall p v issues, schema p v = Failure issues -> issues <> [].

Definition shape_reports {T} (shape : Shape T) : Prop :=
  forall p entries issues, shape p entries = Failure issues -> issues <> [].

(** [segment] as [Array.prototype.join] prints it. *)
Definition segment_text (s : PathSegment) : string :=
  match s with
  | Key name => name
  | Index i => Number_toString (Z.of_nat i)
  end.

End Zod.
Import Zod.

Notation "shape '<&>' name ':::' schema" := (with_field shape name schema)
  (at level 65, left associativity, name at next level, schema at next level).

(* ================================================================== *)
(** ** shared/validation.ts *)
(* ================================================================== *)

Module Validation.

(** [`${issue.path.join('.')}: ${issue.message}`]. *)
Definition issue_text (issue : ZodIssue) : string :=
  join "." (map segment_text (path issue)) +++ ": " +++ message issue.

(** [parseResponse]: the typed data of a value that matches the schema; a
    [ValidationError] with one text per issue otherwise. *)
Definition parseResponse {T} (schema : ZodType T) (data : JsValue)
           (metadata : ErrorMetadata) : Completion T :=
  match safeParse schema data with
  | Success d => Return d
  | Failure issues =>
      Throw (ValidationError "API response did not match expected schema"
               metadata (map issue_text issues))
  end.

End Validation.
Import Validation.

(* ================================================================== *)
(** ** URI encoding *)
(* ================================================================== *)

Module Uri.

Definition is_alnum (n : nat) : bool :=
  ((48 <=? n) && (n <=? 57)) || ((65 <=? n) && (n <=? 90)) || ((97 <=? n) && (n <=? 122)).

Definition hex_digit (n : nat) : ascii :=
  if n <? 10 then ascii_of_nat (48 + n) else ascii_of_nat (55 + n).

(** [%XX] for one byte. *)
Definition percent (byte : nat) : string :=
  String "%" (String (hex_digit (byte / 16)) (String (hex_digit (byte mod 16)) EmptyString)).

(** The UTF-8 bytes of a code unit below 256, percent-encoded. *)
Definition percent_utf8 (n : nat) : string :=
  if n <? 128 then percent n
  else percent (192 + n / 64) +++ percent (128 + n mod 64).

Fixpoint escape_with (keep : nat -> bool) (special : ascii -> option string)
         (s : string) : string :=
  match s with
  | EmptyString => EmptyString
  | String c rest =>
      let n := nat_of_ascii c in
      (match special c with
       | Some t => t
       | None => if keep n then String c EmptyString else percent_utf8 n
       end) +++ escape_with keep special rest
  end.

(** The marks that [encodeURIComponent] leaves alone besides letters and
    digits: [- _ . ! ~ * ' ( )]. *)
Definition uri_mark (n : nat) : bool :=
  existsb (Nat.eqb n) [45; 95; 46; 33; 126; 42; 39; 40; 41].

Definition encodeURIComponent (s : string) : string :=
  escape_with (fun n => is_alnum n || uri_mark n) (fun _ => None) s.

(** The serializer of [URLSearchParams]: letters, digits and [* - . _]
    stay, a space becomes [+]. *)
Definition form_keep (n : nat) : bool :=
  is_alnum n || existsb (Nat.eqb n) [42; 45; 46; 95].

Definition form_encode (s : string) : string :=
  escape_with form_keep
    (fun c => if Ascii.eqb c " " then Some "+" else None) s.

(** [new URLSearchParams(record).toString()]. *)
Definition URLSearchParams_toString (record : list (string * string)) : string :=
  join "&" (map (fun kv => form_encode (fst kv) +++ "=" +++ form_encode (snd kv)) record).

End Uri.
Import Uri.

(* ================================================================== *)
(** ** tools/jira/schemas.ts *)
(* ================================================================== *)

Module Schemas.

(** [/^[A-Z][A-Z0-9_]*-\d+$/i]. *)
Definition is_letter (n : nat) : bool :=
  ((65 <=? n) && (n <=? 90)) || ((97 <=? n) && (n <=? 122)).
Definition is_digit (n : nat) : bool := (48 <=? n) && (n <=? 57).
Definition is_key_char (n : nat) : bool := is_letter n || is_digit n || (n =? 95).

Fixpoint all_digits (s : string) : bool :=
  match s with
  | EmptyString => true
  | String c rest => is_digit (nat_of_ascii c) && all_digits rest
  end.

(** The rest of a key after its first letter: [[A-Z0-9_]*-\d+]. *)
Fixpoint key_tail (s : string) : bool :=
  match s with
  | EmptyString => false
  | String c rest =>
      ((nat_of_ascii c =? 45) && truthy rest && all_digits rest)
      || (is_key_char (nat_of_ascii c) && key_tail rest)
  end.

(** Every code unit of [s] satisfies [P]. *)
Fixpoint all_units (P : nat -> bool) (s : string) : bool :=
  match s with
  | EmptyString => true
  | String c rest => P (nat_of_ascii c) && all_units P rest
  end.

(** The code units of an issue key: letters, digits, [_] and [-]. *)
Definition key_unit (n : nat) : bool := is_key_char n || (n =? 45).

Definition JIRA_ISSUE_KEY_PATTERN (s : string) : bool :=
  match s with
  | EmptyString => false
  | String c rest => is_letter (nat_of_ascii c) && key_tail rest
  end.

Record Named : Type := { name : string }.

Record Assignee : Type := {
  displayName : string;
  emailAddress : option string
}.

Record IssueFields : Type := {
  summary : string;
  status : Named;
  issuetype : Named;
  priority : option Named;
  assignee : option Assignee;
  description : JsValue;
  created : string;
  updated : string
}.

Record JiraIssueResponse : Type := {
  key : string;
  fields : IssueFields
}.

Definition NamedSchema : ZodType Named :=
  z_object (shape_of Build_Named <&> "name" ::: z_string).

Definition AssigneeSchema : ZodType Assignee :=
  z_object (shape_of Build_Assignee
              <&> "displayName" ::: z_string
              <&> "emailAddress" ::: z_optional z_string).

Definition IssueFieldsSchema : ZodType IssueFields :=
  z_object (shape_of Build_IssueFields
              <&> "summary" ::: z_string
              <&> "status" ::: NamedSchema
              <&> "issuetype" ::: NamedSchema
              <&> "priority" ::: z_nullable NamedSchema
              <&> "assignee" ::: z_nullable AssigneeSchema
              <&> "description" ::: z_unknown_nullable
              <&> "created" ::: z_string
              <&> "updated" ::: z_string).

Definition JiraIssueResponseSchema : ZodType JiraIssueResponse :=
  z_object (shape_of Build_JiraIssueResponse
              <&> "key" ::: z_string
              <&> "fields" ::: IssueFieldsSchema).

Record JiraSearchResponse : Type := {
  issues : list JiraIssueResponse;
  total : option Z;
  isLast : option bool
}.

Definition JiraSearchResponseSchema : ZodType JiraSearchResponse :=
  z_object (shape_of Build_JiraSearchResponse
              <&> "issues" ::: z_array JiraIssueResponseSchema
              <&> "total" ::: z_optional z_number
              <&> "isLast" ::: z_optional z_boolean).

(** One [{ type: 'paragraph', content: [{ type: 'text', text }] }]. *)
Definition paragraph_node (block : string) : JsValue :=
  JObject [ ("type", JString "paragraph");
            ("content", JArray [ JObject [ ("type", JString "text");
                                           ("text", JString block) ] ]) ].

(** [textToAdf]: the text is split at runs of two or more line feeds, the
    blocks are trimmed, the empty ones dropped; a document without blocks
    gets one empty paragraph. *)
Definition textToAdf (text : string) : JsValue :=
  let paragraphs :=
    map paragraph_node (filter truthy (map trim (split_blank_lines text))) in
  JObject [ ("type", JString "doc");
            ("version", JNumber 1);
            ("content",
              JArray (if 0 <? length paragraphs then paragraphs
                      else [paragraph_node ""])) ].

(** [record[name]]: a TypeError on null and undefined, the own entry of an
    object, [undefined] for everything else. *)
Definition get_property (v : JsValue) (name : string) : Completion JsValue :=
  match v with
  | JUndefined | JNull =>
      Throw (PlatformError "TypeError" ("Cannot read properties of " +++ parsedType v))
  | JObject entries =>
      Return (match own name entries with Some x => x | None => JUndefined end)
  | _ => Return JUndefined
  end.

(** [content.map((child, index) => f(child, index))], a TypeError when
    [content] has no [map]; [i] is the index of the first element. *)
Fixpoint map_from {B} (f : JsValue -> nat -> Completion B) (i : nat)
         (items : list JsValue) : Completion (list B) :=
  match items with
  | [] => Return []
  | x :: rest =>
      bindC (f x i) (fun y => bindC (map_from f (S i) rest) (fun ys => Return (y :: ys)))
  end.

Definition array_map {B} (f : JsValue -> nat -> Completion B) (v : JsValue)
  : Completion (list B) :=
  match v with
  | JArray items => map_from f 0 items
  | _ => Throw (PlatformError "TypeError" "content.map is not a function")
  end.

(** The numbered item of an ordered list: the "- " of a list item gives
    way to the number. *)
Definition numbered (index : nat) (text : string) : string :=
  if startsWith text "- "
  then Number_toString (Z.of_nat index + 1) +++ ". " +++ slice 2 text
  else Number_toString (Z.of_nat index + 1) +++ ". " +++ text.


Definition quote_lines (text : string) : string :=
  join nl (map (fun line => "> " +++ line) (split LF text)).

(** The [switch] of [extractTextFromAdf] over the type of a container,
    after [content.map(extractTextFromAdf)]; [self] is the recursive
    call. *)
Definition container_text (self : JsValue -> Completion string) (type : string)
           (content : JsValue) : Completion string :=
  (let! childTexts := array_map (fun child _ => self child) content in
   if String.eqb type "doc" then Return (join (nl +++ nl) childTexts)
   else if String.eqb type "paragraph" || String.eqb type "heading"
   then Return (join "" childTexts)
   else if String.eqb type "bulletList" then Return (join nl childTexts)
   else if String.eqb type "orderedList" then
     (let! items :=
        array_map
          (fun child index =>
             let! text := self child in
             Return (numbered index text))
          content in
      Return (join nl items))
   else if String.eqb type "listItem" then Return ("- " +++ join "" childTexts)
   else if String.eqb type "codeBlock" then Return (join "" childTexts)
   else if String.eqb type "blockquote" then Return (quote_lines (join "" childTexts))
   else Return (join "" childTexts))%completion.

(** The body of [extractTextFromAdf]; [self] is the recursive call. *)
Definition extractTextFromAdf_body (self : JsValue -> Completion string)
           (node : JsValue) : Completion string :=
  match node with
  | JNull | JUndefined => Return ""
  | _ =>
      if negb (String.eqb (typeof node) "object") then Return "" else
      (let! type := get_property node "type" in
       match type with
       | JString type =>
           if String.eqb type "text" then
             (let! text := get_property node "text" in
              Return (match text with JString s => s | _ => "" end))
           else if String.eqb type "hardBreak" then Return nl
           else
             (let! content := get_property node "content" in
              if negb (isArray content) then Return ""
              else container_text self type content)
       | _ => Return ""
       end)%completion
  end.

(** [extractTextFromAdf], with [fuel] call frames left on the stack. *)
Fixpoint extractTextFromAdf_in (fuel : nat) (node : JsValue) : Completion string :=
  match fuel with
  | O => Throw StackOverflow
  | S fuel' => extractTextFromAdf_body (extractTextFromAdf_in fuel') node
  end.

(** [extractTextFromAdf] on the stack of the runtime. *)
Definition extractTextFromAdf (rt : Runtime) (node : JsValue) : Completion string :=
  extractTextFromAdf_in (call_stack rt) node.

(** The text that the reducer returns for a node on a stack that is deeper
    than the node. *)
Definition text_of (node : JsValue) : string :=
  match extractTextFromAdf_in (S (depth node)) node with
  | Return s => s
  | _ => ""
  end.

(** The texts [xs], each with its position counted from [i]. *)
Fixpoint with_index {A} (i : nat) (xs : list A) : list (nat * A) :=
  match xs with
  | [] => []
  | x :: rest => (i, x) :: with_index (S i) rest
  end.

(** The text of a container of a given type, from the texts of its
    children. *)
Definition joined (type : string) (texts : list string) : string :=
  if String.eqb type "doc" then join (nl +++ nl) texts
  else if String.eqb type "paragraph" || String.eqb type "heading" then join "" texts
  else if String.eqb type "bulletList" then join nl texts
  else if String.eqb type "orderedList"
  then join nl (map (fun it => numbered (fst it) (snd it)) (with_index 0 texts))
  else if String.eqb type "listItem" then "- " +++ join "" texts
  else if String.eqb type "codeBlock" then join "" texts
  else if String.eqb type "blockquote" then quote_lines (join "" texts)
  else join "" texts.



(** Truthiness of a value, as the conditional operator tests it. *)
Definition truthy_value (v : JsValue) : bool :=
  match v with
  | JUndefined | JNull => false
  | JBool b => b
  | JNumber n => negb (Z.eqb n 0)
  | JString s => truthy s
  | JArray _ | JObject _ => true
  end.

(** [formatJiraIssue]; what [extractTextFromAdf] throws passes
    through. *)
Definition formatJiraIssue (rt : Runtime) (issue : JiraIssueResponse)
  : Completion string :=
  let f := fields issue in
  let priority := match priority f with Some p => name p | None => "None" end in
  let assignee := match assignee f with Some a => displayName a | None => "Unassigned" end in
  (let! descriptionText :=
     if truthy_value (description f) then extractTextFromAdf rt (description f)
     else Return "" in
   let description :=
     if truthy (trim descriptionText) then trim descriptionText
     else "No description provided." in
   Return
     (join nl
        [ key issue +++ ": " +++ summary f;
          "";
          "Type:     " +++ name (issuetype f);
          "Status:   " +++ name (status f);
          "Priority: " +++ priority;
          "Assignee: " +++ assignee;
          "";
          "Created:  " +++ created f;
          "Updated:  " +++ updated f;
          "";
          "Description:";
          description ]))%completion.

(** The text before the first occurrence of [sep] and the text after
    it. *)
Fixpoint cut_at (sep s : string) : option (string * string) :=
  if startsWith s sep then Some (EmptyString, slice (String.length sep) s)
  else match s with
       | EmptyString => None
       | String c rest =>
           match cut_at sep rest with
           | Some (before, after) => Some (String c before, after)
           | None => None
           end
       end.

(** Reading the essential fields back from a formatted issue: the key
    and the summary around the first ": " of the first line, the status
    after the label of the fourth line. *)
Definition rederive (text : string) : option (string * string * string) :=
  match split LF text with
  | first :: _ :: _ :: fourth :: _ =>
      match cut_at ": " first with
      | Some (key, summary) =>
          if startsWith fourth "Status:   "
          then Some (key, summary, slice 10 fourth)
          else None
      | None => None
      end
  | _ => None
  end.

(** No optional field of the issue is null. *)
Definition no_null_optional (issue : JiraIssueResponse) : Prop :=
  priority (fields issue) <> None
  /\ assignee (fields issue) <> None
  /\ description (fields issue) <> JNull
  /\ description (fields issue) <> JUndefined.

Definition essentials (issue : JiraIssueResponse) : string * string * string :=
  (key issue, summary (fields issue), name (status (fields issue))).

(** The dash of the search lines, U+2014.  It lies outside the range of
    the code units that the embedding inspects and stands here as the three
    bytes of its UTF-8 form; no code looks into it. *)
Definition EM_DASH : string :=
  String (ascii_of_nat 226) (String (ascii_of_nat 128) (String (ascii_of_nat 148) EmptyString)).

(** The one-line form of an issue in [formatJiraSearchResults]. *)
Definition search_line (issue : JiraIssueResponse) : string :=
  let f := fields issue in
  let priority := match priority f with Some p => name p | None => "None" end in
  let assignee := match assignee f with Some a => displayName a | None => "Unassigned" end in
  key issue +++ "  [" +++ name (issuetype f) +++ "]  " +++ name (status f)
    +++ "  P:" +++ priority +++ "  @" +++ assignee +++ "  " +++ EM_DASH +++ " "
    +++ summary f.

(** The summary line of [formatJiraSearchResults]; [shown] is
    [issues.length]. *)
Definition search_summary (shown : nat) (total : option Z) (isLast : option bool) : string :=
  let moreAvailable := match isLast with Some false => true | _ => false end in
  if moreAvailable then
    let totalInfo :=
      match total with Some t => " of " +++ Number_toString t | None => "" end in
    "Showing " +++ Number_toString (Z.of_nat shown) +++ totalInfo
      +++ " issue(s) (more results available)."
  else "Found " +++ Number_toString (Z.of_nat shown) +++ " issue(s).".

(** [formatJiraSearchResults]. *)
Definition formatJiraSearchResults (response : JiraSearchResponse) : string :=
  if length (issues response) =? 0 then "No issues found matching the query."
  else
    join nl
      ([ search_summary (length (issues response)) (total response) (isLast response);
         "" ]
         ++ map search_line (issues response)).

(** The data of [JiraCreateIssueResponseSchema]: the fields [id], [key]
    and [self] of the created issue. *)
Record JiraCreateIssueResponse : Type := {
  created_id : string;
  created_key : string;
  created_self : string
}.

Section WithRuntime.
Variable rt : Runtime.

(** [z.string().url()]: a string that [new URL] accepts. *)
Definition z_string_url : ZodType string :=
  fun p v =>
    match v with
    | JString s =>
        match URL_parse rt s with
        | Some _ => Success s
        | None => Failure [ {| Zod.path := p; Zod.message := "Invalid url" |} ]
        end
    | _ => Failure [invalid_type p "string" v]
    end.

Definition JiraCreateIssueResponseSchema : ZodType JiraCreateIssueResponse :=
  z_object (shape_of Build_JiraCreateIssueResponse
              <&> "id" ::: z_string
              <&> "key" ::: z_string
              <&> "self" ::: z_string_url).
End WithRuntime.

End Schemas.
Import Schemas.

(* ================================================================== *)
(** ** tools/jira/client.ts *)
(* ================================================================== *)

Module JiraClient.

Record JiraConfig : Type := {
  baseUrl : string;
  userEmail : string;
  apiToken : string
}.

Record JiraRequestOptions : Type := {
  config : JiraConfig;
  path : string;
  req_method : option string;
  req_body : option string;
  req_metadata : ErrorMetadata;
  notFoundMessage : option string
}.

Inductive ContentBlock : Type :=
| TextContent (text : string).

(** A tool result: [isError] is [false] where the source leaves it out. *)
Record McpResponse : Type := {
  isError : bool;
  content : list ContentBlock
}.

Definition error_response (text : string) : McpResponse :=
  {| isError := true; content := [TextContent text] |}.

Definition text_response (text : string) : McpResponse :=
  {| isError := false; content := [TextContent text] |}.

(** [{ ok: true, data } | { ok: false, mcpResponse }]. *)
Inductive JiraResult : Type :=
| ok_true (data : JsValue)
| ok_false (mcpResponse : McpResponse).

Definition AUTH_FAILED_TEXT : string :=
  "Jira authentication failed. Check the configured credentials.".
Definition PERMISSION_DENIED_TEXT : string :=
  "Permission denied when accessing Jira. The configured user may lack access.".
Definition NOT_FOUND_DEFAULT_TEXT : string :=
  "The requested Jira resource was not found. Check the identifier and try again.".

Section WithRuntime.
Variable rt : Runtime.

(** The options that [jiraRequest] hands to [httpRequest]. *)
Definition http_options (options : JiraRequestOptions) : HttpRequestOptions :=
  let cfg := config options in
  let authToken := Buffer_base64 rt (userEmail cfg +++ ":" +++ apiToken cfg) in
  {| url := baseUrl cfg +++ path options;
     method := Some (or_default (req_method options) "GET");
     headers :=
       Some ([ ("Authorization", "Basic " +++ authToken);
               ("Accept", "application/json") ]
               ++ match req_body options with
                  | Some _ => [ ("Content-Type", "application/json") ]
                  | None => []
                  end);
     body := req_body options;
     timeoutMs := None;
     metadata := req_metadata options |}.

(** What [jiraRequest] does with a response. *)
Definition classify (options : JiraRequestOptions) (response : HttpResponse)
  : Eff JiraResult :=
  let md := req_metadata options in
  let st := HttpClient.status response in
  if (st =? 401)%Z then
    (log rt (entry error "Jira authentication failed" (metadata_fields md)) ;;
     ret (ok_false (error_response AUTH_FAILED_TEXT)))%eff
  else if (st =? 403)%Z then
    (log rt (entry error "Jira permission denied" (metadata_fields md)) ;;
     ret (ok_false (error_response PERMISSION_DENIED_TEXT)))%eff
  else if (st =? 404)%Z then
    let message := or_default (notFoundMessage options) NOT_FOUND_DEFAULT_TEXT in
    (log rt (entry warn "Jira resource not found" (metadata_fields md)) ;;
     ret (ok_false (error_response message)))%eff
  else if (st <? 200)%Z || (300 <=? st)%Z then
    throw (ExternalServiceError
             ("Jira API returned unexpected status " +++ Number_toString st)
             md (Some st))
  else
    match JSON_parse rt (response_body response) with
    | Some data => ret (ok_true data)
    | None =>
        throw (ExternalServiceError "Failed to parse Jira API response as JSON" md None)
    end.

Definition jiraRequest (options : JiraRequestOptions) : Eff JiraResult :=
  (response <- httpRequest rt (http_options options) ;;
   classify options response)%eff.
End WithRuntime.

End JiraClient.
Import JiraClient.

(* ================================================================== *)
(** ** tools/jira/get-issue.ts *)
(* ================================================================== *)

Module GetIssue.

Definition TOOL_NAME : string := "jira_get_issue".

Definition JIRA_FIELDS : string :=
  join "," [ "summary"; "status"; "assignee"; "priority";
             "issuetype"; "description"; "created"; "updated" ].

Definition not_found_text (issueKey : string) : string :=
  "Jira issue " +++ issueKey +++ " was not found. Check the issue key and try again.".

Definition request_path (issueKey : string) : string :=
  "/rest/api/3/issue/" +++ encodeURIComponent issueKey +++ "?"
    +++ URLSearchParams_toString [("fields", JIRA_FIELDS)].

Section WithRuntime.
Variable rt : Runtime.
Variable jira : JiraConfig.

Definition request_options (issueKey : string) (md : ErrorMetadata) : JiraRequestOptions :=
  {| config := jira;
     path := request_path issueKey;
     req_method := None;
     req_body := None;
     req_metadata := md;
     notFoundMessage := Some (not_found_text issueKey) |}.

(** The handler registered by [registerGetIssue]; its argument has passed
    the input schema. *)
Definition handler (issueKey : string) : Eff McpResponse :=
  (correlationId <- crypto_randomUUID rt ;;
   startTime <- Date_now ;;
   let md := {| toolName := TOOL_NAME; operation := "getIssue";
                correlationId := correlationId |} in
   log rt (entry info ("Fetching Jira issue " +++ issueKey) (metadata_fields md)) ;;
   try_catch
     (result <- jiraRequest rt (request_options issueKey md) ;;
      finished <- Date_now ;;
      let durationMs := (finished - startTime)%Z in
      match result with
      | ok_false mcpResponse =>
          log rt (entry warn ("Jira request failed for " +++ issueKey)
                    (("durationMs", JNumber durationMs) :: metadata_fields md)) ;;
          ret mcpResponse
      | ok_true data =>
          validated <- lift (parseResponse JiraIssueResponseSchema data md) ;;
          formattedText <- lift (formatJiraIssue rt validated) ;;
          log rt (entry info ("Fetched issue " +++ issueKey)
                    (("durationMs", JNumber durationMs) :: metadata_fields md)) ;;
          ret (text_response formattedText)
      end)
     (fun err =>
        finished <- Date_now ;;
        let durationMs := (finished - startTime)%Z in
        let errorMessage :=
          if instanceof_Error err then error_message err else "Unknown error" in
        log rt (entry error ("Failed to fetch issue " +++ issueKey)
                  ([ ("error", JString errorMessage);
                     ("durationMs", JNumber durationMs) ] ++ metadata_fields md)) ;;
        ret (error_response
               ("An error occurred while fetching Jira issue " +++ issueKey
                  +++ ". Check server logs for details."))))%eff.
End WithRuntime.

End GetIssue.

(* ================================================================== *)
(** ** tools/jira/update-issue.ts *)
(* ================================================================== *)

Module UpdateIssue.

Definition TOOL_NAME : string := "jira_update_issue".

Definition not_found_text (issueKey : string) : string :=
  "Issue " +++ issueKey +++ " was not found. Check the issue key and try again.".

(** [processedFields]: a copy of the caller's map in which a description
    given as a string is replaced by its ADF document. *)
Definition processedFields (fields : Entries) : Entries :=
  let copy := spread [] fields in
  match own "description" copy with
  | Some (JString text) => assign "description" (textToAdf text) copy
  | _ => copy
  end.

Section WithRuntime.
Variable rt : Runtime.
Variable jira : JiraConfig.

Definition request_body (fields : Entries) : string :=
  JSON_stringify rt (JObject [ ("fields", JObject (processedFields fields)) ]).

Definition request_options (issueKey : string) (fields : Entries) (md : ErrorMetadata)
  : JiraRequestOptions :=
  {| config := jira;
     path := "/rest/api/3/issue/" +++ encodeURIComponent issueKey;
     req_method := Some "PUT";
     req_body := Some (request_body fields);
     req_metadata := md;
     notFoundMessage := Some (not_found_text issueKey) |}.

(** The handler registered by [registerUpdateIssue]. *)
Definition handler (issueKey : string) (fields : Entries) : Eff McpResponse :=
  (correlationId <- crypto_randomUUID rt ;;
   startTime <- Date_now ;;
   let md := {| toolName := TOOL_NAME; operation := "updateIssue";
                correlationId := correlationId |} in
   log rt (entry info ("Updating Jira issue " +++ issueKey) (metadata_fields md)) ;;
   try_catch
     (result <- jiraRequest rt (request_options issueKey fields md) ;;
      finished <- Date_now ;;
      let durationMs := (finished - startTime)%Z in
      match result with
      | ok_false mcpResponse =>
          log rt (entry warn ("Jira update request failed for " +++ issueKey)
                    (("durationMs", JNumber durationMs) :: metadata_fields md)) ;;
          ret mcpResponse
      | ok_true _ =>
          let updatedFieldNames := join ", " (keys (processedFields fields)) in
          log rt (entry info ("Updated issue " +++ issueKey)
                    (("durationMs", JNumber durationMs) :: metadata_fields md)) ;;
          ret (text_response
                 ("Updated " +++ issueKey +++ nl +++ nl
                    +++ "Fields changed: " +++ updatedFieldNames))
      end)
     (fun err =>
        finished <- Date_now ;;
        let durationMs := (finished - startTime)%Z in
        if is_external_with_status err 400 then
          log rt (entry warn "Invalid field names or values in update request"
                    ([ ("error", JString (error_message err));
                       ("durationMs", JNumber durationMs) ] ++ metadata_fields md)) ;;
          ret (error_response
                 "Failed to update issue. Check the field names and values are valid, then try again.")
        else
          let errorMessage :=
            if instanceof_Error err then error_message err else "Unknown error" in
          log rt (entry error "Failed to update Jira issue"
                    ([ ("error", JString errorMessage);
                       ("durationMs", JNumber durationMs) ] ++ metadata_fields md)) ;;
          ret (error_response
                 "An error occurred while updating the Jira issue. Check server logs for details.")))%eff.

End WithRuntime.

End UpdateIssue.

(* ================================================================== *)
(** ** tools/jira/search-issues.ts *)
(* ================================================================== *)

Module SearchIssues.

Definition TOOL_NAME : string := "jira_search_issues".

Definition JIRA_FIELDS : list string :=
  [ "summary"; "status"; "assignee"; "priority";
    "issuetype"; "description"; "created"; "updated" ].

Section WithRuntime.
Variable rt : Runtime.
Variable jira : JiraConfig.

(** [JSON.stringify({ jql, maxResults, fields: JIRA_FIELDS })]. *)
Definition request_body (jql : string) (maxResults : Z) : string :=
  JSON_stringify rt
    (JObject [ ("jql", JString jql);
               ("maxResults", JNumber maxResults);
               ("fields", JArray (map JString JIRA_FIELDS)) ]).

Definition request_options (jql : string) (maxResults : Z) (md : ErrorMetadata)
  : JiraRequestOptions :=
  {| config := jira;
     path := "/rest/api/3/search/jql";
     req_method := Some "POST";
     req_body := Some (request_body jql maxResults);
     req_metadata := md;
     notFoundMessage := None |}.

(** The handler registered by [registerSearchIssues]; its arguments have
    passed the input schema, which puts 50 in the place of an absent
    [maxResults]. *)
Definition handler (jql : string) (maxResults : Z) : Eff McpResponse :=
  (correlationId <- crypto_randomUUID rt ;;
   startTime <- Date_now ;;
   let md := {| toolName := TOOL_NAME; operation := "searchIssues";
                correlationId := correlationId |} in
   log rt (entry info "Searching Jira issues with JQL" (metadata_fields md)) ;;
   try_catch
     (result <- jiraRequest rt (request_options jql maxResults md) ;;
      finished <- Date_now ;;
      let durationMs := (finished - startTime)%Z in
      match result with
      | ok_false mcpResponse =>
          log rt (entry warn "Jira search request failed"
                    (("durationMs", JNumber durationMs) :: metadata_fields md)) ;;
          ret mcpResponse
      | ok_true data =>
          validated <- lift (parseResponse JiraSearchResponseSchema data md) ;;
          let formattedText := formatJiraSearchResults validated in
          log rt (entry info
                    ("Search returned "
                       +++ Number_toString (Z.of_nat (length (issues validated)))
                       +++ " issue(s)")
                    (("durationMs", JNumber durationMs) :: metadata_fields md)) ;;
          ret (text_response formattedText)
      end)
     (fun err =>
        finished <- Date_now ;;
        let durationMs := (finished - startTime)%Z in
        if is_external_with_status err 400 then
          log rt (entry warn "Invalid JQL query"
                    ([ ("error", JString (error_message err));
                       ("durationMs", JNumber durationMs) ] ++ metadata_fields md)) ;;
          ret (error_response
                 "Invalid JQL query. Check the syntax and field names, then try again.")
        else
          let errorMessage :=
            if instanceof_Error err then error_message err else "Unknown error" in
          log rt (entry error "Failed to search Jira issues"
                    ([ ("error", JString errorMessage);
                       ("durationMs", JNumber durationMs) ] ++ metadata_fields md)) ;;
          ret (error_response
                 "An error occurred while searching Jira issues. Check server logs for details.")))%eff.

End WithRuntime.

End SearchIssues.

(* ================================================================== *)
(** ** tools/jira/create-issue.ts *)
(* ================================================================== *)

Module CreateIssue.

Definition TOOL_NAME : string := "jira_create_issue".

(** The [fields] object of the handler: project, summary and issue type,
    and the description as an ADF document when one was given. *)
Definition issue_fields (project summary issueType : string) (description : option string)
  : Entries :=
  let fields :=
    [ ("project", JObject [("key", JString project)]);
      ("summary", JString summary);
      ("issuetype", JObject [("name", JString issueType)]) ] in
  match description with
  | Some text => assign "description" (textToAdf text) fields
  | None => fields
  end.

Section WithRuntime.
Variable rt : Runtime.
Variable jira : JiraConfig.

Definition request_body (project summary issueType : string) (description : option string)
  : string :=
  JSON_stringify rt
    (JObject [ ("fields", JObject (issue_fields project summary issueType description)) ]).

Definition request_options (project summary issueType : string)
           (description : option string) (md : ErrorMetadata) : JiraRequestOptions :=
  {| config := jira;
     path := "/rest/api/3/issue";
     req_method := Some "POST";
     req_body := Some (request_body project summary issueType description);
     req_metadata := md;
     notFoundMessage :=
       Some "Failed to create issue. The project or issue type may not exist." |}.

(** The handler registered by [registerCreateIssue]; its arguments have
    passed the input schema. *)
Definition handler (project summary issueType : string) (description : option string)
  : Eff McpResponse :=
  (correlationId <- crypto_randomUUID rt ;;
   startTime <- Date_now ;;
   let md := {| toolName := TOOL_NAME; operation := "createIssue";
                correlationId := correlationId |} in
   log rt (entry info ("Creating Jira issue in project " +++ project) (metadata_fields md)) ;;
   try_catch
     (result <- jiraRequest rt (request_options project summary issueType description md) ;;
      finished <- Date_now ;;
      let durationMs := (finished - startTime)%Z in
      match result with
      | ok_false mcpResponse =>
          log rt (entry warn ("Jira create request failed for project " +++ project)
                    (("durationMs", JNumber durationMs) :: metadata_fields md)) ;;
          ret mcpResponse
      | ok_true data =>
          validated <- lift (parseResponse (JiraCreateIssueResponseSchema rt) data md) ;;
          log rt (entry info ("Created issue " +++ created_key validated)
                    (("durationMs", JNumber durationMs) :: metadata_fields md)) ;;
          ret (text_response
                 ("Created " +++ created_key validated +++ ": " +++ summary +++ nl +++ nl
                    +++ "Type: " +++ issueType +++ nl +++ "Project: " +++ project))
      end)
     (fun err =>
        finished <- Date_now ;;
        let durationMs := (finished - startTime)%Z in
        if is_external_with_status err 400 then
          log rt (entry warn "Invalid project key or issue type"
                    ([ ("error", JString (error_message err));
                       ("durationMs", JNumber durationMs) ] ++ metadata_fields md)) ;;
          ret (error_response
                 "Failed to create issue. Check the project key and issue type are valid, then try again.")
        else
          let errorMessage :=
            if instanceof_Error err then error_message err else "Unknown error" in
          log rt (entry error "Failed to create Jira issue"
                    ([ ("error", JString errorMessage);
                       ("durationMs", JNumber durationMs) ] ++ metadata_fields md)) ;;
          ret (error_response
                 "An error occurred while creating the Jira issue. Check server logs for details.")))%eff.

End WithRuntime.

End CreateIssue.

(* ================================================================== *)
(** ** config/index.ts *)
(* ================================================================== *)

Module Config.

(** [process.env[variable]]: a string, or [undefined] for a variable that
    is not set. *)
Definition env_value (env : string -> option string) (variable : string) : JsValue :=
  match env variable with
  | Some text => JString text
  | None => JUndefined
  end.

(** The object that [loadConfig] hands to the schema. *)
Definition raw_config (env : string -> option string) : JsValue :=
  JObject
    [ ("jira",
        JObject [ ("baseUrl", env_value env "JIRA_BASE_URL_MCP_RELAY");
                  ("userEmail", env_value env "JIRA_USER_EMAIL_MCP_RELAY");
                  ("apiToken", env_value env "JIRA_API_TOKEN_MCP_RELAY") ]);
      ("s3",
        JObject [ ("accessKeyId", env_value env "AWS_ACCESS_KEY_ID");
                  ("secretAccessKey", env_value env "AWS_SECRET_ACCESS_KEY");
                  ("region", env_value env "AWS_REGION");
                  ("bucketName", env_value env "S3_BUCKET_NAME") ]) ].

(** The variables that [loadConfig] reads. *)
Definition VARIABLES : list string :=
  [ "JIRA_BASE_URL_MCP_RELAY"; "JIRA_USER_EMAIL_MCP_RELAY"; "JIRA_API_TOKEN_MCP_RELAY";
    "AWS_ACCESS_KEY_ID"; "AWS_SECRET_ACCESS_KEY"; "AWS_REGION"; "S3_BUCKET_NAME" ].

Definition STARTUP : ErrorMetadata :=
  {| toolName := "server"; operation := "loadConfig"; correlationId := "startup" |}.

(** [`  - ${issue.path.join('.')}: ${issue.message}`]. *)
Definition issue_line (issue : ZodIssue) : string :=
  "  - " +++ join "." (map segment_text (Zod.path issue)) +++ ": " +++ Zod.message issue.

Section WithSchema.
(** [ServerConfigSchema] of config/schemas.ts, whatever it is. *)
Variable ServerConfig : Type.
Variable ServerConfigSchema : ZodType ServerConfig.

(** [loadConfig]: the typed configuration, or a [ConfigurationError] that
    lists what the schema reports. *)
Definition loadConfig (env : string -> option string) : Completion ServerConfig :=
  match safeParse ServerConfigSchema (raw_config env) with
  | Success data => Return data
  | Failure issues =>
      let formatted := join nl (map issue_line issues) in
      Throw (ConfigurationError
               ("Configuration validation failed:" +++ nl +++ formatted) STARTUP)
  end.
End WithSchema.

End Config.

(* ================================================================== *)
(** ** A runtime to run the embedding on *)
(* ================================================================== *)

(** Built-ins that behave like those of the platform on the inputs the
    examples use: JSON without escape sequences, fractions and exponents;
    URLs of the form [scheme://authority/path?query#fragment] without
    normalisation; dates from 1970 on. *)
Module Sample.

Definition DQUOTE : ascii := ascii_of_nat 34.
Definition BACKSLASH : ascii := ascii_of_nat 92.

(** *** JSON.stringify *)

Definition escape_unit (c : ascii) : string :=
  let n := nat_of_ascii c in
  if Ascii.eqb c DQUOTE then String BACKSLASH (String DQUOTE EmptyString)
  else if Ascii.eqb c BACKSLASH then String BACKSLASH (String BACKSLASH EmptyString)
  else if n =? 8 then String BACKSLASH "b"
  else if n =? 9 then String BACKSLASH "t"
  else if n =? 10 then String BACKSLASH "n"
  else if n =? 12 then String BACKSLASH "f"
  else if n =? 13 then String BACKSLASH "r"
  else if n <? 32
  then String BACKSLASH
         ("u00" +++ String (lower_unit (hex_digit (n / 16)))
                      (String (lower_unit (hex_digit (n mod 16))) EmptyString))
  else String c EmptyString.

Fixpoint escape_units (s : string) : string :=
  match s with
  | EmptyString => EmptyString
  | String c rest => escape_unit c +++ escape_units rest
  end.

Definition quote (s : string) : string :=
  String DQUOTE (escape_units s +++ String DQUOTE EmptyString).

Fixpoint present {A} (xs : list (option A)) : list A :=
  match xs with
  | [] => []
  | Some x :: rest => x :: present rest
  | None :: rest => present rest
  end.

Definition is_undefined (v : JsValue) : bool :=
  match v with JUndefined => true | _ => false end.

(** An entry that holds [undefined] is left out; an element that is
    [undefined] is printed as null. *)
Fixpoint stringify (v : JsValue) : string :=
  match v with
  | JUndefined | JNull => "null"
  | JBool true => "true"
  | JBool false => "false"
  | JNumber n => Number_toString n
  | JString s => quote s
  | JArray items => "[" +++ join "," (map stringify items) +++ "]"
  | JObject entries =>
      "{" +++ join ","
        (present
           (map (fun kv =>
                   if is_undefined (snd kv) then None
                   else Some (quote (fst kv) +++ ":" +++ stringify (snd kv)))
                entries))
        +++ "}"
  end.

(** *** JSON.parse *)

Fixpoint skip_ws (s : string) : string :=
  match s with
  | String c rest =>
      let n := nat_of_ascii c in
      if (n =? 32) || (n =? 9) || (n =? 10) || (n =? 13) then skip_ws rest else s
  | EmptyString => EmptyString
  end.

(** The characters of a string literal up to its closing quote. *)
Fixpoint string_literal (s : string) : option (string * string) :=
  match s with
  | EmptyString => None
  | String c rest =>
      if Ascii.eqb c DQUOTE then Some (EmptyString, rest)
      else if Ascii.eqb c BACKSLASH || (nat_of_ascii c <? 32) then None
      else match string_literal rest with
           | Some (text, after) => Some (String c text, after)
           | None => None
           end
  end.

(** The digits at the head of [s], as a number, with what follows. *)
Fixpoint digits (acc : Z) (seen : bool) (s : string) : option (Z * string) :=
  match s with
  | String c rest =>
      let n := nat_of_ascii c in
      if (48 <=? n) && (n <=? 57)
      then digits (acc * 10 + Z.of_nat (n - 48))%Z true rest
      else if seen then Some (acc, s) else None
  | EmptyString => if seen then Some (acc, s) else None
  end.

Fixpoint value (fuel : nat) (s : string) : option (JsValue * string) :=
  match fuel with
  | O => None
  | S fuel' =>
      let s := skip_ws s in
      if startsWith s "null" then Some (JNull, slice 4 s)
      else if startsWith s "true" then Some (JBool true, slice 4 s)
      else if startsWith s "false" then Some (JBool false, slice 5 s)
      else
        match s with
        | EmptyString => None
        | String c rest =>
            if Ascii.eqb c DQUOTE then
              match string_literal rest with
              | Some (text, after) => Some (JString text, after)
              | None => None
              end
            else if Ascii.eqb c "[" then
              match skip_ws rest with
              | String "]" after => Some (JArray [], after)
              | _ =>
                  match elements fuel' rest with
                  | Some (items, after) => Some (JArray items, after)
                  | None => None
                  end
              end
            else if Ascii.eqb c "{" then
              match skip_ws rest with
              | String "}" after => Some (JObject [], after)
              | _ =>
                  match members fuel' [] rest with
                  | Some (entries, after) => Some (JObject entries, after)
                  | None => None
                  end
              end
            else if Ascii.eqb c "-" then
              match digits 0 false rest with
              | Some (n, after) => Some (JNumber (- n), after)
              | None => None
              end
            else
              match digits 0 false s with
              | Some (n, after) => Some (JNumber n, after)
              | None => None
              end
        end
  end
with elements (fuel : nat) (s : string) : option (list JsValue * string) :=
  match fuel with
  | O => None
  | S fuel' =>
      match value fuel' s with
      | Some (v, after) =>
          match skip_ws after with
          | String "," more =>
              match elements fuel' more with
              | Some (vs, rest) => Some (v :: vs, rest)
              | None => None
              end
          | String "]" rest => Some ([v], rest)
          | _ => None
          end
      | None => None
      end
  end
with members (fuel : nat) (acc : Entries) (s : string) : option (Entries * string) :=
  match fuel with
  | O => None
  | S fuel' =>
      match skip_ws s with
      | String c rest =>
          if Ascii.eqb c DQUOTE then
            match string_literal rest with
            | Some (name, after) =>
                match skip_ws after with
                | String ":" more =>
                    match value fuel' more with
                    | Some (v, after') =>
                        match skip_ws after' with
                        | String "," more' => members fuel' (assign name v acc) more'
                        | String "}" rest' => Some (assign name v acc, rest')
                        | _ => None
                        end
                    | None => None
                    end
                | _ => None
                end
            | None => None
            end
          else None
      | EmptyString => None
      end
  end.

Definition parse (s : string) : option JsValue :=
  match value (2 * String.length s + 2) s with
  | Some (v, rest) =>
      match skip_ws rest with
      | EmptyString => Some v
      | _ => None
      end
  | None => None
  end.

(** *** new URL *)

(** The part of [s] before the first character that [stop] accepts, and
    the rest. *)
Fixpoint take_until (stop : ascii -> bool) (s : string) : string * string :=
  match s with
  | EmptyString => (EmptyString, EmptyString)
  | String c rest =>
      if stop c then (EmptyString, s)
      else let (a, b) := take_until stop rest in (String c a, b)
  end.

Fixpoint all_letters (s : string) : bool :=
  match s with
  | EmptyString => true
  | String c rest => is_letter (nat_of_ascii c) && all_letters rest
  end.

Definition is_one_of (cs : string) (c : ascii) : bool :=
  existsb (Ascii.eqb c) (list_ascii_of_string cs).

Definition parse_url (raw : string) : option URLRecord :=
  let (scheme, after_scheme) := take_until (is_one_of ":") raw in
  if truthy scheme && all_letters scheme && startsWith after_scheme "://" then
    let (authority, after_authority) :=
      take_until (is_one_of "/?#") (slice 3 after_scheme) in
    let (path, after_path) := take_until (is_one_of "?#") after_authority in
    let (query, fragment) := take_until (is_one_of "#") after_path in
    if truthy authority then
      Some {| origin := scheme +++ "://" +++ authority;
              pathname := if truthy path then path else "/";
              search := if String.eqb query "?" then "" else query;
              hash := if String.eqb fragment "#" then "" else fragment |}
    else None
  else None.

(** *** Buffer.from(text).toString('base64') *)

Definition utf8 (s : string) : list nat :=
  flat_map (fun c => let n := nat_of_ascii c in
                     if n <? 128 then [n] else [192 + n / 64; 128 + n mod 64])
           (list_ascii_of_string s).

Definition sextet (n : nat) : ascii :=
  nth n (list_ascii_of_string
           "ABCDEFGHIJKLMNOPQRSTUVWXYZabcdefghijklmnopqrstuvwxyz0123456789+/") "="%char.

Fixpoint base64_of (bytes : list nat) : string :=
  match bytes with
  | [] => EmptyString
  | [a] =>
      String (sextet (a / 4)) (String (sextet (a mod 4 * 16)) "==")
  | [a; b] =>
      String (sextet (a / 4))
        (String (sextet (a mod 4 * 16 + b / 16))
           (String (sextet (b mod 16 * 4)) "="))
  | a :: b :: c :: rest =>
      String (sextet (a / 4))
        (String (sextet (a mod 4 * 16 + b / 16))
           (String (sextet (b mod 16 * 4 + c / 64))
              (String (sextet (c mod 64)) (base64_of rest))))
  end.

Definition base64 (s : string) : string := base64_of (utf8 s).

(** *** Date.prototype.toISOString *)

(** [n] in decimal, padded with zeros to [width] digits. *)
Definition padded (width : nat) (n : Z) : string :=
  let text := Number_toString n in
  String.concat "" (repeat "0" (width - String.length text)) +++ text.

(** The civil date of a day counted from 1970-01-01. *)
Definition civil (day : Z) : Z * Z * Z :=
  let z := (day + 719468)%Z in
  let era := (z / 146097)%Z in
  let doe := (z - era * 146097)%Z in
  let yoe := ((doe - doe / 1460 + doe / 36524 - doe / 146096) / 365)%Z in
  let doy := (doe - (365 * yoe + yoe / 4 - yoe / 100))%Z in
  let mp := ((5 * doy + 2) / 153)%Z in
  let d := (doy - (153 * mp + 2) / 5 + 1)%Z in
  let m := (if mp <? 10 then mp + 3 else mp - 9)%Z in
  let y := (yoe + era * 400 + (if m <=? 2 then 1 else 0))%Z in
  (y, m, d).

Definition iso (ms : Z) : string :=
  let '(y, m, d) := civil (ms / 86400000) in
  let t := (ms mod 86400000)%Z in
  padded 4 y +++ "-" +++ padded 2 m +++ "-" +++ padded 2 d +++ "T"
    +++ padded 2 (t / 3600000) +++ ":" +++ padded 2 (t / 60000 mod 60) +++ ":"
    +++ padded 2 (t / 1000 mod 60) +++ "." +++ padded 3 (t mod 1000) +++ "Z".

(** *** crypto.randomUUID *)

Definition uuid (n : nat) : string :=
  "00000000-0000-4000-8000-" +++ padded 12 (Z.of_nat n).

(** The runtime in front of a given network, with a stack of one hundred
    frames: small, so that a value of a hundred levels shows what becomes
    of a value that is too deep for the stack. *)
Definition runtime (net : FetchInit -> Settlement) : Runtime :=
  {| JSON_parse := parse;
     JSON_stringify := stringify;
     URL_parse := parse_url;
     Buffer_base64 := base64;
     toISOString := iso;
     randomUUID := uuid;
     upstream := net;
     spare_frames := 92 |}.

(** A world at the start of an invocation. *)
Definition start (at_ms : Z) : World :=
  {| now := at_ms; stderr := []; requests := []; aborted := []; uuids_drawn := 0;
     timers := []; handles := 0 |}.

(** Two issues that differ in key and summary only. *)
Definition issue_a : JiraIssueResponse :=
  {| key := "A: B";
     fields := {| summary := "C";
                  status := {| name := "Open" |};
                  issuetype := {| name := "Task" |};
                  priority := Some {| name := "High" |};
                  assignee := Some {| displayName := "Ada"; emailAddress := None |};
                  description := textToAdf "text";
                  created := "2026-01-01T00:00:00.000+0000";
                  updated := "2026-01-02T00:00:00.000+0000" |} |}.

Definition issue_b : JiraIssueResponse :=
  {| key := "A";
     fields := {| summary := "B: C";
                  status := {| name := "Open" |};
                  issuetype := {| name := "Task" |};
                  priority := Some {| name := "High" |};
                  assignee := Some {| displayName := "Ada"; emailAddress := None |};
                  description := textToAdf "text";
                  created := "2026-01-01T00:00:00.000+0000";
                  updated := "2026-01-02T00:00:00.000+0000" |} |}.

(** A network that answers every request with 404 after 120 ms. *)
Definition net404 : FetchInit -> Settlement :=
  fun _ => Responds 120 404 "{}".

(** A network that never answers. *)
Definition silent : FetchInit -> Settlement := fun _ => Silent.

(** A network that answers every request after 80 ms. *)
Definition answers (status : Z) (body : string) : FetchInit -> Settlement :=
  fun _ => Responds 80 status body.

(** A URL with a query string and a fragment. *)
Definition leaky_url : string :=
  "https://jira.example.test/rest/api/3/search?token=s3cr3t#top".

(** A URL without a scheme, which does not parse. *)
Definition unparsed_url : string := "jira.example.test/rest/api/3/search?token=s3cr3t".

(** A network that cannot be reached. *)
Definition offline : FetchInit -> Settlement :=
  fun _ => Faults 40 (PlatformError "TypeError" "fetch failed").

Definition md0 : ErrorMetadata :=
  {| toolName := "jira_search_issues"; operation := "searchIssues";
     correlationId := uuid 0 |}.

(** A GET request without headers, body or timeout. *)
Definition get (u : string) : HttpRequestOptions :=
  {| url := u; method := None; headers := None; body := None;
     timeoutMs := None; metadata := md0 |}.

Definition jira : JiraConfig :=
  {| baseUrl := "https://jira.example.test";
     userEmail := "relay@example.test";
     apiToken := "s3cr3t" |}.

(** A log entry with a credential two objects and one array deep. *)
Definition nested_entry : JsValue :=
  JObject [ ("level", JString "info");
            ("attempt", JNumber 2);
            ("request",
              JObject [ ("targets",
                          JArray [ JObject [ ("baseUrl", JString "https://jira.example.test");
                                             ("apiToken", JString "s3cr3t");
                                             ("retry", JNull) ] ]) ]) ].

(** [levels] arrays, one in the other, around a value. *)
Fixpoint nested_arrays (levels : nat) (inner : JsValue) : JsValue :=
  match levels with
  | O => inner
  | S levels' => JArray [nested_arrays levels' inner]
  end.

(** A log entry with a credential and, beside it, a value of a hundred
    levels. *)
Definition deep_entry : JsValue :=
  JObject [ ("apiToken", JString "s3cr3t");
            ("trace", nested_arrays 100 (JNumber 1)) ].

(** An object as [JSON.parse] makes it of a text with a "__proto__"
    member. *)
Definition proto_entry : JsValue :=
  JObject [ ("__proto__", JNumber 1); ("attempt", JNumber 2) ].

(** A document node around the given blocks. *)
Definition node_with_version (blocks : list JsValue) : JsValue :=
  JObject [ ("type", JString "doc"); ("version", JNumber 1);
            ("content", JArray blocks) ].

Definition text_node (text : string) : JsValue :=
  JObject [ ("type", JString "text"); ("text", JString text) ].

Definition node (type : string) (children : list JsValue) : JsValue :=
  JObject [ ("type", JString type); ("content", JArray children) ].

(** A panel, which the reducer does not know, around a paragraph and a
    status lozenge without children. *)
Definition panel : JsValue :=
  node "panel" [ node "paragraph" [ text_node "Heads up: "; text_node "read this." ];
                 JObject [ ("type", JString "status") ] ].

(** An ordered list of three items. *)
Definition steps : JsValue :=
  node "orderedList"
    [ node "listItem" [ node "paragraph" [ text_node "clone" ] ];
      node "listItem" [ node "paragraph" [ text_node "build" ] ];
      node "listItem" [ node "paragraph" [ text_node "test" ] ] ].

(** Bullet lists, one in the last item of the other, [levels] deep. *)
Fixpoint nested_list (levels : nat) : JsValue :=
  match levels with
  | O => node "bulletList" [ node "listItem" [ node "paragraph" [ text_node "leaf" ] ] ]
  | S levels' =>
      node "bulletList"
        [ node "listItem" [ node "paragraph" [ text_node "item" ]; nested_list levels' ] ]
  end.

(** A document whose list nests deeper than the stack of [runtime]. *)
Definition deep_tree : JsValue := node "doc" [ nested_list 50 ].

(** The field map of an update: a new summary, a description of two
    paragraphs and a priority. *)
Definition update_fields : Entries :=
  [ ("summary", JString "New title");
    ("description", JString ("First paragraph." +++ nl +++ nl +++ "Second paragraph."));
    ("priority", JObject [("name", JString "High")]) ].



(** A call of [jiraRequest] as the search tool makes it. *)
Definition search_request (notFound : option string) : JiraRequestOptions :=
  {| config := jira;
     path := "/rest/api/3/search/jql";
     req_method := Some "POST";
     req_body := Some (stringify (JObject [("jql", JString "project = PROJ")]));
     req_metadata := md0;
     notFoundMessage := notFound |}.

End Sample.

(* ================================================================== *)
(** ** What is observed of a value, a text and a run *)
(* ================================================================== *)

Module Observations.

(** The marker of the sanitiser. *)
Definition is_marker (v : JsValue) : bool :=
  match v with
  | JString s => String.eqb s "[REDACTED]"
  | _ => false
  end.

(** A value that the sanitiser has nothing to do on: every entry under a
    sensitive key, at any depth, holds the marker, and no object has an
    entry under "__proto__". *)
Fixpoint settled (v : JsValue) : bool :=
  match v with
  | JArray items => forallb settled items
  | JObject entries =>
      forallb (fun kv => negb (is_proto (fst kv))
                         && (if is_sensitive (fst kv) then is_marker (snd kv)
                             else settled (snd kv)))
              entries
  | _ => true
  end.

Section Lines.
Variable rt : Runtime.

(** The line that [log] writes for an entry at a clock reading, when it
    writes one. *)
Definition written (at_ms : Z) (e : Entries) : JsValue :=
  match sanitise rt (JObject (spread [("timestamp", JString (toISOString rt at_ms))] e))
  with
  | Return output => output
  | _ => JUndefined
  end.
End Lines.

(** A text that begins, or ends, with a line feed. *)
Definition starts_LF (s : string) : bool :=
  match s with
  | String c _ => is_LF c
  | EmptyString => false
  end.

Fixpoint ends_LF (s : string) : bool :=
  match s with
  | EmptyString => false
  | String c EmptyString => is_LF c
  | String _ rest => ends_LF rest
  end.

(** A text without a blank line: no two line feeds in a row. *)
Fixpoint no_blank_line (s : string) : bool :=
  match s with
  | EmptyString => true
  | String c rest => negb (is_LF c && starts_LF rest) && no_blank_line rest
  end.

(** A text that begins, or ends, with a code unit that is no white
    space. *)
Definition starts_solid (s : string) : bool :=
  match s with
  | String c _ => negb (isWhiteSpace c)
  | EmptyString => false
  end.

Fixpoint ends_solid (s : string) : bool :=
  match s with
  | EmptyString => false
  | String c EmptyString => negb (isWhiteSpace c)
  | String _ rest => ends_solid rest
  end.

(** The code units of an encoded path segment: letters, digits, the marks
    that [encodeURIComponent] leaves alone, and the percent sign.  None of
    [/ ? # & =] is among them. *)
Definition segment_unit (n : nat) : bool := is_alnum n || uri_mark n || (n =? 37).

(** The code units of a printed number: digits, the minus sign, the
    point, and [e] and [+] of an exponent. *)
Definition number_unit (n : nat) : bool :=
  is_digit n || existsb (Nat.eqb n) [45; 46; 101; 43].

(** A code unit that opens neither a query string nor a fragment: not
    [?] and not [#]. *)
Definition no_query_unit (n : nat) : bool := negb (n =? 63) && negb (n =? 35).

(** The three lines of an invocation that meets a 404, [after]
    milliseconds into it: the opening line, the warning of the client and
    the warning of the handler. *)
Definition not_found_lines (rt : Runtime) (w : World) (after : Z)
           (tool operation opening closing : string) : list JsValue :=
  let id := JString (randomUUID rt (uuids_drawn w)) in
  [ JObject [ ("timestamp", JString (toISOString rt (now w)));
              ("level", JString "info");
              ("message", JString opening);
              ("toolName", JString tool);
              ("operation", JString operation);
              ("correlationId", id) ];
    JObject [ ("timestamp", JString (toISOString rt (now w + after)));
              ("level", JString "warn");
              ("message", JString "Jira resource not found");
              ("toolName", JString tool);
              ("operation", JString operation);
              ("correlationId", id) ];
    JObject [ ("timestamp", JString (toISOString rt (now w + after)));
              ("level", JString "warn");
              ("message", JString closing);
              ("durationMs", JNumber after);
              ("toolName", JString tool);
              ("operation", JString operation);
              ("correlationId", id) ] ].

(** The entry of a line under a key. *)
Definition field (name : string) (line : JsValue) : option JsValue :=
  match line with
  | JObject entries => own name entries
  | _ => None
  end.

(** A line carries the metadata of a call. *)
Definition carries (md : ErrorMetadata) (line : JsValue) : Prop :=
  field "toolName" line = Some (JString (toolName md))
  /\ field "operation" line = Some (JString (operation md))
  /\ field "correlationId" line = Some (JString (correlationId md)).

End Observations.
Import Observations.

(* ================================================================== *)
(** ** Payloads of the upstream *)
(* ================================================================== *)

Module Cases.

(** An issue as the upstream sends it and as the schema types it. *)
Definition issue_payload : JsValue :=
  JObject [ ("key", JString "PROJ-1");
            ("fields",
              JObject [ ("summary", JString "Login fails");
                        ("status", JObject [("name", JString "Open")]);
                        ("issuetype", JObject [("name", JString "Bug")]);
                        ("priority", JNull);
                        ("assignee", JObject [("displayName", JString "Ada")]);
                        ("description", textToAdf "Steps to reproduce");
                        ("created", JString "2026-01-01T00:00:00.000+0000");
                        ("updated", JString "2026-01-02T00:00:00.000+0000") ]) ].

Definition issue : JiraIssueResponse :=
  {| key := "PROJ-1";
     fields := {| summary := "Login fails";
                  status := {| name := "Open" |};
                  issuetype := {| name := "Bug" |};
                  priority := None;
                  assignee := Some {| displayName := "Ada"; emailAddress := None |};
                  description := textToAdf "Steps to reproduce";
                  created := "2026-01-01T00:00:00.000+0000";
                  updated := "2026-01-02T00:00:00.000+0000" |} |}.

(** One page of a search that has more. *)
Definition search_payload : JsValue :=
  JObject [ ("issues", JArray [issue_payload]);
            ("total", JNumber 12);
            ("isLast", JBool false) ].

Definition search_response : JiraSearchResponse :=
  {| issues := [issue]; total := Some 12%Z; isLast := Some false |}.

(** The answer to a creation. *)
Definition created_payload : JsValue :=
  JObject [ ("id", JString "10001");
            ("key", JString "PROJ-2");
            ("self", JString "https://jira.example.test/rest/api/3/issue/10001") ].

(** An issue without its fields. *)
Definition bare_payload : JsValue := JObject [ ("key", JString "PROJ-1") ].

(** A schema for the configuration that asks for two of its strings. *)
Definition settings_schema : ZodType (string * string) :=
  z_object (shape_of (fun baseUrl region : string => (baseUrl, region))
              <&> "jira" ::: z_object (shape_of (fun baseUrl : string => baseUrl)
                                         <&> "baseUrl" ::: z_string)
              <&> "s3" ::: z_object (shape_of (fun region : string => region)
                                       <&> "region" ::: z_string)).

(** An environment with the Jira variables only. *)
Definition jira_only (variable : string) : option string :=
  if String.eqb variable "JIRA_BASE_URL_MCP_RELAY" then Some "https://jira.example.test"
  else if String.eqb variable "JIRA_USER_EMAIL_MCP_RELAY" then Some "relay@example.test"
  else if String.eqb variable "JIRA_API_TOKEN_MCP_RELAY" then Some "s3cr3t"
  else None.

End Cases.

(* ================================================================== *)
(** * Properties *)
(* ================================================================== *)

(** ** The definitions at work *)

Section Examples.

Example toLowerCase_apiToken : toLowerCase "apiToken" = "apitoken".
Proof. reflexivity. Qed.

Example trim_spaces : trim ("  a b " +++ nl) = "a b".
Proof. reflexivity. Qed.

Example split_blank_two_paras :
  split_blank_lines ("a" +++ nl +++ "b" +++ nl +++ nl +++ nl +++ "c" +++ nl +++ nl)
  = ["a" +++ nl +++ "b"; "c"; ""].
Proof. reflexivity. Qed.

Example split_empty : split LF "" = [""] /\ split_blank_lines "" = [""].
Proof. split; reflexivity. Qed.

Example Number_toString_examples :
  Number_toString 30000 = "30000" /\ Number_toString 0 = "0" /\ Number_toString (-7) = "-7".
Proof. repeat split; reflexivity. Qed.

Example key_pattern_examples :
  map JIRA_ISSUE_KEY_PATTERN ["PROJ-123"; "proj_2-7"; "PROJ-"; "1PROJ-1"; "PROJ-12a"; "PROJ"]
  = [true; true; false; false; false; false].
Proof. reflexivity. Qed.

Example encodeURIComponent_examples :
  encodeURIComponent "PROJ-12" = "PROJ-12"
  /\ encodeURIComponent "a b/c?d" = "a%20b%2Fc%3Fd"
  /\ GetIssue.request_path "PROJ-12"
     = "/rest/api/3/issue/PROJ-12?fields=summary%2Cstatus%2Cassignee%2Cpriority%2Cissuetype%2Cdescription%2Ccreated%2Cupdated".
Proof. repeat split; reflexivity. Qed.

Example textToAdf_empty :
  textToAdf "" = Sample.node_with_version [ Sample.node "paragraph" [ Sample.text_node "" ] ].
Proof. reflexivity. Qed.

Example textToAdf_two_blocks :
  textToAdf ("one" +++ nl +++ nl +++ nl +++ "  two " +++ nl)
  = Sample.node_with_version [ Sample.node "paragraph" [ Sample.text_node "one" ];
                               Sample.node "paragraph" [ Sample.text_node "two" ] ].
Proof. reflexivity. Qed.

Example extract_document :
  extractTextFromAdf (Sample.runtime Sample.silent)
    (textToAdf ("one" +++ nl +++ nl +++ "two"))
  = Return ("one" +++ nl +++ nl +++ "two").
Proof. reflexivity. Qed.

Example extract_ordered_list :
  extractTextFromAdf (Sample.runtime Sample.silent) Sample.steps
  = Return ("1. clone" +++ nl +++ "2. build" +++ nl +++ "3. test").
Proof. reflexivity. Qed.

Example extract_block_quote :
  extractTextFromAdf (Sample.runtime Sample.silent)
    (Sample.node "blockquote"
       [ Sample.node "paragraph"
           [ Sample.text_node "first"; JObject [("type", JString "hardBreak")];
             Sample.text_node "second" ] ])
  = Return ("> first" +++ nl +++ "> second").
Proof. reflexivity. Qed.

Example extract_unknown_type :
  extractTextFromAdf (Sample.runtime Sample.silent) Sample.panel
  = Return "Heads up: read this.".
Proof. reflexivity. Qed.

Example extract_without_stack :
  extractTextFromAdf_in 1 Sample.panel = Throw StackOverflow
  /\ extractTextFromAdf (Sample.runtime Sample.silent) Sample.deep_tree
     = Throw StackOverflow.
Proof. split; reflexivity. Qed.

Example sanitise_nested :
  sanitise (Sample.runtime Sample.silent) Sample.nested_entry
  = Return
      (JObject [ ("level", JString "info");
                 ("attempt", JNumber 2);
                 ("request",
                   JObject [ ("targets",
                               JArray [ JObject [ ("baseUrl", JString "https://jira.example.test");
                                                  ("apiToken", JString "[REDACTED]");
                                                  ("retry", JNull) ] ]) ]) ]).
Proof. reflexivity. Qed.

Example sanitise_whole_value :
  sanitise (Sample.runtime Sample.silent)
    (JObject [ ("Authorization", JObject [ ("scheme", JString "Basic") ]) ])
  = Return (JObject [ ("Authorization", JString "[REDACTED]") ]).
Proof. reflexivity. Qed.

(** The assignment to "__proto__" adds no entry. *)
Example sanitise_proto_entry :
  sanitise (Sample.runtime Sample.silent) Sample.proto_entry
  = Return (JObject [ ("attempt", JNumber 2) ]).
Proof. reflexivity. Qed.

Example sanitise_without_stack :
  sanitise_in 2 Sample.nested_entry = Throw StackOverflow
  /\ frames_needed Sample.nested_entry = 5.
Proof. split; reflexivity. Qed.

Example formatJiraIssue_lines :
  match formatJiraIssue (Sample.runtime Sample.silent) Sample.issue_b with
  | Return text => split LF text
  | _ => []
  end
  = [ "A: B: C"; ""; "Type:     Task"; "Status:   Open"; "Priority: High";
      "Assignee: Ada"; ""; "Created:  2026-01-01T00:00:00.000+0000";
      "Updated:  2026-01-02T00:00:00.000+0000"; ""; "Description:"; "text" ].
Proof. reflexivity. Qed.

Example formatJiraIssue_collision :
  formatJiraIssue (Sample.runtime Sample.silent) Sample.issue_a
  = formatJiraIssue (Sample.runtime Sample.silent) Sample.issue_b
  /\ key Sample.issue_a <> key Sample.issue_b.
Proof. split; [reflexivity | discriminate]. Qed.

Example json_round_trip :
  Sample.parse (Sample.stringify (textToAdf "hello")) = Some (textToAdf "hello").
Proof. reflexivity. Qed.

(** A network that cannot be reached: the message names the origin and
    the path, and gives the text of the fault. *)
Example offline_names_origin_and_path :
  fst (httpRequest (Sample.runtime Sample.offline) (Sample.get Sample.leaky_url)
         (Sample.start 0))
  = Throw (ExternalServiceError
             "Request to https://jira.example.test/rest/api/3/search failed: fetch failed"
             Sample.md0 None).
Proof. reflexivity. Qed.

(** The earlier revision of the client interpolates the URL as given. *)
Example earlier_revision_names_the_query :
  includes
    (error_message
       (wrap_failure_rev0 Sample.leaky_url 30000 Sample.md0 AbortError))
    "?token=s3cr3t" = true
  /\ includes
       (error_message
          (wrap_failure (Sample.runtime Sample.silent) Sample.leaky_url 30000
             Sample.md0 AbortError))
       "?token=s3cr3t" = false.
Proof. split; reflexivity. Qed.

(** The signal matters: without it the same call never settles on a
    network that stays silent. *)
Example without_signal_never_settles :
  fst (httpRequest_without_signal (Sample.runtime Sample.silent)
         (Sample.get Sample.leaky_url) (Sample.start 0))
  = Never
  /\ fst (httpRequest (Sample.runtime Sample.silent)
            (Sample.get Sample.leaky_url) (Sample.start 0))
     = Throw (ExternalServiceError
                "Request to https://jira.example.test/rest/api/3/search timed out after 30000ms"
                Sample.md0 None).
Proof. split; reflexivity. Qed.

(** A response that arrives in time disarms the timer. *)
Example response_in_time_clears_timer :
  let run := httpRequest (Sample.runtime (Sample.answers 200 "{}"))
               (Sample.get Sample.leaky_url) (Sample.start 1000) in
  fst run = Return {| HttpClient.status := 200; response_body := "{}" |}
  /\ timers (snd run) = []
  /\ aborted (snd run) = []
  /\ now (snd run) = 1080%Z.
Proof. repeat split. Qed.

End Examples.

(** ** The log sink's sanitiser *)

Section Sanitiser.

Lemma denylist_is_lower_case :
  forall member, In member SENSITIVE_KEYS -> toLowerCase member = member.
Proof.
  intros member H. unfold SENSITIVE_KEYS in H. simpl in H.
  repeat (destruct H as [H | H]; [subst member; reflexivity | ]).
  contradiction.
Qed.

Lemma is_sensitive_spec :
  forall key, is_sensitive key = true <-> matches_denylist key.
Proof.
  intro key. unfold is_sensitive, matches_denylist. rewrite existsb_exists. split.
  - intros [member [Hin Heq]]. exists member. split; [exact Hin | ].
    apply String.eqb_eq in Heq. rewrite (denylist_is_lower_case _ Hin). exact Heq.
  - intros [member [Hin Heq]]. exists member. split; [exact Hin | ].
    apply String.eqb_eq. rewrite Heq. apply denylist_is_lower_case. exact Hin.
Qed.

(** *** The stack that [sanitise] needs *)

Lemma leb_max :
  forall a b n, (Nat.max a b <=? n) = (a <=? n) && (b <=? n).
Proof.
  intros a b n.
  destruct (a <=? n) eqn:Ha; destruct (b <=? n) eqn:Hb;
    destruct (Nat.max a b <=? n) eqn:Hm; try reflexivity;
    rewrite ?Nat.leb_le, ?Nat.leb_gt in *; lia.
Qed.

Lemma mapC_sanitise :
  forall n items,
    Forall (fun x => forall fuel,
                sanitise_in fuel x
                = if frames_needed x <=? fuel then Return (sanitised x)
                  else Throw StackOverflow) items ->
    mapC (sanitise_in n) items
    = if fold_right (fun x d => Nat.max (frames_needed x) d) 0 items <=? n
      then Return (map sanitised items) else Throw StackOverflow.
Proof.
  intros n items H. induction H as [| x rest Hx Hrest IH]; [reflexivity | ].
  cbn [mapC fold_right map]. rewrite leb_max, (Hx n), IH.
  destruct (frames_needed x <=? n); [ | reflexivity].
  destruct (fold_right _ 0 rest <=? n); reflexivity.
Qed.

Lemma fill_sanitise :
  forall n entries,
    Forall (fun kv => forall fuel,
                sanitise_in fuel (snd kv)
                = if frames_needed (snd kv) <=? fuel then Return (sanitised (snd kv))
                  else Throw StackOverflow) entries ->
    fill (sanitise_in n) entries
    = if fold_right
           (fun kv d => Nat.max (if is_sensitive (fst kv) then 0
                                 else frames_needed (snd kv)) d)
           0 entries <=? n
      then Return (filter (fun kv => negb (is_proto (fst kv)))
                     (map (fun kv =>
                             if is_sensitive (fst kv) then (fst kv, REDACTED)
                             else (fst kv, sanitised (snd kv)))
                          entries))
      else Throw StackOverflow.
Proof.
  intros n entries H. induction H as [| [k x] rest Hx Hrest IH]; [reflexivity | ].
  cbn [fill fold_right map filter fst snd]. rewrite leb_max, IH.
  cbn [snd] in Hx. destruct (is_sensitive k); cbn [bindC fst].
  - cbn [Nat.leb andb].
    destruct (fold_right _ 0 rest <=? n); cbn [bindC]; [ | reflexivity].
    destruct (is_proto k); reflexivity.
  - rewrite (Hx n). destruct (frames_needed x <=? n); cbn [bindC andb]; [ | reflexivity].
    destruct (fold_right _ 0 rest <=? n); cbn [bindC]; [ | reflexivity].
    destruct (is_proto k); reflexivity.
Qed.

(** [sanitise] returns [sanitised] when the stack has the frames that it
    needs, and throws a RangeError when it has not. *)
Lemma sanitise_in_spec :
  forall value fuel,
    sanitise_in fuel value
    = if frames_needed value <=? fuel then Return (sanitised value)
      else Throw StackOverflow.
Proof.
  induction value as [ | | b | n | s | items IH | entries IH ] using JsValue_deep_ind;
    intros [| fuel]; try reflexivity.
  - cbn [sanitise_in sanitise_body frames_needed sanitised].
    rewrite (mapC_sanitise fuel items IH).
    change (S ?a <=? S fuel) with (a <=? fuel).
    destruct (_ <=? fuel); reflexivity.
  - cbn [sanitise_in sanitise_body frames_needed sanitised].
    rewrite (fill_sanitise fuel entries IH).
    change (S ?a <=? S fuel) with (a <=? fuel).
    destruct (_ <=? fuel); reflexivity.
Qed.

Lemma sanitise_spec :
  forall rt value,
    sanitise rt value
    = if frames_needed value <=? call_stack rt then Return (sanitised value)
      else Throw StackOverflow.
Proof. intros rt value. apply sanitise_in_spec. Qed.

(** An object of scalars needs two frames. *)
Lemma frames_needed_le_depth : forall value, frames_needed value <= S (depth value).
Proof.
  induction value as [ | | b | n | s | items IH | entries IH ] using JsValue_deep_ind;
    cbn [frames_needed depth]; try lia.
  - apply le_n_S. induction IH as [| x rest Hx Hrest IHrest]; [apply Nat.le_0_l | ].
    cbn [fold_right]. lia.
  - apply le_n_S. induction IH as [| [k x] rest Hx Hrest IHrest]; [apply Nat.le_0_l | ].
    cbn [fold_right fst snd] in *. destruct (is_sensitive k); lia.
Qed.

(** Arrays one in the other need a frame each. *)
Lemma frames_needed_nested_arrays :
  forall n x, frames_needed (Sample.nested_arrays n x) = n + frames_needed x.
Proof.
  induction n as [| n IH]; intro x; [reflexivity | ].
  cbn [Sample.nested_arrays frames_needed fold_right]. rewrite IH. lia.
Qed.

(** *** What [sanitise] returns *)

Lemma own_filter_map :
  forall key (g : string -> JsValue -> JsValue) entries,
    own key (filter (fun kv => negb (is_proto (fst kv)))
               (map (fun kv => (fst kv, g (fst kv) (snd kv))) entries))
    = if is_proto key then None else option_map (g key) (own key entries).
Proof.
  intros key g entries. induction entries as [| [k x] rest IH].
  - destruct (is_proto key); reflexivity.
  - cbn [map filter fst snd own]. destruct (String.eqb k key) eqn:Heq.
    + apply String.eqb_eq in Heq. subst k.
      destruct (is_proto key) eqn:Hp; cbn [negb].
      * exact IH.
      * cbn [own]. rewrite String.eqb_refl. reflexivity.
    + destruct (is_proto k); cbn [negb]; [exact IH | ].
      cbn [own]. rewrite Heq. exact IH.
Qed.

Lemma sanitised_object :
  forall entries,
    sanitised (JObject entries)
    = JObject (filter (fun kv => negb (is_proto (fst kv)))
                 (map (fun kv => (fst kv, sanitised_entry (fst kv) (snd kv))) entries)).
Proof.
  intro entries. cbn [sanitised]. do 2 f_equal.
  apply map_ext. intros [k x]. unfold sanitised_entry. cbn [fst snd].
  destruct (is_sensitive k); reflexivity.
Qed.

Lemma own_sanitised :
  forall key entries out,
    sanitised (JObject entries) = JObject out ->
    own key out
    = if is_proto key then None else option_map (sanitised_entry key) (own key entries).
Proof.
  intros key entries out H. rewrite sanitised_object in H. injection H as <-.
  apply own_filter_map.
Qed.

Lemma at_path_app :
  forall p q v,
    at_path (p ++ q) v =
    match at_path p v with Some u => at_path q u | None => None end.
Proof.
  induction p as [| seg p IH]; intros q v; [reflexivity | ].
  destruct seg as [name | i]; simpl; destruct v; try reflexivity.
  - destruct (own name entries); [apply IH | reflexivity].
  - destruct (nth_error items i); [apply IH | reflexivity].
Qed.

Lemma sanitised_scalar : forall v, is_scalar v = true -> sanitised v = v.
Proof. intros v H. destruct v; try reflexivity; discriminate H. Qed.

Lemma at_key_sanitised :
  forall name entries,
    at_path [Key name] (sanitised (JObject entries))
    = if is_proto name then None
      else option_map (sanitised_entry name) (own name entries).
Proof.
  intros name entries. rewrite sanitised_object. cbn [at_path].
  rewrite own_filter_map.
  destruct (is_proto name); [reflexivity | ].
  destruct (own name entries); reflexivity.
Qed.

Lemma at_path_cons_key :
  forall name rest v,
    at_path (Key name :: rest) v
    = match at_path [Key name] v with Some u => at_path rest u | None => None end.
Proof. intros name rest v. exact (at_path_app [Key name] rest v). Qed.

(** Along a path without sensitive keys and without "__proto__",
    [sanitise] commutes with the lookup. *)
Lemma sanitised_at_plain_path :
  forall p v x,
    at_path p v = Some x -> clear_path p = true -> plain_path p = true ->
    at_path p (sanitised v) = Some (sanitised x).
Proof.
  induction p as [| seg p IH]; intros v x Hat Hclear Hplain.
  - simpl in *. congruence.
  - destruct seg as [name | i]; simpl in Hat, Hclear, Hplain; destruct v; try discriminate.
    + apply andb_prop in Hclear. destruct Hclear as [Hname Hrest].
      apply andb_prop in Hplain. destruct Hplain as [Hproto Hplain].
      apply negb_true_iff in Hname, Hproto.
      destruct (own name entries) as [u |] eqn:Hown; [ | discriminate].
      rewrite at_path_cons_key, at_key_sanitised, Hproto, Hown. cbn [option_map].
      unfold sanitised_entry. rewrite Hname. now apply IH.
    + destruct (nth_error items i) as [u |] eqn:Hnth; [ | discriminate].
      simpl. rewrite nth_error_map, Hnth. simpl. now apply IH.
Qed.

(** Whatever a path finds in a sanitised value is itself sanitised. *)
Lemma at_path_sanitised :
  forall p v y, at_path p (sanitised v) = Some y -> exists x, y = sanitised x.
Proof.
  induction p as [| seg p IH]; intros v y Hat.
  - simpl in Hat. exists v. congruence.
  - destruct seg as [name | i]; destruct v; try discriminate Hat.
    + rewrite at_path_cons_key, at_key_sanitised in Hat.
      destruct (is_proto name); [discriminate | ].
      destruct (own name entries) as [u |]; cbn [option_map] in Hat; [ | discriminate].
      unfold sanitised_entry in Hat.
      destruct (is_sensitive name).
      * apply (IH REDACTED). exact Hat.
      * apply (IH u). exact Hat.
    + simpl in Hat. rewrite nth_error_map in Hat.
      destruct (nth_error items i) as [u |]; simpl in Hat; [ | discriminate].
      apply (IH u). exact Hat.
Qed.

(** A sensitive entry of a sanitised value holds the marker, wherever it
    is. *)
Lemma sensitive_entry_of_sanitised :
  forall v p k y,
    at_path (p ++ [Key k]) (sanitised v) = Some y ->
    is_sensitive k = true ->
    y = REDACTED.
Proof.
  intros v p k y Hat Hk. rewrite at_path_app in Hat.
  destruct (at_path p (sanitised v)) as [u |] eqn:Hu; [ | discriminate].
  destruct (at_path_sanitised _ _ _ Hu) as [x ->].
  destruct x; try discriminate Hat.
  rewrite at_key_sanitised in Hat.
  destruct (is_proto k); [discriminate | ].
  destruct (own k entries); cbn [option_map] in Hat; [ | discriminate].
  unfold sanitised_entry in Hat. rewrite Hk in Hat. congruence.
Qed.

End Sanitiser.

(** C2, as the claim states it, fails on two kinds of value.  A value that
    needs more frames than the stack has room for is not sanitised at all:
    [sanitise] throws a RangeError, whatever is to be redacted in it.  And
    an entry under the key "__proto__" does not pass through: the scalar
    that the value holds there is not in the result. *)
Lemma sanitise_fails_on_deep_and_proto_values :
  (at_path [Key "apiToken"] Sample.deep_entry = Some (JString "s3cr3t")
   /\ sanitise (Sample.runtime Sample.silent) Sample.deep_entry
      = Throw (PlatformError "RangeError" "Maximum call stack size exceeded"))
  /\ (at_path [Key "__proto__"] Sample.proto_entry = Some (JNumber 1)
      /\ exists out,
           sanitise (Sample.runtime Sample.silent) Sample.proto_entry = Return out
           /\ at_path [Key "__proto__"] out = None).
Proof.
  split; split; try reflexivity.
  eexists. split; reflexivity.
Qed.

(** C2, amended.  [sanitise] returns a value exactly when the stack has the
    frames that the value needs, and throws a RangeError otherwise.  In what
    it returns: (a) an entry whose key matches the denylist
    case-insensitively, reached through arrays and objects at any depth by
    keys other than "__proto__", holds "[REDACTED]"; (b) a scalar (null and
    undefined included) that is reached by such keys and is not below an
    entry with a matching key is found unchanged at the same place, so a
    scalar given directly is returned as it is; (c) nowhere in the result
    does an entry with a matching key hold anything but "[REDACTED]";
    (d) "apiToken" matches the denylist.  No stack has the frames for
    every value: whatever the runtime, [sanitise] throws on some value. *)
Theorem sanitise_redacts_sensitive_entries :
  forall (rt : Runtime) (value : JsValue),
    (frames_needed value <= call_stack rt ->
     exists out,
       sanitise rt value = Return out
       /\ (forall p key x,
              at_path (p ++ [Key key]) value = Some x ->
              clear_path p = true ->
              plain_path p = true ->
              matches_denylist key ->
              at_path (p ++ [Key key]) out = Some (JString "[REDACTED]"))
       /\ (forall p x,
              at_path p value = Some x ->
              clear_path p = true ->
              plain_path p = true ->
              is_scalar x = true ->
              at_path p out = Some x)
       /\ (forall p key y,
              at_path (p ++ [Key key]) out = Some y ->
              matches_denylist key ->
              y = JString "[REDACTED]"))
    /\ (call_stack rt < frames_needed value ->
        sanitise rt value
        = Throw (PlatformError "RangeError" "Maximum call stack size exceeded"))
    /\ (depth value < call_stack rt -> frames_needed value <= call_stack rt)
    /\ matches_denylist "apiToken"
    /\ (exists deep,
          sanitise rt deep
          = Throw (PlatformError "RangeError" "Maximum call stack size exceeded")).
Proof.
  intros rt value. split; [ | split; [ | split; [ | split]]].
  - intro Hroom. exists (sanitised value). rewrite sanitise_spec.
    apply Nat.leb_le in Hroom. rewrite Hroom.
    split; [reflexivity | ]. split; [ | split].
    + intros p key x Hat Hclear Hplain Hkey.
      apply is_sensitive_spec in Hkey.
      rewrite at_path_app in Hat |- *.
      destruct (at_path p value) as [u |] eqn:Hu; [ | discriminate].
      rewrite (sanitised_at_plain_path _ _ _ Hu Hclear Hplain).
      destruct u; try discriminate Hat.
      rewrite at_key_sanitised.
      assert (Hproto : is_proto key = false).
      { unfold is_proto. destruct (String.eqb key "__proto__") eqn:E; [ | reflexivity].
        apply String.eqb_eq in E. subst key. discriminate Hkey. }
      rewrite Hproto. cbn [at_path] in Hat.
      destruct (own key entries); [ | discriminate].
      cbn [option_map]. unfold sanitised_entry. rewrite Hkey. reflexivity.
    + intros p x Hat Hclear Hplain Hscalar.
      rewrite (sanitised_at_plain_path _ _ _ Hat Hclear Hplain).
      now rewrite sanitised_scalar.
    + intros p key y Hat Hkey.
      apply is_sensitive_spec in Hkey.
      exact (sensitive_entry_of_sanitised _ p key y Hat Hkey).
  - intro Hdeep. rewrite sanitise_spec.
    apply Nat.leb_gt in Hdeep. rewrite Hdeep. reflexivity.
  - pose proof (frames_needed_le_depth value). lia.
  - exists "apitoken". split; [left; reflexivity | reflexivity].
  - exists (Sample.nested_arrays (call_stack rt) JNull). rewrite sanitise_spec.
    assert (Hdeep : (frames_needed (Sample.nested_arrays (call_stack rt) JNull)
                     <=? call_stack rt) = false).
    { apply Nat.leb_gt. rewrite frames_needed_nested_arrays. cbn [frames_needed]. lia. }
    rewrite Hdeep. reflexivity.
Qed.

Lemma sanitise_redacts_sensitive_entries_witness :
  exists out,
    sanitise (Sample.runtime Sample.silent) Sample.nested_entry = Return out
    /\ at_path [Key "request"; Key "targets"; Index 0; Key "apiToken"] out
       = Some (JString "[REDACTED]")
    /\ at_path [Key "request"; Key "targets"; Index 0; Key "retry"] out = Some JNull.
Proof.
  destruct (sanitise_redacts_sensitive_entries (Sample.runtime Sample.silent)
              Sample.nested_entry)
    as (Hreturns & _ & _ & Htoken & _).
  destruct Hreturns as (out & Hout & Hredact & Hkeep & _).
  - vm_compute. lia.
  - exists out. split; [exact Hout | split].
    + apply (Hredact [Key "request"; Key "targets"; Index 0] "apiToken" (JString "s3cr3t"));
        [reflexivity | reflexivity | reflexivity | exact Htoken].
    + apply (Hkeep [Key "request"; Key "targets"; Index 0; Key "retry"] JNull);
        reflexivity.
Defined.

(** ** The rich-text reducer *)

Section Reducer.

Lemma depth_item :
  forall items x, In x items -> depth x < depth (JArray items).
Proof.
  intros items x Hin. simpl. apply Nat.lt_succ_r.
  induction items as [| y rest IH]; [contradiction | ].
  simpl. destruct Hin as [Heq | Hin].
  - subst y. apply Nat.le_max_l.
  - etransitivity; [apply IH; exact Hin | apply Nat.le_max_r].
Qed.

Lemma depth_own :
  forall name entries x, own name entries = Some x -> depth x < depth (JObject entries).
Proof.
  intros name entries x Hown. simpl. apply Nat.lt_succ_r.
  induction entries as [| [k y] rest IH]; [discriminate | ].
  simpl in Hown |- *. destruct (String.eqb k name).
  - injection Hown as Heq. subst y. apply Nat.le_max_l.
  - etransitivity; [apply IH; exact Hown | apply Nat.le_max_r].
Qed.

Lemma map_from_children :
  forall (self : JsValue -> Completion string) (t : JsValue -> string) items i,
    (forall x, In x items -> self x = Return (t x)) ->
    map_from (fun child _ => self child) i items = Return (map t items).
Proof.
  intros self t items. induction items as [| x rest IH]; intros i H; [reflexivity | ].
  simpl. rewrite (H x (or_introl eq_refl)). simpl.
  rewrite (IH (S i)); [reflexivity | ].
  intros y Hy. apply H. now right.
Qed.

Lemma map_from_numbered :
  forall (self : JsValue -> Completion string) (t : JsValue -> string) items i,
    (forall x, In x items -> self x = Return (t x)) ->
    map_from (fun child index => bindC (self child) (fun text => Return (numbered index text)))
             i items
    = Return (map (fun it => numbered (fst it) (snd it)) (with_index i (map t items))).
Proof.
  intros self t items. induction items as [| x rest IH]; intros i H; [reflexivity | ].
  simpl. rewrite (H x (or_introl eq_refl)). simpl.
  rewrite (IH (S i)); [reflexivity | ].
  intros y Hy. apply H. now right.
Qed.

(** A container whose children all reduce reduces to their [joined]
    texts. *)
Lemma container_text_joined :
  forall self t type items,
    (forall x, In x items -> self x = Return (t x)) ->
    container_text self type (JArray items) = Return (joined type (map t items)).
Proof.
  intros self t type items H. unfold container_text, joined, array_map.
  rewrite (map_from_children self t items 0 H). cbn [bindC].
  rewrite (map_from_numbered self t items 0 H). cbn [bindC].
  repeat match goal with |- context [if ?b then _ else _] => destruct b end;
    reflexivity.
Qed.


Lemma body_container :
  forall self entries type items,
    own "type" entries = Some (JString type) ->
    String.eqb type "text" = false ->
    String.eqb type "hardBreak" = false ->
    own "content" entries = Some (JArray items) ->
    extractTextFromAdf_body self (JObject entries)
    = container_text self type (JArray items).
Proof.
  intros self entries type items Htype Ht Hb Hcontent.
  unfold extractTextFromAdf_body, get_property.
  rewrite Htype, Hcontent. cbn [bindC typeof]. 
  change (negb ("object" =? "object")%string) with false. cbv iota.
  rewrite Ht, Hb. reflexivity.
Qed.

(** A node is a leaf for the reducer, its text fixed whatever the
    recursive call does, or a container: an object with a type other than
    text and hardBreak and an array under [content]. *)
Lemma body_cases :
  forall node,
    (exists s, forall self, extractTextFromAdf_body self node = Return s)
    \/ (exists entries type items,
           node = JObject entries
           /\ own "type" entries = Some (JString type)
           /\ String.eqb type "text" = false
           /\ String.eqb type "hardBreak" = false
           /\ own "content" entries = Some (JArray items)).
Proof.
  intro node. destruct node; try (left; eexists; intro; reflexivity).
  unfold extractTextFromAdf_body, get_property.
  change (negb (typeof (JObject entries) =? "object")%string) with false. cbv iota.
  cbn [bindC].
  destruct (own "type" entries) as [[] |] eqn:Htype;
    try (left; eexists; intro; reflexivity).
  destruct (s =? "text")%string eqn:Ht; [left; eexists; intro; reflexivity | ].
  destruct (s =? "hardBreak")%string eqn:Hb; [left; eexists; intro; reflexivity | ].
  destruct (own "content" entries) as [[] |] eqn:Hc;
    try (left; eexists; intro; reflexivity).
  right. exists entries, s, items. auto.
Qed.

Lemma extract_in_stable :
  forall n node f g,
    depth node < n -> depth node < f -> depth node < g ->
    extractTextFromAdf_in f node = extractTextFromAdf_in g node
    /\ exists s, extractTextFromAdf_in f node = Return s.
Proof.
  induction n as [| n IH]; intros node f g Hn Hf Hg; [lia | ].
  destruct f as [| f]; [lia | ]. destruct g as [| g]; [lia | ].
  cbn [extractTextFromAdf_in].
  destruct (body_cases node) as [[s Hs] | (entries & type & items & -> & Ht & Hx & Hb & Hc)].
  - rewrite !Hs. split; [reflexivity | now exists s].
  - rewrite !(body_container _ _ _ _ Ht Hx Hb Hc).
    pose (t := fun x => match extractTextFromAdf_in f x with
                        | Return s => s | _ => "" end).
    assert (Hchild : forall x, In x items ->
               extractTextFromAdf_in f x = Return (t x)
               /\ extractTextFromAdf_in g x = Return (t x)).
    { intros x Hx'.
      assert (depth x < depth (JObject entries)) as Hd.
      { etransitivity; [apply depth_item; exact Hx' | eapply depth_own; exact Hc]. }
      destruct (IH x f g) as [Heq [s Hs]]; try lia.
      rewrite <- Heq. unfold t. rewrite Hs. auto. }
    rewrite (container_text_joined _ t type items (fun x Hx' => proj1 (Hchild x Hx'))).
    rewrite (container_text_joined _ t type items (fun x Hx' => proj2 (Hchild x Hx'))).
    split; [reflexivity | eexists; reflexivity].
Qed.

(** With a stack deeper than the tree the reducer returns [text_of]. *)
Lemma extract_in_text_of :
  forall fuel node,
    depth node < fuel -> extractTextFromAdf_in fuel node = Return (text_of node).
Proof.
  intros fuel node H.
  destruct (extract_in_stable (S (depth node)) node fuel (S (depth node)))
    as [Heq [s Hs]]; try lia.
  unfold text_of. rewrite <- Heq, Hs. reflexivity.
Qed.

Lemma extractTextFromAdf_text_of :
  forall rt node,
    depth node < call_stack rt -> extractTextFromAdf rt node = Return (text_of node).
Proof. intros rt node H. now apply extract_in_text_of. Qed.

(** The text of a container is [joined] from the texts of its children. *)
Lemma container_text_of :
  forall fuel entries type items,
    own "type" entries = Some (JString type) ->
    String.eqb type "text" = false ->
    String.eqb type "hardBreak" = false ->
    own "content" entries = Some (JArray items) ->
    depth (JObject entries) < fuel ->
    extractTextFromAdf_in fuel (JObject entries)
    = Return (joined type (map text_of items)).
Proof.
  intros fuel entries type items Ht Hx Hb Hc Hd.
  destruct fuel as [| fuel]; [lia | ]. cbn [extractTextFromAdf_in].
  rewrite (body_container _ _ _ _ Ht Hx Hb Hc).
  apply container_text_joined. intros x Hx'.
  apply extract_in_text_of.
  assert (depth x < depth (JObject entries)).
  { etransitivity; [apply depth_item; exact Hx' | eapply depth_own; exact Hc]. }
  lia.
Qed.

(** The children of a container that reduces all reduce. *)
Lemma children_return :
  forall (self : JsValue -> Completion string) items i ys,
    map_from (fun child _ => self child) i items = Return ys ->
    forall x, In x items -> exists r, self x = Return r.
Proof.
  intros self items. induction items as [| a rest IH]; intros i ys H x Hx; [contradiction | ].
  cbn [map_from] in H. destruct (self a) as [r | e |] eqn:Ha; cbn [bindC] in H;
    try discriminate.
  destruct Hx as [<- | Hx]; [now exists r | ].
  destruct (map_from (fun child _ => self child) (S i) rest) as [ys' | |] eqn:Hrest;
    cbn [bindC] in H; try discriminate.
  exact (IH (S i) ys' Hrest x Hx).
Qed.



Lemma map_from_overflow :
  forall (self : JsValue -> Completion string) items i,
    (forall x, (exists r, self x = Return r) \/ self x = Throw StackOverflow) ->
    (exists ys, map_from (fun child _ => self child) i items = Return ys)
    \/ map_from (fun child _ => self child) i items = Throw StackOverflow.
Proof.
  intros self items. induction items as [| a rest IH]; intros i H; cbn [map_from].
  - left. eexists. reflexivity.
  - destruct (H a) as [[r Hr] | Hr]; rewrite Hr; cbn [bindC]; [ | now right].
    destruct (IH (S i) H) as [[ys Hys] | Hys]; rewrite Hys; cbn [bindC];
      [left; eexists; reflexivity | now right].
Qed.

(** The reducer returns a text or runs out of stack: it throws nothing
    else, and it does not hang. *)
Lemma extract_in_overflow :
  forall f node,
    (exists s, extractTextFromAdf_in f node = Return s)
    \/ extractTextFromAdf_in f node = Throw StackOverflow.
Proof.
  induction f as [| f IH]; intro node; [right; reflexivity | ].
  cbn [extractTextFromAdf_in].
  destruct (body_cases node) as [[s0 Hs] | (entries & type & items & -> & Ht & Hx & Hb & Hc)].
  - left. exists s0. apply Hs.
  - rewrite (body_container _ _ _ _ Ht Hx Hb Hc).
    destruct (map_from_overflow (extractTextFromAdf_in f) items 0 IH) as [[ys Hys] | Hys].
    + left.
      pose (t := fun x => match extractTextFromAdf_in f x with
                          | Return r => r | _ => "" end).
      assert (Hf : forall x, In x items -> extractTextFromAdf_in f x = Return (t x)).
      { intros x Hx'. destruct (children_return _ _ _ _ Hys x Hx') as [r Hr].
        unfold t. now rewrite Hr. }
      rewrite (container_text_joined _ t type items Hf). eexists. reflexivity.
    + right. unfold container_text, array_map. rewrite Hys. reflexivity.
Qed.



Lemma split_one_piece :
  forall a, has_LF a = false -> split LF a = [a].
Proof.
  induction a as [| c a IH]; intro H; [reflexivity | ].
  simpl in H. apply orb_false_elim in H. destruct H as [Hc Ha].
  simpl. unfold is_LF in Hc. rewrite Hc, (IH Ha). reflexivity.
Qed.

Lemma split_first_line :
  forall a rest,
    has_LF a = false -> split LF (a +++ nl +++ rest) = a :: split LF rest.
Proof.
  induction a as [| c a IH]; intros rest H.
  - reflexivity.
  - simpl in H. apply orb_false_elim in H. destruct H as [Hc Ha].
    simpl. unfold is_LF in Hc. rewrite Hc.
    change (split LF (a +++ String LF rest)) with (split LF (a +++ nl +++ rest)).
    rewrite (IH rest Ha). reflexivity.
Qed.

Lemma split_join_lines :
  forall lines,
    lines <> [] -> Forall (fun l => has_LF l = false) lines ->
    split LF (join nl lines) = lines.
Proof.
  induction lines as [| l rest IH]; intros Hne Hall; [contradiction | ].
  inversion Hall as [| ? ? Hl Hrest]; subst.
  destruct rest as [| l' rest'].
  - simpl. now apply split_one_piece.
  - change (join nl (l :: l' :: rest')) with (l +++ nl +++ join nl (l' :: rest')).
    rewrite (split_first_line _ _ Hl). f_equal. apply IH; [discriminate | exact Hrest].
Qed.







End Reducer.






(** ** The issue formatter *)

Section Formatter.

Lemma has_LF_app :
  forall a b, has_LF (a +++ b) = has_LF a || has_LF b.
Proof.
  induction a as [| c a IH]; intro b; [reflexivity | ].
  simpl. rewrite IH. now rewrite orb_assoc.
Qed.

Lemma cut_at_colon :
  forall k rest,
    includes k ": " = false ->
    cut_at ": " (k +++ ": " +++ rest) = Some (k, rest).
Proof.
  induction k as [| c k IH]; intros rest H.
  - reflexivity.
  - cbn [includes] in H. apply orb_false_elim in H. destruct H as [Hhere Hlater].
    assert (Hp : startsWith (String c k +++ ": " +++ rest) ": " = false).
    { destruct k as [| c' k']; cbn [startsWith append] in Hhere |- *.
      - apply andb_false_intro2. reflexivity.
      - exact Hhere. }
    change (cut_at ": " (String c k +++ ": " +++ rest))
      with (if startsWith (String c k +++ ": " +++ rest) ": "
            then Some (EmptyString, slice (String.length ": ") (String c k +++ ": " +++ rest))
            else match cut_at ": " (k +++ ": " +++ rest) with
                 | Some (before, after) => Some (String c before, after)
                 | None => None
                 end).
    rewrite Hp, (IH rest Hlater). reflexivity.
Qed.

(** [formatJiraIssue] returns a text that begins with the key, the
    summary, the type and the status, or it runs out of stack. *)
Lemma formatJiraIssue_cases :
  forall rt issue,
    (exists rest,
        formatJiraIssue rt issue
        = Return ((key issue +++ ": " +++ summary (fields issue)) +++ nl
                    +++ "" +++ nl
                    +++ ("Type:     " +++ name (issuetype (fields issue))) +++ nl
                    +++ ("Status:   " +++ name (status (fields issue))) +++ nl
                    +++ rest))
    \/ formatJiraIssue rt issue = Throw StackOverflow.
Proof.
  intros rt issue. unfold formatJiraIssue.
  destruct (truthy_value (description (fields issue))).
  - destruct (extract_in_overflow (call_stack rt) (description (fields issue)))
      as [[s Hs] | Hs]; unfold extractTextFromAdf; rewrite Hs; cbn [bindC].
    + left. eexists. reflexivity.
    + right. reflexivity.
  - cbn [bindC]. left. eexists. reflexivity.
Qed.

Lemma formatJiraIssue_returns :
  forall rt issue,
    (truthy_value (description (fields issue)) = true ->
     depth (description (fields issue)) < call_stack rt) ->
    exists text, formatJiraIssue rt issue = Return text.
Proof.
  intros rt issue Hd. unfold formatJiraIssue.
  destruct (truthy_value (description (fields issue))).
  - rewrite (extractTextFromAdf_text_of rt _ (Hd eq_refl)). cbn [bindC].
    eexists. reflexivity.
  - cbn [bindC]. eexists. reflexivity.
Qed.

(** The first four lines of a formatted issue whose key, summary and type
    hold no line feed. *)
Lemma formatted_lines :
  forall rt issue text,
    formatJiraIssue rt issue = Return text ->
    has_LF (key issue) = false ->
    has_LF (summary (fields issue)) = false ->
    has_LF (name (issuetype (fields issue))) = false ->
    exists rest,
      split LF text
      = (key issue +++ ": " +++ summary (fields issue))
          :: "" :: ("Type:     " +++ name (issuetype (fields issue)))
          :: split LF (("Status:   " +++ name (status (fields issue))) +++ nl +++ rest).
Proof.
  intros rt issue text Hfmt Hk Hs Ht.
  destruct (formatJiraIssue_cases rt issue) as [[rest Hrest] | Hrest];
    [ | rewrite Hrest in Hfmt; discriminate].
  exists rest.
  assert (Htext : Return text = formatJiraIssue rt issue) by (symmetry; exact Hfmt).
  rewrite Hrest in Htext.
  assert (Heq : forall a b : string, Return a = Return b -> a = b) by congruence.
  apply Heq in Htext. rewrite Htext. clear Heq Htext Hrest Hfmt.
  rewrite split_first_line by (rewrite !has_LF_app, Hk, Hs; reflexivity).
  rewrite (split_first_line "") by reflexivity.
  rewrite split_first_line by (rewrite has_LF_app, Ht; reflexivity).
  reflexivity.
Qed.

Lemma rederive_formatted :
  forall rt issue text,
    formatJiraIssue rt issue = Return text ->
    has_LF (key issue) = false ->
    includes (key issue) ": " = false ->
    has_LF (summary (fields issue)) = false ->
    has_LF (name (issuetype (fields issue))) = false ->
    has_LF (name (status (fields issue))) = false ->
    rederive text = Some (essentials issue).
Proof.
  intros rt issue text Hfmt Hk Hc Hs Ht Hst.
  destruct (formatted_lines rt issue text Hfmt Hk Hs Ht) as [rest Hlines].
  unfold rederive. rewrite Hlines.
  rewrite split_first_line by (rewrite has_LF_app, Hst; reflexivity).
  rewrite (cut_at_colon _ _ Hc).
  change (startsWith ("Status:   " +++ name (status (fields issue))) "Status:   ")
    with true.
  reflexivity.
Qed.

Lemma all_digits_units : forall s, all_digits s = true -> all_units key_unit s = true.
Proof.
  induction s as [| c s IH]; intro H; [reflexivity | ].
  simpl in H |- *. apply andb_prop in H. destruct H as [Hd Hs].
  rewrite (IH Hs), andb_true_r. unfold key_unit, is_key_char.
  rewrite Hd. now rewrite orb_true_r.
Qed.

Lemma key_tail_units : forall s, key_tail s = true -> all_units key_unit s = true.
Proof.
  induction s as [| c s IH]; intro H; [discriminate | ].
  cbn [key_tail] in H. cbn [all_units].
  apply orb_prop in H. destruct H as [H | H].
  - apply andb_prop in H. destruct H as [H Hd].
    apply andb_prop in H. destruct H as [Hc _].
    rewrite (all_digits_units _ Hd), andb_true_r.
    unfold key_unit. rewrite Hc. apply orb_true_r.
  - apply andb_prop in H. destruct H as [Hc Hs].
    rewrite (IH Hs), andb_true_r. unfold key_unit. now rewrite Hc.
Qed.

Lemma units_no_LF :
  forall P s, P 10 = false -> all_units P s = true -> has_LF s = false.
Proof.
  intros P s HP. induction s as [| c s IH]; intro H; [reflexivity | ].
  cbn [all_units has_LF] in *. apply andb_prop in H. destruct H as [Hc Hs].
  rewrite (IH Hs), orb_false_r. unfold is_LF.
  destruct (Ascii.eqb c LF) eqn:E; [ | reflexivity].
  apply Ascii.eqb_eq in E. subst c. 
  change (nat_of_ascii LF) with 10 in Hc. congruence.
Qed.

Lemma units_no_colon :
  forall P s, P 58 = false -> all_units P s = true -> includes s ": " = false.
Proof.
  intros P s HP. induction s as [| c s IH]; intro H; [reflexivity | ].
  cbn [all_units includes] in *. apply andb_prop in H. destruct H as [Hc Hs].
  rewrite (IH Hs), orb_false_r.
  cbn [startsWith].
  destruct (Ascii.eqb ":" c) eqn:E; [ | reflexivity].
  apply Ascii.eqb_eq in E. subst c.
  change (nat_of_ascii ":") with 58 in Hc. congruence.
Qed.

(** A well-formed issue key holds neither a line feed nor ": ". *)
Lemma well_formed_key_is_plain :
  forall k,
    JIRA_ISSUE_KEY_PATTERN k = true ->
    has_LF k = false /\ includes k ": " = false.
Proof.
  intros k H. destruct k as [| c rest]; [discriminate | ].
  unfold JIRA_ISSUE_KEY_PATTERN in H. apply andb_prop in H. destruct H as [Hc Ht].
  assert (Hall : all_units key_unit (String c rest) = true).
  { cbn [all_units]. rewrite (key_tail_units _ Ht), andb_true_r.
    unfold key_unit, is_key_char. now rewrite Hc. }
  split.
  - now apply (units_no_LF key_unit).
  - now apply (units_no_colon key_unit).
Qed.

End Formatter.

(** C9, as the claim states it, fails: two validated issues without null
    optional fields, one with key "A: B" and summary "C", one with key "A"
    and summary "B: C", are formatted to the same text, so that no way of
    reading the text back recovers the key and the summary of both. *)
Lemma formatJiraIssue_not_invertible :
  ~ (exists derive : string -> option (string * string * string),
        forall issue text,
          no_null_optional issue ->
          formatJiraIssue (Sample.runtime Sample.silent) issue = Return text ->
          derive text = Some (essentials issue)).
Proof.
  intros [derive H].
  assert (Ha : no_null_optional Sample.issue_a) by (repeat split; discriminate).
  assert (Hb : no_null_optional Sample.issue_b) by (repeat split; discriminate).
  pose proof (H Sample.issue_a _ Ha eq_refl) as Ea.
  pose proof (H Sample.issue_b _ Hb eq_refl) as Eb.
  vm_compute in Ea, Eb. rewrite Ea in Eb. discriminate Eb.
Qed.

(** C9, amended.  For every validated issue whose key holds neither a line
    feed nor the separator ": " (as every well-formed issue key does,
    [well_formed_key_is_plain]), and whose summary, type name and status
    name hold no line feed, the formatter returns a text from which
    [rederive] reads back the key, the summary and the status exactly.  It
    returns one whenever the stack is deeper than the description, and
    [rederive] reads the three back from whatever text it returns. *)
Theorem formatJiraIssue_round_trip :
  forall (rt : Runtime) (issue : JiraIssueResponse),
    has_LF (key issue) = false ->
    includes (key issue) ": " = false ->
    has_LF (summary (fields issue)) = false ->
    has_LF (name (issuetype (fields issue))) = false ->
    has_LF (name (status (fields issue))) = false ->
    (depth (description (fields issue)) < call_stack rt ->
     exists text,
       formatJiraIssue rt issue = Return text
       /\ rederive text = Some (essentials issue))
    /\ (forall text,
          formatJiraIssue rt issue = Return text ->
          rederive text = Some (essentials issue)).
Proof.
  intros rt issue Hk Hc Hs Ht Hst. split.
  - intro Hd. destruct (formatJiraIssue_returns rt issue (fun _ => Hd)) as [text Htext].
    exists text. split; [exact Htext | ].
    now apply (rederive_formatted rt issue).
  - intros text Htext. now apply (rederive_formatted rt issue).
Qed.

Lemma formatJiraIssue_round_trip_witness :
  exists text,
    formatJiraIssue (Sample.runtime Sample.silent) Sample.issue_b = Return text
    /\ rederive text = Some ("A", "B: C", "Open").
Proof.
  apply (formatJiraIssue_round_trip (Sample.runtime Sample.silent) Sample.issue_b);
    try reflexivity.
  vm_compute. lia.
Defined.

(** ** The bounded network client *)

Section Network.
Variable rt : Runtime.

Lemma abort_time_fresh :
  forall controller ts id due,
    (forall t, In t ts -> aborts t <> controller) ->
    abort_time controller (ts ++ [{| timer_id := id; fires_at := due; aborts := controller |}])
    = Some due.
Proof.
  intros controller ts id due Hfresh. induction ts as [| t rest IH]; simpl.
  - now rewrite Nat.eqb_refl.
  - destruct (aborts t =? controller) eqn:E.
    + apply Nat.eqb_eq in E. exfalso. apply (Hfresh t); [now left | exact E].
    + apply IH. intros t' Ht'. apply Hfresh. now right.
Qed.

(** In a tidy world the signal that [httpRequest] hands to [fetch] is
    aborted when the timer of the call fires, and not before. *)
Lemma own_deadline :
  forall w timeout,
    tidy w ->
    abort_time (handles w) (timers w ++ [own_timer timeout w])
    = Some (now w + timer_delay timeout)%Z.
Proof.
  intros w timeout Htidy. apply abort_time_fresh.
  intros t Ht. destruct (Htidy t Ht) as [_ Hlt]. lia.
Qed.

(** [httpRequest], outcome by outcome of the network, in a tidy world. *)
Lemma httpRequest_run :
  forall options w,
    tidy w ->
    let timeout := or_default (timeoutMs options) DEFAULT_TIMEOUT_MS in
    let init := fetch_init options in
    let timed_out w' :=
      httpRequest rt options w
      = (Throw (wrap_failure rt (url options) timeout (metadata options) AbortError), w')
      /\ now w' = (now w + timer_delay timeout)%Z /\ aborted w' = aborted w ++ [init] in
    exists w',
      match network rt init with
      | Responds after status body =>
          if (after <=? timer_delay timeout)%Z then
            httpRequest rt options w
            = (Return {| HttpClient.status := status; response_body := body |}, w')
            /\ now w' = (now w + after)%Z /\ aborted w' = aborted w
          else timed_out w'
      | Faults after err =>
          if (after <=? timer_delay timeout)%Z then
            httpRequest rt options w
            = (Throw (wrap_failure rt (url options) timeout (metadata options) err), w')
            /\ now w' = (now w + after)%Z /\ aborted w' = aborted w
          else timed_out w'
      | Silent => timed_out w'
      end
      /\ requests w' = requests w ++ [init]
      /\ stderr w' = stderr w
      /\ uuids_drawn w' = uuids_drawn w
      /\ tidy w'.
Proof.
  intros options w Htidy timeout init timed_out. subst timed_out.
  assert (Hkept : forall (keep : Timer -> bool) w2,
             timers w2
             = filter (fun t => negb (timer_id t =? S (handles w)))
                 (filter keep (timers w ++ [own_timer timeout w])) ->
             handles w2 = S (S (handles w)) ->
             tidy w2).
  { intros keep w2 Htimers Hhandles t Ht. rewrite Htimers in Ht. rewrite Hhandles.
    apply filter_In in Ht. destruct Ht as [Ht Hid].
    apply filter_In in Ht. destruct Ht as [Ht _].
    apply in_app_or in Ht. destruct Ht as [Ht | [<- | []]].
    - destruct (Htidy t Ht). lia.
    - cbn [timer_id own_timer] in Hid. rewrite Nat.eqb_refl in Hid. discriminate. }
  unfold httpRequest, bind, new_AbortController, setTimeout_abort, try_finally, try_catch,
    fetch, clearTimeout, ret, throw.
  fold timeout. fold init.
  cbn [timers handles now take_handle set_timers record_request].
  change {| timer_id := S (handles w); fires_at := now w + timer_delay timeout;
            aborts := handles w |}
    with (own_timer timeout w).
  rewrite (own_deadline w timeout Htidy).
  replace (now w + timer_delay timeout - now w)%Z with (timer_delay timeout) by lia.
  destruct (network rt init) as [after status body | after err |]; cbn [settles_within];
    try destruct (after <=? timer_delay timeout)%Z;
    eexists;
    (split; [split; [reflexivity | split; reflexivity]
            | split; [reflexivity | split; [reflexivity | split; [reflexivity | ]]]]);
    (eapply Hkept; reflexivity).
Qed.

(** [httpRequest] leaves no timer behind. *)
Lemma httpRequest_keeps_tidy :
  forall options w, tidy w -> tidy (snd (httpRequest rt options w)).
Proof.
  intros options w Htidy.
  destruct (httpRequest_run options w Htidy) as (w' & Hrun & _ & _ & _ & Htidy').
  destruct (network rt (fetch_init options)) as [after status body | after err |];
    try destruct (after <=? _)%Z;
    destruct Hrun as (Hrun & _ & _); rewrite Hrun; exact Htidy'.
Qed.

Lemma httpRequest_response :
  forall options w after status body,
    tidy w ->
    network rt (fetch_init options) = Responds after status body ->
    (after <= timer_delay (or_default (timeoutMs options) DEFAULT_TIMEOUT_MS))%Z ->
    exists w',
      httpRequest rt options w
      = (Return {| HttpClient.status := status; response_body := body |}, w')
      /\ stderr w' = stderr w
      /\ requests w' = requests w ++ [fetch_init options].
Proof.
  intros options w after status body Htidy Hnet Hafter.
  destruct (httpRequest_run options w Htidy) as (w' & Hrun & Hreq & Herr & _ & _).
  rewrite Hnet in Hrun. apply Z.leb_le in Hafter. rewrite Hafter in Hrun.
  exists w'. destruct Hrun as (Hrun & _ & _). auto.
Qed.

(** Whatever [httpRequest] throws is a fault of the network or the abort
    of its own timer, wrapped by the [catch] block. *)
Lemma httpRequest_throws :
  forall options w e,
    tidy w ->
    fst (httpRequest rt options w) = Throw e ->
    exists err,
      e = wrap_failure rt (url options)
            (or_default (timeoutMs options) DEFAULT_TIMEOUT_MS) (metadata options) err
      /\ (err = AbortError
          \/ exists after, network rt (fetch_init options) = Faults after err).
Proof.
  intros options w e Htidy H.
  destruct (httpRequest_run options w Htidy) as (w' & Hrun & _).
  destruct (network rt (fetch_init options)) as [after status body | after err |] eqn:Hnet;
    try destruct (after <=? _)%Z;
    destruct Hrun as (Hrun & _ & _); rewrite Hrun in H; cbn [fst] in H;
    try discriminate; injection H as <-; eexists; split; try reflexivity; eauto.
Qed.

Lemma httpRequest_requests :
  forall options w,
    tidy w ->
    requests (snd (httpRequest rt options w)) = requests w ++ [fetch_init options].
Proof.
  intros options w Htidy.
  destruct (httpRequest_run options w Htidy) as (w' & Hrun & Hreq & _).
  destruct (network rt (fetch_init options)) as [after status body | after err |];
    try destruct (after <=? _)%Z;
    destruct Hrun as (Hrun & _ & _); rewrite Hrun; exact Hreq.
Qed.

Lemma classify_requests :
  forall options response w,
    requests (snd (classify rt options response w)) = requests w.
Proof.
  intros options response w. unfold classify.
  repeat match goal with
         | |- context [if ?b then _ else _] => destruct b
         end; try reflexivity.
  destruct (JSON_parse rt (response_body response)); reflexivity.
Qed.

Lemma jiraRequest_requests :
  forall options w,
    tidy w ->
    requests (snd (jiraRequest rt options w))
    = requests w ++ [fetch_init (http_options rt options)].
Proof.
  intros options w Htidy. unfold jiraRequest, bind.
  rewrite <- (httpRequest_requests (http_options rt options) w Htidy).
  destruct (httpRequest rt (http_options rt options) w) as [[r | e |] w'];
    [apply classify_requests | reflexivity | reflexivity].
Qed.

(** What [fetch] refuses it rejects with a TypeError. *)
Lemma refusal_is_TypeError :
  forall init error,
    refusal rt init = Some error -> exists message, error = PlatformError "TypeError" message.
Proof.
  intros init error. unfold refusal.
  destruct (URL_parse rt (init_url init)); [ | intro H; injection H as <-; eauto].
  destruct (init_body init); [ | discriminate].
  destruct (is_GET_or_HEAD (init_method init)); [ | discriminate].
  intro H. injection H as <-. eauto.
Qed.

(** A request that [fetch] refuses fails at once. *)
Lemma httpRequest_refused :
  forall options w error,
    tidy w ->
    refusal rt (fetch_init options) = Some error ->
    exists w',
      httpRequest rt options w
      = (Throw (ExternalServiceError
                  ("Request to " +++ safeUrl rt (url options) +++ " failed: "
                     +++ error_message error)
                  (metadata options) None), w')
      /\ now w' = now w /\ aborted w' = aborted w.
Proof.
  intros options w error Htidy Hrefused.
  destruct (httpRequest_run options w Htidy) as (w' & Hrun & _).
  unfold network in Hrun. rewrite Hrefused in Hrun.
  assert (Hin : (0 <=? timer_delay (or_default (timeoutMs options) DEFAULT_TIMEOUT_MS))%Z
                = true).
  { apply Z.leb_le. unfold timer_delay.
    destruct (_ && _)%bool eqn:E; [ | lia].
    apply andb_prop in E. destruct E as [E _]. apply Z.leb_le in E. lia. }
  rewrite Hin in Hrun. destruct Hrun as (Hrun & Hnow & Hab).
  exists w'. rewrite Hrun.
  destruct (refusal_is_TypeError _ _ Hrefused) as [message ->].
  split; [reflexivity | ]. split; [lia | exact Hab].
Qed.

End Network.

(** Every failure of [httpRequest] is an [ExternalServiceError] whose
    message names the target by [safeUrl]: "Request to <origin><path> timed
    out after <timeout>ms" for a timeout, "Request to <origin><path>
    failed: " followed by the text of the fault otherwise. *)
Lemma httpRequest_failure_message :
  forall (rt : Runtime) (options : HttpRequestOptions) (w : World) (e : Thrown),
    tidy w ->
    fst (httpRequest rt options w) = Throw e ->
    let named :=
      match URL_parse rt (url options) with
      | Some parsed => origin parsed +++ pathname parsed
      | None => "<malformed-url>"
      end in
    let timeout :=
      match timeoutMs options with Some ms => ms | None => 30000%Z end in
    e = ExternalServiceError
          ("Request to " +++ named +++ " timed out after "
             +++ Number_toString timeout +++ "ms")
          (metadata options) None
    \/ exists after err,
         network rt (fetch_init options) = Faults after err
         /\ e = ExternalServiceError
                  ("Request to " +++ named +++ " failed: " +++ fault_text err)
                  (metadata options) None.
Proof.
  intros rt options w e Htidy H named timeout.
  destruct (httpRequest_throws rt options w e Htidy H) as [err [-> Herr]].
  unfold wrap_failure, safeUrl. fold named.
  destruct Herr as [-> | [after Hnet]].
  - left. reflexivity.
  - destruct (is_AbortError err) eqn:Habort.
    + left. reflexivity.
    + right. exists after, err. split; [exact Hnet | reflexivity].
Qed.

(** C4 does not hold of the code.  [safeUrl] is there to keep the query
    string and the fragment out of the message, and it stands a placeholder
    for a URL that does not parse; but the message also takes the text of
    the fault as it is, and the fault of [fetch] on such a URL names the
    URL in full.  So the message of a call with a URL that does not parse
    is the placeholder followed by the URL as it was given, its query
    string and fragment included. *)
Theorem httpRequest_names_unparsed_url :
  forall (rt : Runtime) (options : HttpRequestOptions) (w : World),
    tidy w ->
    URL_parse rt (url options) = None ->
    fst (httpRequest rt options w)
    = Throw (ExternalServiceError
               ("Request to <malformed-url> failed: Failed to parse URL from "
                  +++ url options)
               (metadata options) None).
Proof.
  intros rt options w Htidy Hparse.
  destruct (httpRequest_refused rt options w
              (PlatformError "TypeError" ("Failed to parse URL from " +++ url options))
              Htidy)
    as (w' & Hrun & _).
  - unfold refusal. cbn [init_url fetch_init]. rewrite Hparse. reflexivity.
  - rewrite Hrun. cbn [fst]. unfold safeUrl. rewrite Hparse. reflexivity.
Qed.

Lemma httpRequest_names_unparsed_url_witness :
  fst (httpRequest (Sample.runtime Sample.silent) (Sample.get Sample.unparsed_url)
         (Sample.start 0))
  = Throw (ExternalServiceError
             ("Request to <malformed-url> failed: Failed to parse URL from "
                +++ "jira.example.test/rest/api/3/search?token=s3cr3t")
             Sample.md0 None)
  /\ includes
       (thrown_message
          (fst (httpRequest (Sample.runtime Sample.silent) (Sample.get Sample.unparsed_url)
                  (Sample.start 0))))
       "?token=s3cr3t"
     = true.
Proof.
  split.
  - apply (httpRequest_names_unparsed_url (Sample.runtime Sample.silent)
             (Sample.get Sample.unparsed_url) (Sample.start 0)).
    + intros t [].
    + reflexivity.
  - reflexivity.
Defined.

(** C5.  In a world without stray timers, when [fetch] is not settled
    within the timeout (30 000 ms when [timeoutMs] is not given),
    [httpRequest] does not return a response: the timer that it armed
    aborts the controller whose signal it gave to [fetch], the request in
    flight is aborted, which is recorded in the world, the clock has
    advanced by the timeout, and an [ExternalServiceError] that carries the
    metadata of the call is thrown.  The timeout is the delay of the timer:
    [timeoutMs] itself in the range of timers, 1 .. 2^31 - 1. *)
Theorem httpRequest_times_out :
  forall (rt : Runtime) (options : HttpRequestOptions) (w : World),
    let timeout :=
      match timeoutMs options with Some ms => ms | None => 30000%Z end in
    tidy w ->
    settles_within (timer_delay timeout) (network rt (fetch_init options)) = false ->
    exists message w',
      httpRequest rt options w
      = (Throw (ExternalServiceError message (metadata options) None), w')
      /\ message = "Request to " +++ safeUrl rt (url options) +++ " timed out after "
                     +++ Number_toString timeout +++ "ms"
      /\ requests w' = requests w ++ [fetch_init options]
      /\ aborted w' = aborted w ++ [fetch_init options]
      /\ now w' = (now w + timer_delay timeout)%Z
      /\ ((1 <= timeout <= 2147483647)%Z -> now w' = (now w + timeout)%Z).
Proof.
  intros rt options w timeout Htidy H.
  destruct (httpRequest_run rt options w Htidy) as (w' & Hrun & Hreq & _).
  change (or_default (timeoutMs options) DEFAULT_TIMEOUT_MS) with timeout in Hrun.
  assert (Hout : httpRequest rt options w
                 = (Throw (wrap_failure rt (url options) timeout (metadata options)
                             AbortError), w')
                 /\ now w' = (now w + timer_delay timeout)%Z
                 /\ aborted w' = aborted w ++ [fetch_init options]).
  { destruct (network rt (fetch_init options)) as [after status body | after err |];
      cbn [settles_within] in H; try rewrite H in Hrun; exact Hrun. }
  destruct Hout as (Hout & Hnow & Haborted).
  eexists. exists w'. split; [exact Hout | ].
  split; [reflexivity | ]. split; [exact Hreq | ]. split; [exact Haborted | ].
  split; [exact Hnow | ].
  intros [Hlo Hhi]. rewrite Hnow. unfold timer_delay, TIMEOUT_MAX.
  apply Z.leb_le in Hlo, Hhi. now rewrite Hlo, Hhi.
Qed.

Lemma httpRequest_times_out_witness :
  exists message w',
    httpRequest (Sample.runtime Sample.silent) (Sample.get Sample.leaky_url) (Sample.start 0)
    = (Throw (ExternalServiceError message Sample.md0 None), w')
    /\ message
       = "Request to https://jira.example.test/rest/api/3/search timed out after 30000ms"
    /\ requests w' = [fetch_init (Sample.get Sample.leaky_url)]
    /\ aborted w' = [fetch_init (Sample.get Sample.leaky_url)]
    /\ now w' = 30000%Z.
Proof.
  destruct (httpRequest_times_out (Sample.runtime Sample.silent)
              (Sample.get Sample.leaky_url) (Sample.start 0))
    as (message & w' & Hrun & Hmessage & Hrequests & Haborted & Hnow & _).
  - intros t [].
  - reflexivity.
  - exists message, w'. auto.
Defined.

(** ** The Jira client *)

Section Lines.
Variable rt : Runtime.

(** The three shapes of line that the sources write. *)
Lemma written_plain :
  forall t l m md,
    written rt t (entry l m (metadata_fields md))
    = JObject [ ("timestamp", JString (toISOString rt t));
                ("level", JString (level_name l));
                ("message", JString m);
                ("toolName", JString (toolName md));
                ("operation", JString (operation md));
                ("correlationId", JString (correlationId md)) ].
Proof. reflexivity. Qed.

Lemma written_timed :
  forall t l m d md,
    written rt t (entry l m (("durationMs", JNumber d) :: metadata_fields md))
    = JObject [ ("timestamp", JString (toISOString rt t));
                ("level", JString (level_name l));
                ("message", JString m);
                ("durationMs", JNumber d);
                ("toolName", JString (toolName md));
                ("operation", JString (operation md));
                ("correlationId", JString (correlationId md)) ].
Proof. reflexivity. Qed.

Lemma written_failed :
  forall t l m e d md,
    written rt t (entry l m ([ ("error", JString e); ("durationMs", JNumber d) ]
                               ++ metadata_fields md))
    = JObject [ ("timestamp", JString (toISOString rt t));
                ("level", JString (level_name l));
                ("message", JString m);
                ("error", JString e);
                ("durationMs", JNumber d);
                ("toolName", JString (toolName md));
                ("operation", JString (operation md));
                ("correlationId", JString (correlationId md)) ].
Proof. reflexivity. Qed.

(** [log] on these entries: they need two frames, which every stack
    has, so the line is written. *)
Lemma log_plain :
  forall l m md w,
    log rt (entry l m (metadata_fields md)) w
    = (Return tt, write_stderr (written rt (now w) (entry l m (metadata_fields md))) w).
Proof. reflexivity. Qed.

Lemma log_timed :
  forall l m d md w,
    log rt (entry l m (("durationMs", JNumber d) :: metadata_fields md)) w
    = (Return tt,
       write_stderr
         (written rt (now w) (entry l m (("durationMs", JNumber d) :: metadata_fields md)))
         w).
Proof. reflexivity. Qed.

Lemma log_failed :
  forall l m e d md w,
    log rt (entry l m ([ ("error", JString e); ("durationMs", JNumber d) ]
                         ++ metadata_fields md)) w
    = (Return tt,
       write_stderr
         (written rt (now w)
            (entry l m ([ ("error", JString e); ("durationMs", JNumber d) ]
                          ++ metadata_fields md)))
         w).
Proof. reflexivity. Qed.

End Lines.

Section ClientFurther.
Variable rt : Runtime.

Lemma tidy_same_timers :
  forall w w', timers w' = timers w -> handles w' = handles w -> tidy w -> tidy w'.
Proof. intros w w' Ht Hh H t Hin. rewrite Ht in Hin. rewrite Hh. now apply H. Qed.

(** [jiraRequest] on a response that arrives in time: the response is
    classified in the world that [httpRequest] leaves. *)
Lemma jiraRequest_on_response :
  forall options w after status body,
    tidy w ->
    network rt (fetch_init (http_options rt options)) = Responds after status body ->
    (after <= DEFAULT_TIMEOUT_MS)%Z ->
    exists w1,
      jiraRequest rt options w
      = classify rt options {| HttpClient.status := status; response_body := body |} w1
      /\ now w1 = (now w + after)%Z
      /\ stderr w1 = stderr w
      /\ requests w1 = requests w ++ [fetch_init (http_options rt options)]
      /\ uuids_drawn w1 = uuids_drawn w
      /\ tidy w1.
Proof.
  intros options w after status body Htidy Hnet Hafter.
  destruct (httpRequest_run rt (http_options rt options) w Htidy)
    as (w1 & Hrun & Hreq & Herr & Hid & Htidy1).
  rewrite Hnet in Hrun. cbn [timeoutMs http_options or_default] in Hrun.
  change (timer_delay DEFAULT_TIMEOUT_MS) with DEFAULT_TIMEOUT_MS in Hrun.
  apply Z.leb_le in Hafter. rewrite Hafter in Hrun.
  destruct Hrun as (Hrun & Hnow & _).
  exists w1. unfold jiraRequest, bind. rewrite Hrun. auto 10.
Qed.

(** [jiraRequest] on a request that fails: what [httpRequest] throws
    passes through. *)
Lemma jiraRequest_on_failure :
  forall options w e,
    tidy w ->
    fst (httpRequest rt (http_options rt options) w) = Throw e ->
    exists w1,
      jiraRequest rt options w = (Throw e, w1)
      /\ stderr w1 = stderr w
      /\ requests w1 = requests w ++ [fetch_init (http_options rt options)]
      /\ uuids_drawn w1 = uuids_drawn w
      /\ tidy w1
      /\ exists message, e = ExternalServiceError message (req_metadata options) None.
Proof.
  intros options w e Htidy H.
  destruct (httpRequest_throws rt _ w e Htidy H) as [err [He _]].
  destruct (httpRequest_run rt (http_options rt options) w Htidy)
    as (w1 & Hrun & Hreq & Herr & Hid & Htidy1).
  exists w1. unfold jiraRequest, bind.
  assert (Hw : httpRequest rt (http_options rt options) w = (Throw e, w1)).
  { destruct (network rt _) as [after status body | after err' |];
      try destruct (after <=? _)%Z;
      destruct Hrun as (Hrun & _ & _); rewrite Hrun in H |- *; cbn [fst] in H;
      congruence. }
  rewrite Hw.
  split; [reflexivity | ]. split; [exact Herr | ]. split; [exact Hreq | ].
  split; [exact Hid | ]. split; [exact Htidy1 | ].
  rewrite He. unfold wrap_failure. destruct (is_AbortError err); eexists; reflexivity.
Qed.

(** [classify] on the statuses that it does not log. *)
Lemma classify_unexpected :
  forall options status body w,
    status <> 401%Z -> status <> 403%Z -> status <> 404%Z ->
    (status < 200 \/ 300 <= status)%Z ->
    classify rt options {| HttpClient.status := status; response_body := body |} w
    = (Throw (ExternalServiceError
                ("Jira API returned unexpected status " +++ Number_toString status)
                (req_metadata options) (Some status)), w).
Proof.
  intros options status body w H1 H3 H4 Hout. unfold classify.
  cbn [HttpClient.status response_body].
  apply Z.eqb_neq in H1, H3, H4. rewrite H1, H3, H4.
  assert (Hb : ((status <? 200)%Z || (300 <=? status)%Z) = true).
  { apply orb_true_iff. destruct Hout as [H | H];
      [left; now apply Z.ltb_lt | right; now apply Z.leb_le]. }
  rewrite Hb. reflexivity.
Qed.

Lemma classify_success_status :
  forall options status body w,
    (200 <= status < 300)%Z ->
    classify rt options {| HttpClient.status := status; response_body := body |} w
    = match JSON_parse rt body with
      | Some data => (Return (ok_true data), w)
      | None =>
          (Throw (ExternalServiceError "Failed to parse Jira API response as JSON"
                    (req_metadata options) None), w)
      end.
Proof.
  intros options status body w [Hlo Hhi]. unfold classify.
  cbn [HttpClient.status response_body].
  assert (H1 : (status =? 401)%Z = false) by (apply Z.eqb_neq; lia).
  assert (H3 : (status =? 403)%Z = false) by (apply Z.eqb_neq; lia).
  assert (H4 : (status =? 404)%Z = false) by (apply Z.eqb_neq; lia).
  assert (Hb : ((status <? 200)%Z || (300 <=? status)%Z) = false).
  { apply orb_false_iff. split; [apply Z.ltb_ge | apply Z.leb_gt]; lia. }
  rewrite H1, H3, H4, Hb. destruct (JSON_parse rt body); reflexivity.
Qed.

(** [jiraRequest] on a request that the network does not settle within
    the default timeout. *)
Lemma jiraRequest_on_timeout :
  forall options w,
    tidy w ->
    settles_within DEFAULT_TIMEOUT_MS (network rt (fetch_init (http_options rt options)))
    = false ->
    exists w1,
      jiraRequest rt options w
      = (Throw (ExternalServiceError
                  ("Request to " +++ safeUrl rt (baseUrl (config options) +++ path options)
                     +++ " timed out after 30000ms")
                  (req_metadata options) None), w1)
      /\ now w1 = (now w + 30000)%Z
      /\ aborted w1 = aborted w ++ [fetch_init (http_options rt options)]
      /\ stderr w1 = stderr w
      /\ requests w1 = requests w ++ [fetch_init (http_options rt options)]
      /\ uuids_drawn w1 = uuids_drawn w
      /\ tidy w1.
Proof.
  intros options w Htidy Hslow.
  destruct (httpRequest_run rt (http_options rt options) w Htidy)
    as (w1 & Hrun & Hreq & Herr & Hid & Htidy1).
  cbn [timeoutMs http_options or_default] in Hrun.
  change (timer_delay DEFAULT_TIMEOUT_MS) with DEFAULT_TIMEOUT_MS in Hrun.
  assert (Hout : httpRequest rt (http_options rt options) w
                 = (Throw (wrap_failure rt (url (http_options rt options))
                             DEFAULT_TIMEOUT_MS (metadata (http_options rt options))
                             AbortError), w1)
                 /\ now w1 = (now w + DEFAULT_TIMEOUT_MS)%Z
                 /\ aborted w1 = aborted w ++ [fetch_init (http_options rt options)]).
  { destruct (network rt _) as [after status body | after err |];
      cbn [settles_within] in Hslow; try rewrite Hslow in Hrun; exact Hrun. }
  destruct Hout as (Hout & Hnow & Hab).
  exists w1. unfold jiraRequest, bind. rewrite Hout.
  split; [reflexivity | ]. auto 10.
Qed.

(** [classify] on status 404: a warning, and the failure envelope with the
    caller's text or the default. *)
Lemma classify_not_found :
  forall options body w,
    classify rt options {| HttpClient.status := 404; response_body := body |} w
    = (Return (ok_false
                 {| isError := true;
                    content := [TextContent (or_default (notFoundMessage options)
                                               NOT_FOUND_DEFAULT_TEXT)] |}),
       write_stderr
         (written rt (now w)
            (entry warn "Jira resource not found" (metadata_fields (req_metadata options))))
         w).
Proof.
  intros options body w. unfold classify. cbn [HttpClient.status Z.eqb Pos.eqb].
  unfold bind, ret. rewrite log_plain. reflexivity.
Qed.

(** What [classify] leaves of the world: at most one line more, which
    carries the metadata of the call and is no info line. *)
Lemma classify_effects :
  forall options response w,
    exists emitted,
      stderr (snd (classify rt options response w)) = stderr w ++ emitted
      /\ Forall (carries (req_metadata options)) emitted
      /\ length emitted <= 1
      /\ count_level info emitted = 0
      /\ fst (classify rt options response w) <> Never
      /\ now (snd (classify rt options response w)) = now w
      /\ uuids_drawn (snd (classify rt options response w)) = uuids_drawn w
      /\ timers (snd (classify rt options response w)) = timers w
      /\ handles (snd (classify rt options response w)) = handles w.
Proof.
  intros options response w. unfold classify.
  assert (Hline : forall l m, carries (req_metadata options)
                                (written rt (now w) (entry l m (metadata_fields
                                                                  (req_metadata options))))).
  { intros l m. rewrite written_plain. repeat split. }
  destruct (HttpClient.status response =? 401)%Z;
    [ | destruct (HttpClient.status response =? 403)%Z;
        [ | destruct (HttpClient.status response =? 404)%Z;
            [ | destruct ((HttpClient.status response <? 200)%Z
                          || (300 <=? HttpClient.status response)%Z);
                [ | destruct (JSON_parse rt (response_body response)) ] ] ] ];
    unfold bind, ret, throw; try rewrite log_plain; cbn [fst snd stderr write_stderr];
    first
      [ solve [ exists []; rewrite app_nil_r;
                split; [reflexivity | ]; split; [constructor | ];
                split; [simpl; lia | ]; split; [reflexivity | ];
                split; [discriminate | ]; auto ]
      | eexists [ _ ];
        split; [reflexivity | ];
        split; [constructor; [apply Hline | constructor] | ];
        split; [simpl; lia | ];
        split; [rewrite written_plain; reflexivity | ];
        split; [discriminate | ]; auto ].
Qed.

End ClientFurther.

(** C1.  Whenever the upstream answers a call of [jiraRequest] (within the
    default timeout, as the call passes none): status 401, 403 and 404 give
    a returned failure envelope, whose response is flagged as an error and
    holds one text: respectively the fixed authentication text, the fixed
    permission text, and the caller's [notFoundMessage] or the generic
    default; every other status outside
    200..299 throws an [ExternalServiceError] that carries the status; a
    status in 200..299 returns a success envelope with the parsed body when
    the body parses as JSON, and throws an [ExternalServiceError] when it
    does not. *)
Theorem jiraRequest_classifies_status :
  forall (rt : Runtime) (options : JiraRequestOptions) (w : World)
         (after status : Z) (body : string),
    tidy w ->
    network rt (fetch_init (http_options rt options)) = Responds after status body ->
    (after <= DEFAULT_TIMEOUT_MS)%Z ->
    let outcome := fst (jiraRequest rt options w) in
    let md := req_metadata options in
    (status = 401%Z ->
     outcome
     = Return (ok_false
                 {| isError := true;
                    content := [TextContent
                      "Jira authentication failed. Check the configured credentials."] |}))
    /\ (status = 403%Z ->
        outcome
        = Return (ok_false
                    {| isError := true;
                       content := [TextContent
                         "Permission denied when accessing Jira. The configured user may lack access."] |}))
    /\ (status = 404%Z ->
        outcome
        = Return (ok_false
                    {| isError := true;
                       content := [TextContent
                         match notFoundMessage options with
                         | Some text => text
                         | None =>
                             "The requested Jira resource was not found. Check the identifier and try again."
                         end] |}))
    /\ (status <> 401%Z -> status <> 403%Z -> status <> 404%Z ->
        (status < 200 \/ 300 <= status)%Z ->
        outcome = Throw (ExternalServiceError
                           ("Jira API returned unexpected status " +++ Number_toString status)
                           md (Some status)))
    /\ ((200 <= status < 300)%Z ->
        forall data, JSON_parse rt body = Some data ->
        outcome = Return (ok_true data))
    /\ ((200 <= status < 300)%Z ->
        JSON_parse rt body = None ->
        outcome = Throw (ExternalServiceError
                           "Failed to parse Jira API response as JSON" md None)).
Proof.
  intros rt options w after status body Htidy Hnet Hafter outcome md.
  subst outcome. unfold jiraRequest, bind.
  destruct (httpRequest_response rt _ w after status body Htidy Hnet Hafter)
    as (w' & -> & _).
  unfold classify. cbn [HttpClient.status response_body].
  repeat split.
  - intros ->. reflexivity.
  - intros ->. reflexivity.
  - intros ->. reflexivity.
  - intros H1 H3 H4 Hout.
    apply Z.eqb_neq in H1, H3, H4. rewrite H1, H3, H4.
    assert (Hb : ((status <? 200)%Z || (300 <=? status)%Z) = true).
    { apply orb_true_iff. destruct Hout as [H | H];
        [left; now apply Z.ltb_lt | right; now apply Z.leb_le]. }
    rewrite Hb. reflexivity.
  - intros [Hlo Hhi] data Hparse.
    assert (H1 : (status =? 401)%Z = false) by (apply Z.eqb_neq; lia).
    assert (H3 : (status =? 403)%Z = false) by (apply Z.eqb_neq; lia).
    assert (H4 : (status =? 404)%Z = false) by (apply Z.eqb_neq; lia).
    assert (Hb : ((status <? 200)%Z || (300 <=? status)%Z) = false).
    { apply orb_false_iff. split; [apply Z.ltb_ge | apply Z.leb_gt]; lia. }
    rewrite H1, H3, H4, Hb, Hparse. reflexivity.
  - intros [Hlo Hhi] Hparse.
    assert (H1 : (status =? 401)%Z = false) by (apply Z.eqb_neq; lia).
    assert (H3 : (status =? 403)%Z = false) by (apply Z.eqb_neq; lia).
    assert (H4 : (status =? 404)%Z = false) by (apply Z.eqb_neq; lia).
    assert (Hb : ((status <? 200)%Z || (300 <=? status)%Z) = false).
    { apply orb_false_iff. split; [apply Z.ltb_ge | apply Z.leb_gt]; lia. }
    rewrite H1, H3, H4, Hb, Hparse. reflexivity.
Qed.

Lemma jiraRequest_classifies_status_witness :
  fst (jiraRequest (Sample.runtime (Sample.answers 500 "oops"))
         (Sample.search_request None) (Sample.start 0))
  = Throw (ExternalServiceError "Jira API returned unexpected status 500"
             Sample.md0 (Some 500%Z))
  /\ fst (jiraRequest (Sample.runtime (Sample.answers 404 "{}"))
            (Sample.search_request None) (Sample.start 0))
     = Return (ok_false
                 {| isError := true;
                    content := [TextContent
                      "The requested Jira resource was not found. Check the identifier and try again."] |})
  /\ fst (jiraRequest (Sample.runtime (Sample.answers 200 "[1, true, null]"))
            (Sample.search_request None) (Sample.start 0))
     = Return (ok_true (JArray [JNumber 1; JBool true; JNull]))
  /\ fst (jiraRequest (Sample.runtime (Sample.answers 200 "<html>"))
            (Sample.search_request None) (Sample.start 0))
     = Throw (ExternalServiceError "Failed to parse Jira API response as JSON"
                Sample.md0 None).
Proof.
  split; [ | split; [ | split]].
  - apply (jiraRequest_classifies_status
             (Sample.runtime (Sample.answers 500 "oops"))
             (Sample.search_request None) (Sample.start 0) 80 500 "oops");
      try (intros t []); try reflexivity; try discriminate; lia.
  - apply (jiraRequest_classifies_status
             (Sample.runtime (Sample.answers 404 "{}"))
             (Sample.search_request None) (Sample.start 0) 80 404 "{}");
      try (intros t []); try reflexivity; try discriminate.
  - apply (jiraRequest_classifies_status
             (Sample.runtime (Sample.answers 200 "[1, true, null]"))
             (Sample.search_request None) (Sample.start 0) 80 200 "[1, true, null]");
      try (intros t []); try reflexivity; try discriminate; lia.
  - apply (jiraRequest_classifies_status
             (Sample.runtime (Sample.answers 200 "<html>"))
             (Sample.search_request None) (Sample.start 0) 80 200 "<html>");
      try (intros t []); try reflexivity; try discriminate; lia.
Defined.

(** ** The tool handlers *)

(** The calls of [log] that a handler makes write their line. *)
Ltac write_lines :=
  cbv beta iota;
  repeat first [rewrite log_plain | rewrite log_timed | rewrite log_failed];
  cbv beta iota.

Section HandlerRuns.
Variable rt : Runtime.
Variable jira : JiraConfig.

(** What a call of [jiraRequest] leaves of a tidy world, whatever the
    network does. *)
Lemma jiraRequest_effects :
  forall options w,
    tidy w ->
    exists emitted,
      fst (jiraRequest rt options w) <> Never
      /\ stderr (snd (jiraRequest rt options w)) = stderr w ++ emitted
      /\ Forall (carries (req_metadata options)) emitted
      /\ length emitted <= 1
      /\ count_level info emitted = 0
      /\ requests (snd (jiraRequest rt options w))
         = requests w ++ [fetch_init (http_options rt options)]
      /\ uuids_drawn (snd (jiraRequest rt options w)) = uuids_drawn w
      /\ tidy (snd (jiraRequest rt options w)).
Proof.
  intros options w Htidy.
  pose proof (jiraRequest_requests rt options w Htidy) as Hreq.
  destruct (httpRequest_run rt (http_options rt options) w Htidy)
    as (w1 & Hrun & _ & Herr & Hid & Htidy1).
  assert (Hcases :
            (exists response,
                httpRequest rt (http_options rt options) w = (Return response, w1))
            \/ (exists e, httpRequest rt (http_options rt options) w = (Throw e, w1))).
  { destruct (network rt _) as [after status body | after err |];
      try destruct (after <=? _)%Z;
      destruct Hrun as (Hrun & _ & _); rewrite Hrun; eauto. }
  revert Hreq. unfold jiraRequest, bind.
  destruct Hcases as [[response ->] | [e ->]]; intro Hreq.
  - destruct (classify_effects rt options response w1)
      as (emitted & Hlines & Hcarry & Hlen & Hinfo & Hnever & _ & Huuid & Htimers & Hhandles).
    exists emitted.
    split; [exact Hnever | ]. split; [now rewrite Hlines, Herr | ].
    split; [exact Hcarry | ]. split; [exact Hlen | ]. split; [exact Hinfo | ].
    split; [exact Hreq | ]. split; [now rewrite Huuid | ].
    exact (tidy_same_timers w1 _ Htimers Hhandles Htidy1).
  - exists []. cbn [fst snd] in *.
    split; [discriminate | ]. split; [now rewrite app_nil_r | ].
    split; [constructor | ]. split; [simpl; lia | ]. split; [reflexivity | ].
    split; [exact Hreq | ]. split; [exact Hid | exact Htidy1].
Qed.

(** A failure envelope of [jiraRequest] is flagged as an error. *)
Lemma jiraRequest_envelope_flagged :
  forall options w r,
    fst (jiraRequest rt options w) = Return (ok_false r) -> isError r = true.
Proof.
  intros options w r. unfold jiraRequest, bind.
  destruct (httpRequest rt (http_options rt options) w) as [[response | e |] w1];
    cbn [fst]; try discriminate.
  unfold classify.
  destruct (HttpClient.status response =? 401)%Z;
    [ | destruct (HttpClient.status response =? 403)%Z;
        [ | destruct (HttpClient.status response =? 404)%Z;
            [ | destruct ((HttpClient.status response <? 200)%Z
                          || (300 <=? HttpClient.status response)%Z);
                [ | destruct (JSON_parse rt (response_body response)) ] ] ] ];
    unfold bind, ret, throw; try rewrite log_plain; cbn [fst]; intro H; try discriminate;
    injection H as <-; reflexivity.
Qed.

Lemma carries_plain :
  forall t l m md, carries md (written rt t (entry l m (metadata_fields md))).
Proof. intros. rewrite written_plain. repeat split. Qed.

Lemma carries_timed :
  forall t l m d md,
    carries md (written rt t (entry l m (("durationMs", JNumber d) :: metadata_fields md))).
Proof. intros. rewrite written_timed. repeat split. Qed.

Lemma carries_failed :
  forall t l m e d md,
    carries md (written rt t (entry l m ([ ("error", JString e); ("durationMs", JNumber d) ]
                                           ++ metadata_fields md))).
Proof. intros. rewrite written_failed. repeat split. Qed.

(** The books of an invocation: an opening line, what the client wrote,
    a closing line. *)
Lemma invocation_ends :
  forall md w w0 w1 first client last request,
    stderr w0 = stderr w ++ [first] ->
    requests w0 = requests w ->
    uuids_drawn w0 = S (uuids_drawn w) ->
    carries md first ->
    stderr w1 = stderr w0 ++ client ->
    Forall (carries md) client ->
    length client <= 1 ->
    requests w1 = requests w0 ++ [request] ->
    uuids_drawn w1 = uuids_drawn w0 ->
    tidy w1 ->
    carries md last ->
    requests (write_stderr last w1) = requests w ++ [request]
    /\ stderr (write_stderr last w1) = stderr w ++ ([first] ++ client ++ [last])
    /\ 2 <= length ([first] ++ client ++ [last]) <= 3
    /\ Forall (carries md) ([first] ++ client ++ [last])
    /\ uuids_drawn (write_stderr last w1) = S (uuids_drawn w)
    /\ tidy (write_stderr last w1).
Proof.
  intros md w w0 w1 first client last request
         Hopen Hreq0 Hid0 Hfirst Hlines Hcarry Hlen Hreq Hid Htidy Hlast.
  cbn [requests stderr uuids_drawn write_stderr].
  split; [now rewrite Hreq, Hreq0 | ].
  split; [rewrite Hlines, Hopen, <- !app_assoc; reflexivity | ].
  split; [rewrite !length_app; simpl; lia | ].
  split.
  - apply Forall_app. split; [constructor; [exact Hfirst | constructor] | ].
    apply Forall_app. split; [exact Hcarry | constructor; [exact Hlast | constructor]].
  - split; [now rewrite Hid, Hid0 | ].
    exact (tidy_same_timers w1 _ eq_refl eq_refl Htidy).
Qed.

(** [parseResponse] returns or throws. *)
Lemma parseResponse_settles :
  forall T (schema : ZodType T) data md, parseResponse schema data md <> Never.
Proof.
  intros T schema data md. unfold parseResponse.
  destruct (safeParse schema data); discriminate.
Qed.

(** The first line of an invocation leaves a tidy world tidy. *)
Lemma opening_keeps_tidy :
  forall w line, tidy w -> tidy (write_stderr line (draw_uuid w)).
Proof. intros w line H. exact (tidy_same_timers w _ eq_refl eq_refl H). Qed.

(** *** jira_get_issue *)

(** An invocation of jira_get_issue, by what becomes of its request. *)
Lemma get_issue_run :
  forall issueKey w,
    let md := {| toolName := "jira_get_issue"; operation := "getIssue";
                 correlationId := randomUUID rt (uuids_drawn w) |} in
    let w0 :=
      write_stderr
        (written rt (now w)
           (entry info ("Fetching Jira issue " +++ issueKey) (metadata_fields md)))
        (draw_uuid w) in
    let ended (w1 : World) (r : McpResponse) (e : Entries) :=
      (Return r, write_stderr (written rt (now w1) e) w1) in
    let failed (w1 : World) (err : Thrown) :=
      ended w1
        (error_response ("An error occurred while fetching Jira issue " +++ issueKey
                           +++ ". Check server logs for details."))
        (entry error ("Failed to fetch issue " +++ issueKey)
           ([ ("error", JString (if instanceof_Error err then error_message err
                                 else "Unknown error"));
              ("durationMs", JNumber (now w1 - now w)) ] ++ metadata_fields md)) in
    GetIssue.handler rt jira issueKey w
    = match jiraRequest rt (GetIssue.request_options jira issueKey md) w0 with
      | (Return (ok_false r), w1) =>
          ended w1 r
            (entry warn ("Jira request failed for " +++ issueKey)
               (("durationMs", JNumber (now w1 - now w)) :: metadata_fields md))
      | (Return (ok_true data), w1) =>
          match parseResponse JiraIssueResponseSchema data md with
          | Return validated =>
              match formatJiraIssue rt validated with
              | Return text =>
                  ended w1 (text_response text)
                    (entry info ("Fetched issue " +++ issueKey)
                       (("durationMs", JNumber (now w1 - now w)) :: metadata_fields md))
              | Throw err => failed w1 err
              | Never => (Never, w1)
              end
          | Throw err => failed w1 err
          | Never => (Never, w1)
          end
      | (Throw err, w1) => failed w1 err
      | (Never, w1) => (Never, w1)
      end.
Proof.
  intros issueKey w md w0 ended failed. subst failed ended w0 md.
  unfold GetIssue.handler, GetIssue.TOOL_NAME, bind, crypto_randomUUID, Date_now,
    try_catch, lift, ret.
  write_lines. cbn [now draw_uuid].
  match goal with
  | |- context [jiraRequest rt ?o ?w0] =>
      destruct (jiraRequest rt o w0) as [[[data | r] | err |] w1]
  end; write_lines; try reflexivity.
  match goal with
  | |- context [parseResponse ?s ?d ?m] =>
      destruct (parseResponse s d m) as [validated | err |]
  end; write_lines; try reflexivity.
  destruct (formatJiraIssue rt validated) as [text | err |]; write_lines; reflexivity.
Qed.

(** *** jira_update_issue *)

Lemma update_issue_run :
  forall issueKey fields w,
    let md := {| toolName := "jira_update_issue"; operation := "updateIssue";
                 correlationId := randomUUID rt (uuids_drawn w) |} in
    let w0 :=
      write_stderr
        (written rt (now w)
           (entry info ("Updating Jira issue " +++ issueKey) (metadata_fields md)))
        (draw_uuid w) in
    let ended (w1 : World) (r : McpResponse) (e : Entries) :=
      (Return r, write_stderr (written rt (now w1) e) w1) in
    let failed (w1 : World) (err : Thrown) :=
      if is_external_with_status err 400 then
        ended w1
          (error_response
             "Failed to update issue. Check the field names and values are valid, then try again.")
          (entry warn "Invalid field names or values in update request"
             ([ ("error", JString (error_message err));
                ("durationMs", JNumber (now w1 - now w)) ] ++ metadata_fields md))
      else
        ended w1
          (error_response
             "An error occurred while updating the Jira issue. Check server logs for details.")
          (entry error "Failed to update Jira issue"
             ([ ("error", JString (if instanceof_Error err then error_message err
                                   else "Unknown error"));
                ("durationMs", JNumber (now w1 - now w)) ] ++ metadata_fields md)) in
    UpdateIssue.handler rt jira issueKey fields w
    = match jiraRequest rt (UpdateIssue.request_options rt jira issueKey fields md) w0 with
      | (Return (ok_false r), w1) =>
          ended w1 r
            (entry warn ("Jira update request failed for " +++ issueKey)
               (("durationMs", JNumber (now w1 - now w)) :: metadata_fields md))
      | (Return (ok_true _), w1) =>
          ended w1
            (text_response ("Updated " +++ issueKey +++ nl +++ nl +++ "Fields changed: "
                              +++ join ", " (keys (UpdateIssue.processedFields fields))))
            (entry info ("Updated issue " +++ issueKey)
               (("durationMs", JNumber (now w1 - now w)) :: metadata_fields md))
      | (Throw err, w1) => failed w1 err
      | (Never, w1) => (Never, w1)
      end.
Proof.
  intros issueKey fields w md w0 ended failed. subst failed ended w0 md.
  unfold UpdateIssue.handler, UpdateIssue.TOOL_NAME, bind, crypto_randomUUID, Date_now,
    try_catch, lift, ret.
  write_lines. cbn [now draw_uuid].
  match goal with
  | |- context [jiraRequest rt ?o ?w0] =>
      destruct (jiraRequest rt o w0) as [[[data | r] | err |] w1]
  end; write_lines; try reflexivity.
  destruct (is_external_with_status err 400); write_lines; reflexivity.
Qed.

(** *** jira_search_issues *)

Lemma search_issues_run :
  forall jql maxResults w,
    let md := {| toolName := "jira_search_issues"; operation := "searchIssues";
                 correlationId := randomUUID rt (uuids_drawn w) |} in
    let w0 :=
      write_stderr
        (written rt (now w)
           (entry info "Searching Jira issues with JQL" (metadata_fields md)))
        (draw_uuid w) in
    let ended (w1 : World) (r : McpResponse) (e : Entries) :=
      (Return r, write_stderr (written rt (now w1) e) w1) in
    let failed (w1 : World) (err : Thrown) :=
      if is_external_with_status err 400 then
        ended w1
          (error_response
             "Invalid JQL query. Check the syntax and field names, then try again.")
          (entry warn "Invalid JQL query"
             ([ ("error", JString (error_message err));
                ("durationMs", JNumber (now w1 - now w)) ] ++ metadata_fields md))
      else
        ended w1
          (error_response
             "An error occurred while searching Jira issues. Check server logs for details.")
          (entry error "Failed to search Jira issues"
             ([ ("error", JString (if instanceof_Error err then error_message err
                                   else "Unknown error"));
                ("durationMs", JNumber (now w1 - now w)) ] ++ metadata_fields md)) in
    SearchIssues.handler rt jira jql maxResults w
    = match jiraRequest rt (SearchIssues.request_options rt jira jql maxResults md) w0 with
      | (Return (ok_false r), w1) =>
          ended w1 r
            (entry warn "Jira search request failed"
               (("durationMs", JNumber (now w1 - now w)) :: metadata_fields md))
      | (Return (ok_true data), w1) =>
          match parseResponse JiraSearchResponseSchema data md with
          | Return validated =>
              ended w1 (text_response (formatJiraSearchResults validated))
                (entry info
                   ("Search returned "
                      +++ Number_toString (Z.of_nat (length (issues validated)))
                      +++ " issue(s)")
                   (("durationMs", JNumber (now w1 - now w)) :: metadata_fields md))
          | Throw err => failed w1 err
          | Never => (Never, w1)
          end
      | (Throw err, w1) => failed w1 err
      | (Never, w1) => (Never, w1)
      end.
Proof.
  intros jql maxResults w md w0 ended failed. subst failed ended w0 md.
  unfold SearchIssues.handler, SearchIssues.TOOL_NAME, bind, crypto_randomUUID, Date_now,
    try_catch, lift, ret.
  write_lines. cbn [now draw_uuid].
  match goal with
  | |- context [jiraRequest rt ?o ?w0] =>
      destruct (jiraRequest rt o w0) as [[[data | r] | err |] w1]
  end; write_lines; try reflexivity.
  - match goal with
    | |- context [parseResponse ?s ?d ?m] =>
        destruct (parseResponse s d m) as [validated | err |]
    end; write_lines; try reflexivity.
    destruct (is_external_with_status err 400); write_lines; reflexivity.
  - destruct (is_external_with_status err 400); write_lines; reflexivity.
Qed.

(** *** jira_create_issue *)

Lemma create_issue_run :
  forall project summary issueType description w,
    let md := {| toolName := "jira_create_issue"; operation := "createIssue";
                 correlationId := randomUUID rt (uuids_drawn w) |} in
    let w0 :=
      write_stderr
        (written rt (now w)
           (entry info ("Creating Jira issue in project " +++ project) (metadata_fields md)))
        (draw_uuid w) in
    let ended (w1 : World) (r : McpResponse) (e : Entries) :=
      (Return r, write_stderr (written rt (now w1) e) w1) in
    let failed (w1 : World) (err : Thrown) :=
      if is_external_with_status err 400 then
        ended w1
          (error_response
             "Failed to create issue. Check the project key and issue type are valid, then try again.")
          (entry warn "Invalid project key or issue type"
             ([ ("error", JString (error_message err));
                ("durationMs", JNumber (now w1 - now w)) ] ++ metadata_fields md))
      else
        ended w1
          (error_response
             "An error occurred while creating the Jira issue. Check server logs for details.")
          (entry error "Failed to create Jira issue"
             ([ ("error", JString (if instanceof_Error err then error_message err
                                   else "Unknown error"));
                ("durationMs", JNumber (now w1 - now w)) ] ++ metadata_fields md)) in
    CreateIssue.handler rt jira project summary issueType description w
    = match jiraRequest rt
              (CreateIssue.request_options rt jira project summary issueType description md)
              w0 with
      | (Return (ok_false r), w1) =>
          ended w1 r
            (entry warn ("Jira create request failed for project " +++ project)
               (("durationMs", JNumber (now w1 - now w)) :: metadata_fields md))
      | (Return (ok_true data), w1) =>
          match parseResponse (JiraCreateIssueResponseSchema rt) data md with
          | Return validated =>
              ended w1
                (text_response
                   ("Created " +++ created_key validated +++ ": " +++ summary +++ nl +++ nl
                      +++ "Type: " +++ issueType +++ nl +++ "Project: " +++ project))
                (entry info ("Created issue " +++ created_key validated)
                   (("durationMs", JNumber (now w1 - now w)) :: metadata_fields md))
          | Throw err => failed w1 err
          | Never => (Never, w1)
          end
      | (Throw err, w1) => failed w1 err
      | (Never, w1) => (Never, w1)
      end.
Proof.
  intros project summary issueType description w md w0 ended failed.
  subst failed ended w0 md.
  unfold CreateIssue.handler, CreateIssue.TOOL_NAME, bind, crypto_randomUUID, Date_now,
    try_catch, lift, ret.
  write_lines. cbn [now draw_uuid].
  match goal with
  | |- context [jiraRequest rt ?o ?w0] =>
      destruct (jiraRequest rt o w0) as [[[data | r] | err |] w1]
  end; write_lines; try reflexivity.
  - match goal with
    | |- context [parseResponse ?s ?d ?m] =>
        destruct (parseResponse s d m) as [validated | err |]
    end; write_lines; try reflexivity.
    destruct (is_external_with_status err 400); write_lines; reflexivity.
  - destruct (is_external_with_status err 400); write_lines; reflexivity.
Qed.

(** The one request of a search and of a creation, whatever becomes of
    it. *)
Lemma search_handler_requests :
  forall jql maxResults w,
    tidy w ->
    exists md,
      requests (snd (SearchIssues.handler rt jira jql maxResults w))
      = requests w
          ++ [fetch_init (http_options rt
                            (SearchIssues.request_options rt jira jql maxResults md))].
Proof.
  intros jql maxResults w Htidy.
  pose proof (search_issues_run jql maxResults w) as Hrun. cbv zeta in Hrun.
  eexists. rewrite Hrun.
  match goal with
  | |- context [jiraRequest rt ?o ?w0] =>
      pose proof (jiraRequest_requests rt o w0 (opening_keeps_tidy w _ Htidy)) as Hreq;
      destruct (jiraRequest rt o w0) as [[[data | r] | err |] w1]
  end; cbn [snd] in Hreq.
  - destruct (parseResponse JiraSearchResponseSchema data _) as [validated | err |];
      try destruct (is_external_with_status err 400); exact Hreq.
  - exact Hreq.
  - destruct (is_external_with_status err 400); exact Hreq.
  - exact Hreq.
Qed.

Lemma create_handler_requests :
  forall project summary issueType description w,
    tidy w ->
    exists md,
      requests (snd (CreateIssue.handler rt jira project summary issueType description w))
      = requests w
          ++ [fetch_init
                (http_options rt
                   (CreateIssue.request_options rt jira project summary issueType
                      description md))].
Proof.
  intros project summary issueType description w Htidy.
  pose proof (create_issue_run project summary issueType description w) as Hrun.
  cbv zeta in Hrun.
  eexists. rewrite Hrun.
  match goal with
  | |- context [jiraRequest rt ?o ?w0] =>
      pose proof (jiraRequest_requests rt o w0 (opening_keeps_tidy w _ Htidy)) as Hreq;
      destruct (jiraRequest rt o w0) as [[[data | r] | err |] w1]
  end; cbn [snd] in Hreq.
  - destruct (parseResponse (JiraCreateIssueResponseSchema rt) data _)
      as [validated | err |];
      try destruct (is_external_with_status err 400); exact Hreq.
  - exact Hreq.
  - destruct (is_external_with_status err 400); exact Hreq.
  - exact Hreq.
Qed.

End HandlerRuns.

Lemma count_level_app :
  forall l xs ys, count_level l (xs ++ ys) = count_level l xs + count_level l ys.
Proof. intros l xs ys. unfold count_level. now rewrite filter_app, length_app. Qed.

(** C3, as the claim states it, fails: on a 404 the client logs one warning
    and the handler logs a second one, so an invocation of jira_get_issue
    with the well-formed key PROJ-1 that meets a 404 ends with two
    warning-level lines. *)
Lemma get_issue_404_logs_two_warnings :
  let run :=
    GetIssue.handler (Sample.runtime Sample.net404) Sample.jira "PROJ-1" (Sample.start 0) in
  JIRA_ISSUE_KEY_PATTERN "PROJ-1" = true
  /\ fst run = Return {| isError := true;
                         content := [TextContent
                           "Jira issue PROJ-1 was not found. Check the issue key and try again."] |}
  /\ map line_level (stderr (snd run))
     = [Some (JString "info"); Some (JString "warn"); Some (JString "warn")]
  /\ map (field "message") (stderr (snd run))
     = [ Some (JString "Fetching Jira issue PROJ-1");
         Some (JString "Jira resource not found");
         Some (JString "Jira request failed for PROJ-1") ]
  /\ count_level warn (stderr (snd run)) = 2
  /\ count_level warn (stderr (snd run)) <> 1.
Proof. vm_compute. repeat split; discriminate. Qed.

Section NotFound.
Variable rt : Runtime.
Variable jira : JiraConfig.
Variable w : World.
Variables (after : Z) (body : string).
Hypothesis Htidy : tidy w.
Hypothesis Hafter : (after <= DEFAULT_TIMEOUT_MS)%Z.

(** What the client makes of a 404, in the world after the opening line. *)
Lemma client_not_found :
  forall options line,
    network rt (fetch_init (http_options rt options)) = Responds after 404 body ->
    exists w1,
      jiraRequest rt options (write_stderr line (draw_uuid w))
      = (Return (ok_false
                   {| isError := true;
                      content := [TextContent (or_default (notFoundMessage options)
                                                 NOT_FOUND_DEFAULT_TEXT)] |}),
         write_stderr
           (written rt (now w + after)
              (entry warn "Jira resource not found"
                 (metadata_fields (req_metadata options))))
           w1)
      /\ now w1 = (now w + after)%Z
      /\ stderr w1 = stderr w ++ [line].
Proof.
  intros options line Hnet.
  destruct (jiraRequest_on_response rt options (write_stderr line (draw_uuid w))
              after 404 body (opening_keeps_tidy w line Htidy) Hnet Hafter)
    as (w1 & Hjira & Hnow & Herr & _).
  exists w1. rewrite Hjira, classify_not_found.
  cbn [now stderr write_stderr draw_uuid] in Hnow, Herr. rewrite Hnow. auto.
Qed.

Lemma get_issue_404 :
  forall issueKey,
    (forall md,
        network rt (fetch_init (http_options rt (GetIssue.request_options jira issueKey md)))
        = Responds after 404 body) ->
    fst (GetIssue.handler rt jira issueKey w)
    = Return {| isError := true;
                content := [TextContent ("Jira issue " +++ issueKey
                   +++ " was not found. Check the issue key and try again.")] |}
    /\ stderr (snd (GetIssue.handler rt jira issueKey w))
       = stderr w
           ++ not_found_lines rt w after "jira_get_issue" "getIssue"
                ("Fetching Jira issue " +++ issueKey)
                ("Jira request failed for " +++ issueKey).
Proof.
  intros issueKey Hnet.
  pose proof (get_issue_run rt jira issueKey w) as Hrun. cbv zeta in Hrun.
  match type of Hrun with
  | context [jiraRequest rt ?o (write_stderr ?line _)] =>
      destruct (client_not_found o line (Hnet _)) as (w1 & Hjira & Hnow & Herr);
        rewrite Hjira in Hrun
  end.
  rewrite Hrun. cbn [fst snd stderr write_stderr now]. split; [reflexivity | ].
  rewrite Herr, Hnow, <- !app_assoc.
  replace (now w + after - now w)%Z with after by lia. reflexivity.
Qed.

Lemma update_issue_404 :
  forall issueKey fields,
    (forall md,
        network rt (fetch_init (http_options rt
                      (UpdateIssue.request_options rt jira issueKey fields md)))
        = Responds after 404 body) ->
    fst (UpdateIssue.handler rt jira issueKey fields w)
    = Return {| isError := true;
                content := [TextContent ("Issue " +++ issueKey
                   +++ " was not found. Check the issue key and try again.")] |}
    /\ stderr (snd (UpdateIssue.handler rt jira issueKey fields w))
       = stderr w
           ++ not_found_lines rt w after "jira_update_issue" "updateIssue"
                ("Updating Jira issue " +++ issueKey)
                ("Jira update request failed for " +++ issueKey).
Proof.
  intros issueKey fields Hnet.
  pose proof (update_issue_run rt jira issueKey fields w) as Hrun. cbv zeta in Hrun.
  match type of Hrun with
  | context [jiraRequest rt ?o (write_stderr ?line _)] =>
      destruct (client_not_found o line (Hnet _)) as (w1 & Hjira & Hnow & Herr);
        rewrite Hjira in Hrun
  end.
  rewrite Hrun. cbn [fst snd stderr write_stderr now]. split; [reflexivity | ].
  rewrite Herr, Hnow, <- !app_assoc.
  replace (now w + after - now w)%Z with after by lia. reflexivity.
Qed.

Lemma search_issues_404 :
  forall jql maxResults,
    (forall md,
        network rt (fetch_init (http_options rt
                      (SearchIssues.request_options rt jira jql maxResults md)))
        = Responds after 404 body) ->
    fst (SearchIssues.handler rt jira jql maxResults w)
    = Return {| isError := true;
                content := [TextContent
                  "The requested Jira resource was not found. Check the identifier and try again."] |}
    /\ stderr (snd (SearchIssues.handler rt jira jql maxResults w))
       = stderr w
           ++ not_found_lines rt w after "jira_search_issues" "searchIssues"
                "Searching Jira issues with JQL" "Jira search request failed".
Proof.
  intros jql maxResults Hnet.
  pose proof (search_issues_run rt jira jql maxResults w) as Hrun. cbv zeta in Hrun.
  match type of Hrun with
  | context [jiraRequest rt ?o (write_stderr ?line _)] =>
      destruct (client_not_found o line (Hnet _)) as (w1 & Hjira & Hnow & Herr);
        rewrite Hjira in Hrun
  end.
  rewrite Hrun. cbn [fst snd stderr write_stderr now]. split; [reflexivity | ].
  rewrite Herr, Hnow, <- !app_assoc.
  replace (now w + after - now w)%Z with after by lia. reflexivity.
Qed.

Lemma create_issue_404 :
  forall project summary issueType description,
    (forall md,
        network rt (fetch_init (http_options rt
                      (CreateIssue.request_options rt jira project summary issueType
                         description md)))
        = Responds after 404 body) ->
    fst (CreateIssue.handler rt jira project summary issueType description w)
    = Return {| isError := true;
                content := [TextContent
                  "Failed to create issue. The project or issue type may not exist."] |}
    /\ stderr (snd (CreateIssue.handler rt jira project summary issueType description w))
       = stderr w
           ++ not_found_lines rt w after "jira_create_issue" "createIssue"
                ("Creating Jira issue in project " +++ project)
                ("Jira create request failed for project " +++ project).
Proof.
  intros project summary issueType description Hnet.
  pose proof (create_issue_run rt jira project summary issueType description w) as Hrun.
  cbv zeta in Hrun.
  match type of Hrun with
  | context [jiraRequest rt ?o (write_stderr ?line _)] =>
      destruct (client_not_found o line (Hnet _)) as (w1 & Hjira & Hnow & Herr);
        rewrite Hjira in Hrun
  end.
  rewrite Hrun. cbn [fst snd stderr write_stderr now]. split; [reflexivity | ].
  rewrite Herr, Hnow, <- !app_assoc.
  replace (now w + after - now w)%Z with after by lia. reflexivity.
Qed.

End NotFound.

(** C3, amended.  When the upstream answers the request of an invocation
    with status 404 (to a well-formed key, for the two tools that take one),
    every handler returns a result flagged as an error whose text is the
    not-found message of the operation (the generic message of the client
    for jira_search_issues, which has none of its own), and over the whole
    invocation exactly three lines are written: the opening line, a
    warning "Jira resource not found" by the client, and a warning of the
    handler's own, which holds the time that the request took.  So two
    warning-level lines are written and no error-level line. *)
Theorem not_found_is_logged_twice :
  forall (rt : Runtime) (jira : JiraConfig) (w : World) (after : Z) (body : string),
    tidy w ->
    (after <= DEFAULT_TIMEOUT_MS)%Z ->
    let lines (tool operation opening closing : string) :=
      let id := JString (randomUUID rt (uuids_drawn w)) in
      [ JObject [ ("timestamp", JString (toISOString rt (now w)));
                  ("level", JString "info");
                  ("message", JString opening);
                  ("toolName", JString tool);
                  ("operation", JString operation);
                  ("correlationId", id) ];
        JObject [ ("timestamp", JString (toISOString rt (now w + after)));
                  ("level", JString "warn");
                  ("message", JString "Jira resource not found");
                  ("toolName", JString tool);
                  ("operation", JString operation);
                  ("correlationId", id) ];
        JObject [ ("timestamp", JString (toISOString rt (now w + after)));
                  ("level", JString "warn");
                  ("message", JString closing);
                  ("durationMs", JNumber after);
                  ("toolName", JString tool);
                  ("operation", JString operation);
                  ("correlationId", id) ] ] in
    (forall issueKey,
        JIRA_ISSUE_KEY_PATTERN issueKey = true ->
        (forall md,
            network rt (fetch_init (http_options rt
                          (GetIssue.request_options jira issueKey md)))
            = Responds after 404 body) ->
        fst (GetIssue.handler rt jira issueKey w)
        = Return {| isError := true;
                    content := [TextContent ("Jira issue " +++ issueKey
                       +++ " was not found. Check the issue key and try again.")] |}
        /\ stderr (snd (GetIssue.handler rt jira issueKey w))
           = stderr w
               ++ lines "jira_get_issue" "getIssue" ("Fetching Jira issue " +++ issueKey)
                    ("Jira request failed for " +++ issueKey))
    /\ (forall issueKey fields,
           JIRA_ISSUE_KEY_PATTERN issueKey = true ->
           (forall md,
               network rt (fetch_init (http_options rt
                             (UpdateIssue.request_options rt jira issueKey fields md)))
               = Responds after 404 body) ->
           fst (UpdateIssue.handler rt jira issueKey fields w)
           = Return {| isError := true;
                       content := [TextContent ("Issue " +++ issueKey
                          +++ " was not found. Check the issue key and try again.")] |}
           /\ stderr (snd (UpdateIssue.handler rt jira issueKey fields w))
              = stderr w
                  ++ lines "jira_update_issue" "updateIssue"
                       ("Updating Jira issue " +++ issueKey)
                       ("Jira update request failed for " +++ issueKey))
    /\ (forall jql maxResults,
           (forall md,
               network rt (fetch_init (http_options rt
                             (SearchIssues.request_options rt jira jql maxResults md)))
               = Responds after 404 body) ->
           fst (SearchIssues.handler rt jira jql maxResults w)
           = Return {| isError := true;
                       content := [TextContent
                         "The requested Jira resource was not found. Check the identifier and try again."] |}
           /\ stderr (snd (SearchIssues.handler rt jira jql maxResults w))
              = stderr w
                  ++ lines "jira_search_issues" "searchIssues"
                       "Searching Jira issues with JQL" "Jira search request failed")
    /\ (forall project summary issueType description,
           (forall md,
               network rt (fetch_init (http_options rt
                             (CreateIssue.request_options rt jira project summary issueType
                                description md)))
               = Responds after 404 body) ->
           fst (CreateIssue.handler rt jira project summary issueType description w)
           = Return {| isError := true;
                       content := [TextContent
                         "Failed to create issue. The project or issue type may not exist."] |}
           /\ stderr (snd (CreateIssue.handler rt jira project summary issueType
                             description w))
              = stderr w
                  ++ lines "jira_create_issue" "createIssue"
                       ("Creating Jira issue in project " +++ project)
                       ("Jira create request failed for project " +++ project))
    /\ (forall tool operation opening closing,
           count_level warn (lines tool operation opening closing) = 2
           /\ count_level error (lines tool operation opening closing) = 0
           /\ length (lines tool operation opening closing) = 3).
Proof.
  intros rt jira w after body Htidy Hafter lines.
  split; [ | split; [ | split; [ | split]]].
  - intros issueKey _ Hnet. exact (get_issue_404 rt jira w after body Htidy Hafter _ Hnet).
  - intros issueKey fields _ Hnet.
    exact (update_issue_404 rt jira w after body Htidy Hafter _ _ Hnet).
  - intros jql maxResults Hnet.
    exact (search_issues_404 rt jira w after body Htidy Hafter _ _ Hnet).
  - intros project summary issueType description Hnet.
    exact (create_issue_404 rt jira w after body Htidy Hafter _ _ _ _ Hnet).
  - intros tool operation opening closing. repeat split.
Qed.

Lemma not_found_is_logged_twice_witness :
  fst (UpdateIssue.handler (Sample.runtime Sample.net404) Sample.jira "PROJ-1"
         Sample.update_fields (Sample.start 0))
  = Return {| isError := true;
              content := [TextContent
                "Issue PROJ-1 was not found. Check the issue key and try again."] |}
  /\ map line_level
       (stderr (snd (UpdateIssue.handler (Sample.runtime Sample.net404) Sample.jira
                       "PROJ-1" Sample.update_fields (Sample.start 0))))
     = [Some (JString "info"); Some (JString "warn"); Some (JString "warn")]
  /\ map (field "message")
       (stderr (snd (UpdateIssue.handler (Sample.runtime Sample.net404) Sample.jira
                       "PROJ-1" Sample.update_fields (Sample.start 0))))
     = [ Some (JString "Updating Jira issue PROJ-1");
         Some (JString "Jira resource not found");
         Some (JString "Jira update request failed for PROJ-1") ].
Proof.
  destruct (not_found_is_logged_twice (Sample.runtime Sample.net404) Sample.jira
              (Sample.start 0) 120 "{}") as (_ & Hupdate & _).
  - intros t [].
  - discriminate.
  - destruct (Hupdate "PROJ-1" Sample.update_fields) as (Hresult & Hlines).
    + reflexivity.
    + intro md. reflexivity.
    + split; [exact Hresult | ]. rewrite Hlines. split; reflexivity.
Defined.

Section Objects.

Lemma own_assign :
  forall field v entries k,
    own k (assign field v entries)
    = if String.eqb field k then Some v else own k entries.
Proof.
  intros field v entries k. induction entries as [| [k0 x] rest IH]; simpl.
  - destruct (String.eqb field k); reflexivity.
  - destruct (String.eqb k0 field) eqn:H0; simpl.
    + apply String.eqb_eq in H0. subst k0.
      destruct (String.eqb field k); reflexivity.
    + destruct (String.eqb k0 k) eqn:H1.
      * apply String.eqb_eq in H1. subst k0.
        rewrite String.eqb_sym, H0. reflexivity.
      * exact IH.
Qed.

Lemma keys_assign_present :
  forall field v entries,
    own field entries <> None -> keys (assign field v entries) = keys entries.
Proof.
  intros field v entries. induction entries as [| [k0 x] rest IH]; simpl; intro H.
  - contradiction.
  - destruct (String.eqb k0 field) eqn:H0; simpl.
    + reflexivity.
    + f_equal. apply IH. exact H.
Qed.

Lemma assign_fresh :
  forall field v entries,
    own field entries = None -> assign field v entries = entries ++ [(field, v)].
Proof.
  intros field v entries. induction entries as [| [k0 x] rest IH]; simpl; intro H.
  - reflexivity.
  - destruct (String.eqb k0 field); [discriminate | ]. f_equal. now apply IH.
Qed.

Lemma own_app :
  forall field (acc more : Entries),
    own field (acc ++ more)
    = match own field acc with Some v => Some v | None => own field more end.
Proof.
  intros field acc more. induction acc as [| [k0 x] rest IH]; simpl.
  - reflexivity.
  - destruct (String.eqb k0 field); [reflexivity | exact IH].
Qed.

(** Spreading an object over another that has none of its keys appends
    its entries. *)
Lemma spread_distinct :
  forall (more acc : Entries),
    NoDup (keys more) ->
    (forall k, In k (keys more) -> own k acc = None) ->
    spread acc more = acc ++ more.
Proof.
  induction more as [| [k v] rest IH]; intros acc Hnd Hfresh.
  - unfold spread. simpl. now rewrite app_nil_r.
  - inversion Hnd as [| ? ? Hnotin Hnd']; subst.
    unfold spread. simpl.
    rewrite (assign_fresh k v acc) by (apply Hfresh; now left).
    change (fold_left _ rest (acc ++ [(k, v)])) with (spread (acc ++ [(k, v)]) rest).
    rewrite IH; [now rewrite <- app_assoc | exact Hnd' | ].
    intros k' Hin. rewrite own_app.
    rewrite (Hfresh k') by now right.
    simpl. destruct (String.eqb k k') eqn:Hk; [ | reflexivity].
    apply String.eqb_eq in Hk. subst k'. contradiction.
Qed.

(** [{ ...fields }] is a copy. *)
Lemma copy_distinct :
  forall entries : Entries, NoDup (keys entries) -> spread [] entries = entries.
Proof. intros entries H. rewrite spread_distinct; auto. Qed.

End Objects.

(** The loop of [sanitise] over the entries of an object, one assignment
    per entry and none for "__proto__", builds what the embedding lists. *)
Lemma sanitised_object_by_assignment :
  forall entries,
    NoDup (keys entries) ->
    sanitised (JObject entries)
    = JObject (fold_left
                 (fun result kv =>
                    if is_proto (fst kv) then result
                    else assign (fst kv) (sanitised_entry (fst kv) (snd kv)) result)
                 entries []).
Proof.
  intros entries Hnd. rewrite sanitised_object. f_equal.
  set (g := fun kv : string * JsValue => (fst kv, sanitised_entry (fst kv) (snd kv))).
  set (p := fun kv : string * JsValue => negb (is_proto (fst kv))).
  rewrite <- (copy_distinct (filter p (map g entries))).
  - unfold spread. clear Hnd. generalize (@nil (string * JsValue)).
    induction entries as [| [k x] rest IH]; intro acc; [reflexivity | ].
    cbn [map filter fold_left]. unfold p at 1, g at 1. cbn [fst snd].
    destruct (is_proto k); cbn [negb fold_left fst snd]; apply IH.
  - assert (Hkeys : keys (filter p (map g entries))
                    = filter (fun k => negb (is_proto k)) (keys entries)).
    { clear Hnd. induction entries as [| [k x] rest IH]; [reflexivity | ].
      cbn [map filter keys]. unfold p at 1, g at 1. cbn [fst snd].
      destruct (negb (is_proto k)); cbn [map fst]; unfold keys in IH; now rewrite IH. }
    rewrite Hkeys. now apply NoDup_filter.
Qed.

(** The one request of an update, whatever becomes of it. *)
Lemma update_handler_requests :
  forall rt jira issueKey fields w,
    tidy w ->
    exists md,
      requests (snd (UpdateIssue.handler rt jira issueKey fields w))
      = requests w
          ++ [fetch_init (http_options rt
                            (UpdateIssue.request_options rt jira issueKey fields md))].
Proof.
  intros rt jira issueKey fields w Htidy.
  eexists. rewrite update_issue_run. cbv zeta.
  match goal with
  | |- context [jiraRequest rt ?o (write_stderr ?line _)] =>
      pose proof (jiraRequest_requests rt o _ (opening_keeps_tidy w line Htidy)) as Hreq;
      destruct (jiraRequest rt o (write_stderr line (draw_uuid w)))
        as [[[data | r] | err |] w1]
  end; cbn [snd requests write_stderr draw_uuid] in Hreq.
  - cbn [snd requests write_stderr]. rewrite Hreq. reflexivity.
  - cbn [snd requests write_stderr]. rewrite Hreq. reflexivity.
  - destruct (is_external_with_status err 400);
      cbn [snd requests write_stderr]; rewrite Hreq; reflexivity.
  - cbn [snd]. rewrite Hreq. reflexivity.
Qed.

(** C10.  An invocation of jira_update_issue makes exactly one call of
    [fetch]; its body is the JSON text of [{ fields: sent }], where
    [sent] has the keys of the caller's field map in the same order, holds
    under every key other than "description" what the caller gave, holds the
    ADF document of [textToAdf] under "description" when the caller gave a
    string there, and is the caller's map itself when the caller gave no
    string there. *)
Theorem update_issue_sends_fields_unchanged :
  forall (rt : Runtime) (jira : JiraConfig) (issueKey : string)
         (fields : Entries) (w : World),
    tidy w ->
    NoDup (keys fields) ->
    exists request sent,
      requests (snd (UpdateIssue.handler rt jira issueKey fields w))
      = requests w ++ [request]
      /\ init_body request
         = Some (JSON_stringify rt (JObject [("fields", JObject sent)]))
      /\ keys sent = keys fields
      /\ (forall k, k <> "description" -> own k sent = own k fields)
      /\ (forall text,
             own "description" fields = Some (JString text) ->
             own "description" sent = Some (textToAdf text))
      /\ ((forall text, own "description" fields <> Some (JString text)) ->
          sent = fields).
Proof.
  intros rt jira issueKey fields w Htidy Hnd.
  destruct (update_handler_requests rt jira issueKey fields w Htidy) as [md Hreq].
  eexists. exists (UpdateIssue.processedFields fields).
  split; [exact Hreq | ].
  split; [reflexivity | ].
  unfold UpdateIssue.processedFields. rewrite (copy_distinct fields Hnd).
  repeat split.
  - destruct (own "description" fields) as [[] |] eqn:Hd; try reflexivity.
    apply keys_assign_present. congruence.
  - intros k Hk.
    destruct (own "description" fields) as [[] |] eqn:Hd; try reflexivity.
    rewrite own_assign.
    destruct (String.eqb "description" k) eqn:E; [ | reflexivity].
    apply String.eqb_eq in E. congruence.
  - intros text Hd. rewrite Hd. rewrite own_assign. reflexivity.
  - intro Hno.
    destruct (own "description" fields) as [[] |] eqn:Hd; try reflexivity.
    exfalso. now apply (Hno s).
Qed.

Lemma update_issue_sends_fields_unchanged_witness :
  exists request sent,
    requests (snd (UpdateIssue.handler (Sample.runtime (Sample.answers 204 ""))
                     Sample.jira "PROJ-1" Sample.update_fields (Sample.start 0)))
    = [] ++ [request]
    /\ init_body request
       = Some (Sample.stringify (JObject [("fields", JObject sent)]))
    /\ keys sent = ["summary"; "description"; "priority"]
    /\ (forall k, k <> "description" -> own k sent = own k Sample.update_fields)
    /\ (forall text,
           own "description" Sample.update_fields = Some (JString text) ->
           own "description" sent = Some (textToAdf text))
    /\ ((forall text, own "description" Sample.update_fields <> Some (JString text)) ->
        sent = Sample.update_fields).
Proof.
  apply (update_issue_sends_fields_unchanged
           (Sample.runtime (Sample.answers 204 "")) Sample.jira "PROJ-1"
           Sample.update_fields (Sample.start 0)).
  - intros t [].
  - repeat constructor; simpl; intuition discriminate.
Defined.

(** ** The schema validator *)

Section SchemaReports.

Lemma z_string_reports : reports z_string.
Proof. intros p v issues H. unfold z_string in H. destruct v; congruence. Qed.

Lemma z_number_reports : reports z_number.
Proof. intros p v issues H. unfold z_number in H. destruct v; congruence. Qed.

Lemma z_boolean_reports : reports z_boolean.
Proof. intros p v issues H. unfold z_boolean in H. destruct v; congruence. Qed.

Lemma z_unknown_nullable_reports : reports z_unknown_nullable.
Proof. intros p v issues H. discriminate H. Qed.

Lemma z_nullable_reports :
  forall T (schema : ZodType T), reports schema -> reports (z_nullable schema).
Proof.
  intros T schema Hs p v issues H. unfold z_nullable in H.
  destruct v; try discriminate;
    destruct (schema p _) eqn:E; try discriminate;
    injection H as <-; eapply Hs; exact E.
Qed.

Lemma z_optional_reports :
  forall T (schema : ZodType T), reports schema -> reports (z_optional schema).
Proof.
  intros T schema Hs p v issues H. unfold z_optional in H.
  destruct v; try discriminate;
    destruct (schema p _) eqn:E; try discriminate;
    injection H as <-; eapply Hs; exact E.
Qed.

Lemma shape_of_reports : forall T (make : T), shape_reports (shape_of make).
Proof. intros T make p entries issues H. discriminate H. Qed.

Lemma with_field_reports :
  forall A B (shape : Shape (A -> B)) field (schema : ZodType A),
    shape_reports shape -> reports schema ->
    shape_reports (with_field shape field schema).
Proof.
  intros A B shape field schema Hshape Hschema p entries issues H.
  unfold with_field in H.
  destruct (shape p entries) as [f | is1] eqn:E1;
    destruct (schema _ _) as [a | is2] eqn:E2; try discriminate;
    injection H as <-.
  - eapply Hschema; exact E2.
  - eapply Hshape; exact E1.
  - intro Hnil. apply app_eq_nil in Hnil. destruct Hnil as [Hnil _].
    eapply Hshape; [exact E1 | exact Hnil].
Qed.

Lemma z_object_reports :
  forall T (shape : Shape T), shape_reports shape -> reports (z_object shape).
Proof.
  intros T shape Hshape p v issues H. unfold z_object in H.
  destruct v; try congruence. eapply Hshape; exact H.
Qed.

Lemma parse_items_reports :
  forall T (schema : ZodType T) p items i issues,
    reports schema ->
    parse_items schema p i items = Failure issues -> issues <> [].
Proof.
  intros T schema p items. induction items as [| x rest IH]; intros i issues Hs H.
  - discriminate H.
  - simpl in H.
    destruct (schema (p ++ [Index i]) x) as [d | is1] eqn:E1;
      destruct (parse_items schema p (S i) rest) as [ds | is2] eqn:E2;
      try discriminate; injection H as <-.
    + eapply IH; [exact Hs | exact E2].
    + eapply Hs; exact E1.
    + intro Hnil. apply app_eq_nil in Hnil. destruct Hnil as [Hnil _].
      eapply Hs; [exact E1 | exact Hnil].
Qed.

Lemma z_array_reports :
  forall T (schema : ZodType T), reports schema -> reports (z_array schema).
Proof.
  intros T schema Hs p v issues H. unfold z_array in H.
  destruct v; try congruence. eapply parse_items_reports; [exact Hs | exact H].
Qed.

(** The issue schema of the sources rejects with at least one issue. *)
Lemma JiraIssueResponseSchema_reports : reports JiraIssueResponseSchema.
Proof.
  unfold JiraIssueResponseSchema, IssueFieldsSchema, AssigneeSchema, NamedSchema.
  repeat first
    [ apply z_object_reports
    | apply with_field_reports
    | apply shape_of_reports
    | apply z_nullable_reports
    | apply z_optional_reports
    | apply z_string_reports
    | apply z_unknown_nullable_reports ].
Qed.

Lemma JiraSearchResponseSchema_reports : reports JiraSearchResponseSchema.
Proof.
  unfold JiraSearchResponseSchema.
  repeat first
    [ apply JiraIssueResponseSchema_reports
    | apply z_object_reports
    | apply with_field_reports
    | apply shape_of_reports
    | apply z_optional_reports
    | apply z_array_reports
    | apply z_number_reports
    | apply z_boolean_reports ].
Qed.

End SchemaReports.



(* ================================================================== *)
(** * Further properties *)
(* ================================================================== *)

(** ** The logger *)

Section Logging.

Lemma is_marker_spec : forall v, is_marker v = true <-> v = REDACTED.
Proof.
  intro v. unfold is_marker, REDACTED. destruct v; split; intro H; try discriminate.
  - apply String.eqb_eq in H. now subst.
  - injection H as ->. reflexivity.
Qed.

Lemma settled_sanitised : forall v, settled (sanitised v) = true.
Proof.
  induction v as [ | | b | n | s | items IH | entries IH ] using JsValue_deep_ind;
    try reflexivity.
  - simpl. rewrite forallb_forall. intros y Hy.
    apply in_map_iff in Hy. destruct Hy as [x [<- Hx]].
    rewrite Forall_forall in IH. now apply IH.
  - rewrite sanitised_object. simpl. rewrite forallb_forall. intros kv Hkv.
    apply filter_In in Hkv. destruct Hkv as [Hkv Hp].
    apply in_map_iff in Hkv. destruct Hkv as [[k x] [<- Hx]].
    rewrite Forall_forall in IH. cbn [fst snd] in *. rewrite Hp. cbn [andb].
    unfold sanitised_entry.
    destruct (is_sensitive k) eqn:Hk; [reflexivity | ].
    exact (IH (k, x) Hx).
Qed.

Lemma settled_fixed : forall v, settled v = true -> sanitised v = v.
Proof.
  induction v as [ | | b | n | s | items IH | entries IH ] using JsValue_deep_ind;
    intro H; try reflexivity.
  - simpl in H |- *. f_equal. rewrite forallb_forall in H. rewrite Forall_forall in IH.
    rewrite <- (map_id items) at 2. apply map_ext_in. intros x Hx. auto.
  - simpl in H. rewrite sanitised_object. f_equal.
    rewrite forallb_forall in H. rewrite Forall_forall in IH.
    induction entries as [| [k x] rest IHrest]; [reflexivity | ].
    cbn [map filter fst snd].
    pose proof (H (k, x) (or_introl eq_refl)) as Hkx. cbn [fst snd] in Hkx.
    apply andb_prop in Hkx. destruct Hkx as [Hp Hs]. rewrite Hp.
    f_equal.
    + f_equal. unfold sanitised_entry. destruct (is_sensitive k).
      * apply is_marker_spec in Hs. now subst x.
      * apply (IH (k, x)); [now left | exact Hs].
    + apply IHrest; intros kv Hkv; [apply IH | apply H]; now right.
Qed.

(** Sanitising takes no more frames the second time. *)
Lemma frames_needed_sanitised :
  forall v, frames_needed (sanitised v) <= frames_needed v.
Proof.
  induction v as [ | | b | n | s | items IH | entries IH ] using JsValue_deep_ind;
    try (cbn; lia).
  - cbn [sanitised frames_needed]. apply le_n_S.
    induction IH as [| x rest Hx Hrest IHrest]; [apply Nat.le_0_l | ].
    cbn [map fold_right]. lia.
  - rewrite sanitised_object. cbn [frames_needed]. apply le_n_S.
    induction IH as [| [k x] rest Hx Hrest IHrest]; [apply Nat.le_0_l | ].
    cbn [map filter fold_right fst snd] in *.
    destruct (is_proto k); cbn [negb fold_right fst snd].
    + lia.
    + unfold sanitised_entry at 1. destruct (is_sensitive k); lia.
Qed.

Lemma assign_Forall :
  forall (P : string * JsValue -> Prop) k v acc,
    P (k, v) -> Forall P acc -> Forall P (assign k v acc).
Proof.
  intros P k v acc Hkv H. induction H as [| [k1 x1] rest H1 Hrest IH].
  - repeat constructor. exact Hkv.
  - cbn [assign]. destruct (String.eqb k1 k) eqn:E.
    + apply String.eqb_eq in E. subst k1. now constructor.
    + now constructor.
Qed.

Lemma spread_Forall :
  forall (P : string * JsValue -> Prop) e acc,
    Forall P acc -> Forall P e -> Forall P (spread acc e).
Proof.
  intros P e. unfold spread.
  induction e as [| [k x] e IH]; intros acc Hacc He; [exact Hacc | ].
  inversion He as [| ? ? Hkx He']; subst. cbn [fold_left fst snd].
  apply IH; [now apply assign_Forall | exact He'].
Qed.

(** An object of scalars takes two frames. *)
Lemma frames_needed_scalars :
  forall entries,
    Forall (fun kv => is_scalar (snd kv) = true) entries ->
    frames_needed (JObject entries) <= 2.
Proof.
  intros entries H. cbn [frames_needed]. apply le_n_S.
  induction H as [| [k x] rest Hx Hrest IH]; [apply Nat.le_0_l | ].
  cbn [fold_right fst snd] in *.
  destruct (is_sensitive k); [lia | ].
  destruct x; try discriminate Hx; cbn [frames_needed]; lia.
Qed.

(** Spreading an object with distinct keys over an object whose first
    entry it may replace and whose other keys it does not have. *)
Lemma spread_over_head :
  forall (e acc : Entries) k t,
    NoDup (keys e) ->
    (forall k', In k' (keys e) -> own k' acc = None) ->
    own k acc = None ->
    spread ((k, t) :: acc) e
    = (k, match own k e with Some x => x | None => t end)
        :: acc ++ filter (fun kv => negb (String.eqb (fst kv) k)) e.
Proof.
  induction e as [| [k1 v1] e IH]; intros acc k t Hnd Hfresh Hk.
  - unfold spread. simpl. now rewrite app_nil_r.
  - inversion Hnd as [| ? ? Hnotin Hnd']; subst.
    unfold spread. cbn [fold_left fst snd].
    change (fold_left _ e ?a) with (spread a e).
    cbn [assign own fst filter].
    destruct (String.eqb k k1) eqn:Hkk1.
    + apply String.eqb_eq in Hkk1. subst k1.
      rewrite String.eqb_refl. cbn [negb].
      rewrite (IH acc k v1 Hnd'); [ | intros k' Hk'; apply Hfresh; now right | exact Hk].
      assert (Hnone : own k e = None).
      { clear - Hnotin. induction e as [| [k2 v2] e IH]; [reflexivity | ].
        simpl in *. destruct (String.eqb k2 k) eqn:E.
        - apply String.eqb_eq in E. subst k2. exfalso. apply Hnotin. now left.
        - apply IH. intro Hin. apply Hnotin. now right. }
      rewrite Hnone. reflexivity.
    + rewrite (String.eqb_sym k1 k), Hkk1. cbn [negb].
      rewrite (assign_fresh k1 v1 acc) by (apply Hfresh; now left).
      rewrite (IH (acc ++ [(k1, v1)]) k t Hnd').
      * rewrite <- app_assoc. reflexivity.
      * intros k' Hk'. rewrite own_app. rewrite (Hfresh k') by now right.
        simpl. destruct (String.eqb k1 k') eqn:E; [ | reflexivity].
        apply String.eqb_eq in E. subst k'. contradiction.
      * rewrite own_app, Hk. simpl. rewrite (String.eqb_sym k1 k), Hkk1. reflexivity.
Qed.

End Logging.

(** X1.  [sanitise] returns a value unchanged exactly when the stack has
    the frames that the value needs and the value is settled: every entry
    under a sensitive key, at any depth, already holds "[REDACTED]", and no
    object has an entry under "__proto__".  Whatever [sanitise] returns is
    settled, and sanitising it again returns it unchanged. *)
Theorem sanitise_fixed_points :
  forall (rt : Runtime) (v : JsValue),
    (sanitise rt v = Return v
     <-> settled v = true /\ frames_needed v <= call_stack rt)
    /\ (forall out,
           sanitise rt v = Return out ->
           settled out = true /\ sanitise rt out = Return out).
Proof.
  intros rt v. split; [split | ].
  - intro H. rewrite sanitise_spec in H.
    destruct (frames_needed v <=? call_stack rt) eqn:E; [ | discriminate].
    injection H as H. split; [ | now apply Nat.leb_le].
    rewrite <- H. apply settled_sanitised.
  - intros [Hs Hf]. rewrite sanitise_spec. apply Nat.leb_le in Hf. rewrite Hf.
    now rewrite settled_fixed.
  - intros out H. rewrite sanitise_spec in H.
    destruct (frames_needed v <=? call_stack rt) eqn:E; [ | discriminate].
    injection H as <-. split; [apply settled_sanitised | ].
    rewrite sanitise_spec.
    assert (Hroom : (frames_needed (sanitised v) <=? call_stack rt) = true).
    { apply Nat.leb_le. apply Nat.leb_le in E.
      pose proof (frames_needed_sanitised v). lia. }
    rewrite Hroom. now rewrite settled_fixed by apply settled_sanitised.
Qed.

Lemma sanitise_fixed_points_witness :
  sanitise (Sample.runtime Sample.silent)
    (JObject [ ("apiToken", JString "[REDACTED]"); ("attempt", JNumber 2) ])
  = Return (JObject [ ("apiToken", JString "[REDACTED]"); ("attempt", JNumber 2) ])
  /\ settled Sample.nested_entry = false
  /\ settled Sample.proto_entry = false.
Proof.
  split; [ | split; reflexivity].
  apply (proj2 (proj1 (sanitise_fixed_points (Sample.runtime Sample.silent)
                         (JObject [ ("apiToken", JString "[REDACTED]");
                                    ("attempt", JNumber 2) ])))).
  split; [reflexivity | vm_compute; lia].
Defined.

(** X2.  [log] either writes exactly one line to standard error and
    returns, touching nothing else, or throws a RangeError and writes
    nothing.  It writes when the stack has the frames that the entry under
    its timestamp needs, and the line is then what [sanitise] returns for
    it; it throws when the stack has not.  An entry of scalars, as every
    entry of the tool handlers is, is always written. *)
Theorem log_writes_one_line_or_throws :
  forall (rt : Runtime) (e : Entries) (w : World),
    let stamped :=
      JObject (spread [("timestamp", JString (toISOString rt (now w)))] e) in
    (frames_needed stamped <= call_stack rt ->
     exists line w',
       sanitise rt stamped = Return line
       /\ log rt e w = (Return tt, w')
       /\ stderr w' = stderr w ++ [line]
       /\ now w' = now w /\ requests w' = requests w /\ aborted w' = aborted w
       /\ uuids_drawn w' = uuids_drawn w /\ timers w' = timers w
       /\ handles w' = handles w)
    /\ (call_stack rt < frames_needed stamped ->
        log rt e w
        = (Throw (PlatformError "RangeError" "Maximum call stack size exceeded"), w))
    /\ ((forall k x, In (k, x) e -> is_scalar x = true) ->
        frames_needed stamped <= call_stack rt).
Proof.
  intros rt e w stamped. split; [ | split].
  - intro Hroom. exists (sanitised stamped), (write_stderr (sanitised stamped) w).
    unfold log. fold stamped. rewrite sanitise_spec.
    apply Nat.leb_le in Hroom. rewrite Hroom. repeat split.
  - intro Hdeep. unfold log. fold stamped. rewrite sanitise_spec.
    apply Nat.leb_gt in Hdeep. rewrite Hdeep. reflexivity.
  - intro Hscalars.
    assert (Htwo : frames_needed stamped <= 2).
    { apply frames_needed_scalars. apply spread_Forall.
      - repeat constructor.
      - apply Forall_forall. intros [k x] Hin. exact (Hscalars k x Hin). }
    unfold call_stack, MIN_CALL_STACK. lia.
Qed.

Lemma log_writes_one_line_or_throws_witness :
  (exists line w',
      sanitise (Sample.runtime Sample.silent)
        (JObject [ ("timestamp", JString "1970-01-01T00:00:00.000Z");
                   ("level", JString "info");
                   ("config", JObject [("apiToken", JString "s3cr3t")]) ])
      = Return line
      /\ log (Sample.runtime Sample.silent)
           [ ("level", JString "info");
             ("config", JObject [("apiToken", JString "s3cr3t")]) ]
           (Sample.start 0)
         = (Return tt, w')
      /\ stderr w' = [line])
  /\ log (Sample.runtime Sample.silent)
       [ ("level", JString "info"); ("payload", Sample.deep_entry) ]
       (Sample.start 0)
     = (Throw (PlatformError "RangeError" "Maximum call stack size exceeded"),
        Sample.start 0).
Proof.
  split.
  - destruct (proj1 (log_writes_one_line_or_throws (Sample.runtime Sample.silent)
                       [ ("level", JString "info");
                         ("config", JObject [("apiToken", JString "s3cr3t")]) ]
                       (Sample.start 0)))
      as (line & w' & Hline & Hlog & Herr & _).
    + vm_compute. lia.
    + exists line, w'. split; [exact Hline | split; [exact Hlog | exact Herr]].
  - apply (proj1 (proj2 (log_writes_one_line_or_throws (Sample.runtime Sample.silent)
                           [ ("level", JString "info"); ("payload", Sample.deep_entry) ]
                           (Sample.start 0)))).
    vm_compute. lia.
Defined.

(** X3.  For an entry with distinct keys, none of them an array index,
    that the stack has the frames for, the line that [log] writes begins
    with the timestamp: the caller's own [timestamp], sanitised, when the
    entry has one, the ISO form of the clock reading otherwise; the other
    keys of the entry follow in their order, but for "__proto__", which
    the line never has. *)
Theorem log_stamps_the_line :
  forall (rt : Runtime) (e : Entries) (w : World),
    NoDup (keys e) ->
    forallb (fun k => negb (is_array_index k)) (keys e) = true ->
    frames_needed (JObject (spread [("timestamp", JString (toISOString rt (now w)))] e))
    <= call_stack rt ->
    exists stamp rest,
      log rt e w = (Return tt, write_stderr (JObject (("timestamp", stamp) :: rest)) w)
      /\ match own "timestamp" e with
         | Some given => sanitise rt given = Return stamp
         | None => stamp = JString (toISOString rt (now w))
         end
      /\ keys rest
         = filter (fun k => negb (String.eqb k "timestamp") && negb (String.eqb k "__proto__"))
             (keys e).
Proof.
  intros rt e w Hnd _ Hroom. unfold log. rewrite sanitise_spec.
  pose proof Hroom as Hleb. apply Nat.leb_le in Hleb. rewrite Hleb. clear Hleb.
  rewrite (spread_over_head e [] "timestamp" _ Hnd) in Hroom |- *;
    [ | reflexivity | reflexivity | reflexivity | reflexivity].
  rewrite sanitised_object. cbn [map filter app fst snd].
  change (is_proto "timestamp") with false. cbn [negb].
  change (sanitised_entry "timestamp" ?x) with (sanitised x).
  eexists. eexists. split; [reflexivity | split].
  - destruct (own "timestamp" e) as [given |]; [ | reflexivity].
    rewrite sanitise_spec.
    assert (Hgiven : (frames_needed given <=? call_stack rt) = true).
    { apply Nat.leb_le. cbn [frames_needed fold_right fst snd app] in Hroom.
      change (is_sensitive "timestamp") with false in Hroom. cbv iota in Hroom. lia. }
    now rewrite Hgiven.
  - unfold keys. clear.
    induction e as [| [k x] e IH]; [reflexivity | ].
    cbn [filter map fst]. destruct (negb (String.eqb k "timestamp")); cbn [map filter fst andb].
    + unfold is_proto at 1. destruct (negb (String.eqb k "__proto__")); cbn [map fst].
      * now rewrite IH.
      * exact IH.
    + exact IH.
Qed.

Lemma log_stamps_the_line_witness :
  exists stamp rest,
    log (Sample.runtime Sample.silent)
      [ ("level", JString "info"); ("timestamp", JString "yesterday") ]
      (Sample.start 0)
    = (Return tt, write_stderr (JObject (("timestamp", stamp) :: rest)) (Sample.start 0))
    /\ sanitise (Sample.runtime Sample.silent) (JString "yesterday") = Return stamp
    /\ keys rest = ["level"].
Proof.
  apply (log_stamps_the_line (Sample.runtime Sample.silent)
           [ ("level", JString "info"); ("timestamp", JString "yesterday") ]
           (Sample.start 0)).
  - repeat constructor; simpl; intuition discriminate.
  - reflexivity.
  - vm_compute. lia.
Defined.

(** ** The network client, further *)

Section Texts.

Lemma all_units_app :
  forall P a b, all_units P (a +++ b) = all_units P a && all_units P b.
Proof.
  intros P a b. induction a as [| c a IH]; [reflexivity | ].
  cbn [append all_units]. rewrite IH. now rewrite andb_assoc.
Qed.

Lemma all_units_weaken :
  forall (P Q : nat -> bool) s,
    (forall n, P n = true -> Q n = true) ->
    all_units P s = true -> all_units Q s = true.
Proof.
  intros P Q s HPQ. induction s as [| c s IH]; intro H; [reflexivity | ].
  cbn [all_units] in *. apply andb_prop in H. destruct H as [Hc Hs].
  rewrite (HPQ _ Hc), (IH Hs). reflexivity.
Qed.

(** The decimal form of an integer: digits after an optional sign. *)
Lemma string_of_uint_digits :
  forall d, all_units is_digit (NilEmpty.string_of_uint d) = true.
Proof. induction d; cbn [NilEmpty.string_of_uint all_units]; auto. Qed.

Lemma decimal_units : forall z, all_units number_unit (decimal z) = true.
Proof.
  intro z. unfold decimal.
  assert (Hd : forall d, all_units number_unit (NilEmpty.string_of_uint d) = true).
  { intro d. apply (all_units_weaken is_digit); [ | apply string_of_uint_digits].
    intros n Hn. unfold number_unit. now rewrite Hn. }
  destruct (Z.to_int z) as [d | d]; cbn [NilEmpty.string_of_int all_units].
  - apply Hd.
  - rewrite Hd. reflexivity.
Qed.

Lemma zeros_units : forall n, all_units number_unit (zeros n) = true.
Proof. induction n as [| n IH]; [reflexivity | exact IH]. Qed.

(** A printed number is made of digits, a sign, a point and an exponent
    mark. *)
Lemma Number_toString_units :
  forall z, all_units number_unit (Number_toString z) = true.
Proof.
  intro z. unfold Number_toString.
  destruct (Z.abs z <=? MAX_EXACT)%Z; [apply decimal_units | ].
  destruct (shortest_digits _ _ _ _) as [s n].
  rewrite all_units_app.
  assert (Hsign : all_units number_unit (if (z <? 0)%Z then "-" else "") = true)
    by (destruct (z <? 0)%Z; reflexivity).
  rewrite Hsign. cbn [andb].
  destruct (n <=? 21)%Z.
  - now rewrite all_units_app, decimal_units, zeros_units.
  - pose proof (decimal_units s) as Hs.
    destruct (decimal s) as [| first [| c rest]]; [reflexivity | | ].
    + cbn [all_units] in Hs |- *. apply andb_prop in Hs. destruct Hs as [Hfirst _].
      rewrite Hfirst. cbn [andb].
      change (String "e" (String "+" (decimal (n - 1))))
        with ("e+" +++ decimal (n - 1)).
      now rewrite all_units_app, decimal_units.
    + cbn [all_units] in Hs. apply andb_prop in Hs. destruct Hs as [Hfirst Hrest].
      cbn [all_units]. rewrite Hfirst. cbn [andb].
      change (all_units number_unit ("." +++ String c rest +++ "e+" +++ decimal (n - 1)))
        with (number_unit (nat_of_ascii ".")
              && all_units number_unit (String c rest +++ "e+" +++ decimal (n - 1))).
      rewrite !all_units_app, decimal_units.
      cbn [all_units] in Hrest |- *. rewrite Hrest. reflexivity.
Qed.

Lemma digits_open_no_query :
  forall n, number_unit n = true -> no_query_unit n = true.
Proof.
  intros n H. unfold no_query_unit.
  apply andb_true_intro. split; apply negb_true_iff, Nat.eqb_neq; intro Hn; subst n;
    discriminate H.
Qed.

End Texts.

Section NetworkFurther.
Variable rt : Runtime.

(** In a tidy world the timers that are armed after [httpRequest] were
    armed before it: its own timer is gone. *)
Lemma httpRequest_timers_kept :
  forall options w t,
    tidy w ->
    In t (timers (snd (httpRequest rt options w))) -> In t (timers w).
Proof.
  intros options w t Htidy.
  set (timeout := or_default (timeoutMs options) DEFAULT_TIMEOUT_MS).
  assert (Hkept : forall (keep : Timer -> bool) ts,
             ts = filter (fun t => negb (timer_id t =? S (handles w)))
                    (filter keep (timers w ++ [own_timer timeout w])) ->
             In t ts -> In t (timers w)).
  { intros keep ts -> Ht.
    apply filter_In in Ht. destruct Ht as [Ht Hid].
    apply filter_In in Ht. destruct Ht as [Ht _].
    apply in_app_or in Ht. destruct Ht as [Ht | [<- | []]]; [exact Ht | ].
    cbn [timer_id own_timer] in Hid. rewrite Nat.eqb_refl in Hid. discriminate. }
  unfold httpRequest, bind, new_AbortController, setTimeout_abort, try_finally, try_catch,
    fetch, clearTimeout, ret, throw.
  fold timeout.
  cbn [timers handles now take_handle set_timers record_request].
  change {| timer_id := S (handles w); fires_at := now w + timer_delay timeout;
            aborts := handles w |}
    with (own_timer timeout w).
  rewrite (own_deadline w timeout Htidy).
  replace (now w + timer_delay timeout - now w)%Z with (timer_delay timeout) by lia.
  destruct (network rt (fetch_init options)) as [after status body | after err |];
    cbn [settles_within]; try destruct (after <=? timer_delay timeout)%Z;
    cbn [snd timers set_timers elapse record_request record_abort];
    eapply Hkept; reflexivity.
Qed.

End NetworkFurther.

(** X4.  In a world without stray timers [httpRequest] settles, with a
    response or with an error, whatever becomes of the request, and no
    later than the delay of its timer after the call: [timeoutMs] (30 000 ms
    by default) in the range of timers, 1 ms outside it.  It has called
    [fetch] exactly once, written nothing to standard error, and left no
    timer behind.  A request that [fetch] refuses, for a URL that does not
    parse or for a body under GET or HEAD, fails at once, with the text of
    the refusal in the message. *)
Theorem httpRequest_always_settles :
  forall (rt : Runtime) (options : HttpRequestOptions) (w : World),
    tidy w ->
    let timeout :=
      match timeoutMs options with Some ms => ms | None => 30000%Z end in
    exists outcome w',
      httpRequest rt options w = (outcome, w')
      /\ outcome <> Never
      /\ (now w' <= now w + timer_delay timeout)%Z
      /\ ((1 <= timeout <= 2147483647)%Z -> (now w' <= now w + timeout)%Z)
      /\ requests w' = requests w ++ [fetch_init options]
      /\ stderr w' = stderr w
      /\ (forall t, In t (timers w') -> In t (timers w))
      /\ tidy w'
      /\ (forall error,
             refusal rt (fetch_init options) = Some error ->
             outcome = Throw (ExternalServiceError
                                ("Request to " +++ safeUrl rt (url options) +++ " failed: "
                                   +++ error_message error)
                                (metadata options) None)
             /\ now w' = now w /\ aborted w' = aborted w).
Proof.
  intros rt options w Htidy timeout.
  pose proof (httpRequest_timers_kept rt options w) as Htimers.
  pose proof (httpRequest_refused rt options w) as Hrefused.
  destruct (httpRequest_run rt options w Htidy) as (w' & Hrun & Hreq & Herr & _ & Htidy').
  change (or_default (timeoutMs options) DEFAULT_TIMEOUT_MS) with timeout in Hrun.
  assert (Hrange : (1 <= timeout <= 2147483647)%Z -> timer_delay timeout = timeout).
  { intros [Hlo Hhi]. unfold timer_delay, TIMEOUT_MAX.
    apply Z.leb_le in Hlo, Hhi. now rewrite Hlo, Hhi. }
  assert (Hdone : forall outcome,
             httpRequest rt options w = (outcome, w') ->
             outcome <> Never ->
             (now w' <= now w + timer_delay timeout)%Z ->
             exists outcome0 w0,
               httpRequest rt options w = (outcome0, w0)
               /\ outcome0 <> Never
               /\ (now w0 <= now w + timer_delay timeout)%Z
               /\ ((1 <= timeout <= 2147483647)%Z -> (now w0 <= now w + timeout)%Z)
               /\ requests w0 = requests w ++ [fetch_init options]
               /\ stderr w0 = stderr w
               /\ (forall t, In t (timers w0) -> In t (timers w))
               /\ tidy w0
               /\ (forall error,
                      refusal rt (fetch_init options) = Some error ->
                      outcome0 = Throw (ExternalServiceError
                                          ("Request to " +++ safeUrl rt (url options)
                                             +++ " failed: " +++ error_message error)
                                          (metadata options) None)
                      /\ now w0 = now w /\ aborted w0 = aborted w)).
  { intros outcome Hout Hnever Hnow. exists outcome, w'.
    split; [exact Hout | ]. split; [exact Hnever | ]. split; [exact Hnow | ].
    split; [intro Hin; rewrite <- (Hrange Hin); exact Hnow | ].
    split; [exact Hreq | ]. split; [exact Herr | ].
    split; [intros t Ht; apply (Htimers t Htidy); rewrite Hout; exact Ht | ].
    split; [exact Htidy' | ].
    intros error He. destruct (Hrefused error Htidy He) as (w2 & Hrun2 & Hnow2 & Hab2).
    rewrite Hout in Hrun2. injection Hrun2 as -> <-. auto. }
  destruct (network rt (fetch_init options)) as [after status body | after err |];
    try destruct (after <=? timer_delay timeout)%Z eqn:Hafter;
    destruct Hrun as (Hrun & Hnow & _);
    (eapply Hdone; [exact Hrun | discriminate | try (apply Z.leb_le in Hafter); lia]).
Qed.

Lemma httpRequest_always_settles_witness :
  exists outcome w',
    httpRequest (Sample.runtime Sample.silent) (Sample.get Sample.leaky_url) (Sample.start 5)
    = (outcome, w')
    /\ outcome <> Never
    /\ (now w' <= 5 + 30000)%Z
    /\ requests w' = [] ++ [fetch_init (Sample.get Sample.leaky_url)]
    /\ stderr w' = []
    /\ (forall t, In t (timers w') -> In t [])
    /\ tidy w'.
Proof.
  destruct (httpRequest_always_settles (Sample.runtime Sample.silent)
              (Sample.get Sample.leaky_url) (Sample.start 5))
    as (outcome & w' & Hrun & Hnever & Hnow & _ & Hreq & Herr & Htimers & Htidy & _).
  - intros t [].
  - exists outcome, w'. auto 10.
Defined.

(** X5.  [httpRequest] does not interpret the status: a response that
    arrives before the timer of the call fires (within [timeoutMs] in the
    range of timers, 1 .. 2^31 - 1, within 1 ms outside it) is returned with
    its status and its body as they are, whatever the status; the clock has
    advanced by the time the response took, and nothing was aborted. *)
Theorem httpRequest_returns_any_status :
  forall (rt : Runtime) (options : HttpRequestOptions) (w : World)
         (after status : Z) (body : string),
    tidy w ->
    network rt (fetch_init options) = Responds after status body ->
    (after <= timer_delay
                (match timeoutMs options with Some ms => ms | None => 30000 end))%Z ->
    exists w',
      httpRequest rt options w
      = (Return {| HttpClient.status := status; response_body := body |}, w')
      /\ now w' = (now w + after)%Z
      /\ aborted w' = aborted w
      /\ requests w' = requests w ++ [fetch_init options].
Proof.
  intros rt options w after status body Htidy Hnet Hafter.
  destruct (httpRequest_run rt options w Htidy) as (w' & Hrun & Hreq & _).
  rewrite Hnet in Hrun.
  change (or_default (timeoutMs options) DEFAULT_TIMEOUT_MS)
    with (match timeoutMs options with Some ms => ms | None => 30000%Z end) in Hrun.
  apply Z.leb_le in Hafter. rewrite Hafter in Hrun.
  exists w'. destruct Hrun as (Hrun & Hnow & Hab). auto.
Qed.

Lemma httpRequest_returns_any_status_witness :
  exists w',
    httpRequest (Sample.runtime (Sample.answers 503 "busy"))
      (Sample.get Sample.leaky_url) (Sample.start 0)
    = (Return {| HttpClient.status := 503; response_body := "busy" |}, w')
    /\ now w' = (0 + 80)%Z
    /\ aborted w' = []
    /\ requests w' = [] ++ [fetch_init (Sample.get Sample.leaky_url)].
Proof.
  apply (httpRequest_returns_any_status (Sample.runtime (Sample.answers 503 "busy"))
           (Sample.get Sample.leaky_url) (Sample.start 0) 80 503 "busy").
  - intros t [].
  - reflexivity.
  - discriminate.
Defined.

(** X6.  When the platform's parser gives an origin and a path free of [?]
    and [#] for the URL of a call (as it does: it escapes them in the path),
    the message of the error that [httpRequest] throws on a timeout (the
    call of [fetch] not being settled when the timer fires) holds no [?] and
    no [#] at all: nothing of a query string or a fragment can be read from
    it. *)
Theorem timeout_message_has_no_query :
  forall (rt : Runtime) (options : HttpRequestOptions) (w : World),
    tidy w ->
    settles_within
      (timer_delay (match timeoutMs options with Some ms => ms | None => 30000%Z end))
      (network rt (fetch_init options)) = false ->
    (forall parsed,
        URL_parse rt (url options) = Some parsed ->
        all_units no_query_unit (origin parsed +++ pathname parsed) = true) ->
    exists message,
      fst (httpRequest rt options w)
      = Throw (ExternalServiceError message (metadata options) None)
      /\ all_units no_query_unit message = true.
Proof.
  intros rt options w Htidy Hslow Hparsed.
  destruct (httpRequest_run rt options w Htidy) as (w' & Hrun & _).
  set (timeout := or_default (timeoutMs options) DEFAULT_TIMEOUT_MS) in *.
  change (match timeoutMs options with Some ms => ms | None => 30000%Z end)
    with timeout in Hslow.
  assert (Hout : httpRequest rt options w
                 = (Throw (wrap_failure rt (url options) timeout (metadata options)
                             AbortError), w')).
  { destruct (network rt (fetch_init options)) as [after status body | after err |];
      cbn [settles_within] in Hslow; try rewrite Hslow in Hrun; apply Hrun. }
  rewrite Hout. cbn [fst]. unfold wrap_failure. cbn [is_AbortError AbortError].
  change (String.eqb "AbortError" "AbortError") with true. cbv iota.
  eexists. split; [reflexivity | ].
  rewrite !all_units_app.
  assert (Hsafe : all_units no_query_unit (safeUrl rt (url options)) = true).
  { unfold safeUrl. destruct (URL_parse rt (url options)) as [parsed |] eqn:Hp.
    - now apply Hparsed.
    - reflexivity. }
  rewrite Hsafe.
  rewrite (all_units_weaken _ no_query_unit _ digits_open_no_query
             (Number_toString_units timeout)).
  reflexivity.
Qed.

Lemma timeout_message_has_no_query_witness :
  exists message,
    fst (httpRequest (Sample.runtime Sample.silent) (Sample.get Sample.leaky_url)
           (Sample.start 0))
    = Throw (ExternalServiceError message Sample.md0 None)
    /\ all_units no_query_unit message = true.
Proof.
  apply (timeout_message_has_no_query (Sample.runtime Sample.silent)
           (Sample.get Sample.leaky_url) (Sample.start 0)).
  - intros t [].
  - reflexivity.
  - intros parsed H. vm_compute in H. injection H as <-. reflexivity.
Defined.

(** ** The Jira client, further *)

(** X7.  Whatever becomes of it, a call of [jiraRequest] in a world without
    stray timers calls [fetch] exactly once: for the base URL followed by
    the path, with the given method or GET, with the given body, under a
    Basic authorization made of the configured e-mail address and token,
    accepting JSON, and declaring JSON as content type exactly when there
    is a body.  What [fetch] refuses is not sent: [jiraRequest] then throws
    the [ExternalServiceError] of the refusal, and a call with a body and
    no method, which goes out as a GET, is refused. *)
Theorem jiraRequest_calls_fetch_once :
  forall (rt : Runtime) (options : JiraRequestOptions) (w : World),
    tidy w ->
    exists request,
      requests (snd (jiraRequest rt options w)) = requests w ++ [request]
      /\ init_url request = baseUrl (config options) +++ path options
      /\ init_method request
         = match req_method options with Some m => m | None => "GET" end
      /\ init_body request = req_body options
      /\ init_headers request
         = Some ([ ("Authorization",
                     "Basic " +++ Buffer_base64 rt (userEmail (config options) +++ ":"
                                                      +++ apiToken (config options)));
                   ("Accept", "application/json") ]
                   ++ match req_body options with
                      | Some _ => [ ("Content-Type", "application/json") ]
                      | None => []
                      end)
      /\ (forall error,
             refusal rt request = Some error ->
             fst (jiraRequest rt options w)
             = Throw (ExternalServiceError
                        ("Request to "
                           +++ safeUrl rt (baseUrl (config options) +++ path options)
                           +++ " failed: " +++ error_message error)
                        (req_metadata options) None))
      /\ (forall parsed payload,
             URL_parse rt (baseUrl (config options) +++ path options) = Some parsed ->
             req_method options = None ->
             req_body options = Some payload ->
             refusal rt request
             = Some (PlatformError "TypeError"
                       "Request with GET/HEAD method cannot have body.")).
Proof.
  intros rt options w Htidy.
  exists (fetch_init (http_options rt options)).
  split; [now apply jiraRequest_requests | ].
  repeat split.
  - intros error Hrefused.
    destruct (httpRequest_refused rt (http_options rt options) w error Htidy Hrefused)
      as (w' & Hrun & _).
    unfold jiraRequest, bind. rewrite Hrun. reflexivity.
  - intros parsed payload Hparse Hmethod Hbody.
    unfold refusal. cbn [fetch_init http_options init_url init_body init_method
                           url body method or_default].
    rewrite Hparse, Hbody, Hmethod. reflexivity.
Qed.

Lemma jiraRequest_calls_fetch_once_witness :
  exists request,
    requests (snd (jiraRequest (Sample.runtime Sample.silent) (Sample.search_request None)
                     (Sample.start 0)))
    = [] ++ [request]
    /\ init_url request = "https://jira.example.test" +++ "/rest/api/3/search/jql"
    /\ init_method request = "POST"
    /\ init_body request = req_body (Sample.search_request None)
    /\ init_headers request
       = Some ([ ("Authorization",
                   "Basic " +++ Sample.base64 ("relay@example.test" +++ ":" +++ "s3cr3t"));
                 ("Accept", "application/json") ]
                 ++ [ ("Content-Type", "application/json") ]).
Proof.
  destruct (jiraRequest_calls_fetch_once (Sample.runtime Sample.silent)
              (Sample.search_request None) (Sample.start 0))
    as (request & Hreq & Hurl & Hmethod & Hbody & Hheaders & _).
  - intros t [].
  - exists request. auto.
Defined.

(** X8.  What [jiraRequest] writes to standard error for a response that
    arrives in time: one error line for status 401, one error line for
    status 403, one warning line for status 404, nothing for any other
    status.  The line is stamped with the time of the response and holds,
    besides level and message, the metadata of the call and nothing else:
    nothing of the configuration, the request or the response. *)
Theorem jiraRequest_logs_known_failures :
  forall (rt : Runtime) (options : JiraRequestOptions) (w : World)
         (after status : Z) (body : string),
    tidy w ->
    network rt (fetch_init (http_options rt options)) = Responds after status body ->
    (after <= DEFAULT_TIMEOUT_MS)%Z ->
    let md := req_metadata options in
    let line (level message : string) :=
      JObject [ ("timestamp", JString (toISOString rt (now w + after)));
                ("level", JString level);
                ("message", JString message);
                ("toolName", JString (toolName md));
                ("operation", JString (operation md));
                ("correlationId", JString (correlationId md)) ] in
    stderr (snd (jiraRequest rt options w))
    = stderr w
        ++ (if (status =? 401)%Z then [line "error" "Jira authentication failed"]
            else if (status =? 403)%Z then [line "error" "Jira permission denied"]
            else if (status =? 404)%Z then [line "warn" "Jira resource not found"]
            else []).
Proof.
  intros rt options w after status body Htidy Hnet Hafter md line.
  destruct (jiraRequest_on_response rt options w after status body Htidy Hnet Hafter)
    as (w1 & -> & Hnow & Herr & _).
  unfold classify. cbn [HttpClient.status response_body].
  destruct (status =? 401)%Z;
    [ | destruct (status =? 403)%Z;
        [ | destruct (status =? 404)%Z;
            [ | destruct ((status <? 200)%Z || (300 <=? status)%Z);
                [ | destruct (JSON_parse rt body) ] ] ] ];
    unfold bind, ret, throw; try rewrite log_plain; cbn [fst snd stderr write_stderr];
    rewrite Herr; try (now rewrite app_nil_r);
    rewrite written_plain, Hnow; reflexivity.
Qed.

Lemma jiraRequest_logs_known_failures_witness :
  stderr (snd (jiraRequest (Sample.runtime (Sample.answers 403 "{}"))
                 (Sample.search_request None) (Sample.start 1000)))
  = [] ++ [ JObject [ ("timestamp", JString (Sample.iso (1000 + 80)));
                      ("level", JString "error");
                      ("message", JString "Jira permission denied");
                      ("toolName", JString "jira_search_issues");
                      ("operation", JString "searchIssues");
                      ("correlationId", JString (Sample.uuid 0)) ] ].
Proof.
  apply (jiraRequest_logs_known_failures (Sample.runtime (Sample.answers 403 "{}"))
           (Sample.search_request None) (Sample.start 1000) 80 403 "{}").
  - intros t [].
  - reflexivity.
  - discriminate.
Defined.

(** X9.  [jiraRequest] catches nothing of what [httpRequest] throws: a
    network fault or a timeout reaches the caller as the
    [ExternalServiceError] of the network client, which carries the metadata
    of the call and no status code, and nothing is written to standard
    error. *)
Theorem jiraRequest_passes_failures_through :
  forall (rt : Runtime) (options : JiraRequestOptions) (w : World) (e : Thrown),
    tidy w ->
    fst (httpRequest rt (http_options rt options) w) = Throw e ->
    fst (jiraRequest rt options w) = Throw e
    /\ stderr (snd (jiraRequest rt options w)) = stderr w
    /\ exists message, e = ExternalServiceError message (req_metadata options) None.
Proof.
  intros rt options w e Htidy H.
  destruct (jiraRequest_on_failure rt options w e Htidy H)
    as (w1 & -> & Herr & _ & _ & _ & Hshape).
  auto.
Qed.

Lemma jiraRequest_passes_failures_through_witness :
  fst (jiraRequest (Sample.runtime Sample.silent) (Sample.search_request None)
         (Sample.start 0))
  = Throw (ExternalServiceError
             "Request to https://jira.example.test/rest/api/3/search/jql timed out after 30000ms"
             Sample.md0 None)
  /\ stderr (snd (jiraRequest (Sample.runtime Sample.silent) (Sample.search_request None)
                    (Sample.start 0)))
     = [].
Proof.
  destruct (jiraRequest_passes_failures_through (Sample.runtime Sample.silent)
              (Sample.search_request None) (Sample.start 0)
              (ExternalServiceError
                 "Request to https://jira.example.test/rest/api/3/search/jql timed out after 30000ms"
                 Sample.md0 None))
    as (Hthrow & Herr & _).
  - intros t [].
  - reflexivity.
  - split; [exact Hthrow | exact Herr].
Defined.

(** ** The tool handlers, further *)

(** X10.  In a world without stray timers an invocation of jira_get_issue
    always ends with a result: it neither throws nor hangs, whatever the
    network does and whatever the upstream answers.  It draws one
    correlation id, makes one call of [fetch] and writes two or three
    lines to standard error, each of which carries the tool name, the
    operation and that correlation id.  A result that is not flagged as an
    error holds the formatted text of a payload that passed the issue
    schema. *)
Theorem get_issue_always_answers :
  forall (rt : Runtime) (jira : JiraConfig) (issueKey : string) (w : World),
    tidy w ->
    let md := {| toolName := "jira_get_issue"; operation := "getIssue";
                 correlationId := randomUUID rt (uuids_drawn w) |} in
    exists result w' emitted,
      GetIssue.handler rt jira issueKey w = (Return result, w')
      /\ (isError result = false ->
          exists data issue text,
            safeParse JiraIssueResponseSchema data = Success issue
            /\ formatJiraIssue rt issue = Return text
            /\ result = {| isError := false; content := [TextContent text] |})
      /\ requests w'
         = requests w
             ++ [fetch_init (http_options rt (GetIssue.request_options jira issueKey md))]
      /\ stderr w' = stderr w ++ emitted
      /\ 2 <= length emitted <= 3
      /\ Forall (carries md) emitted
      /\ uuids_drawn w' = S (uuids_drawn w)
      /\ tidy w'.
Proof.
  intros rt jira issueKey w Htidy md.
  pose proof (get_issue_run rt jira issueKey w) as Hrun. cbv zeta in Hrun.
  fold md in Hrun.
  set (first := written rt (now w)
                  (entry info ("Fetching Jira issue " +++ issueKey) (metadata_fields md)))
    in Hrun.
  set (w0 := write_stderr first (draw_uuid w)) in Hrun.
  destruct (jiraRequest_effects rt (GetIssue.request_options jira issueKey md) w0
              (opening_keeps_tidy w first Htidy))
    as (client & Hnever & Hlines & Hcarry & Hlen & _ & Hreq & Hid & Htidy1).
  pose proof (jiraRequest_envelope_flagged rt (GetIssue.request_options jira issueKey md) w0)
    as Hflag.
  assert (Hends : forall last w1,
             stderr w1 = stderr w0 ++ client ->
             requests w1 = requests w0
                             ++ [fetch_init (http_options rt
                                               (GetIssue.request_options jira issueKey md))] ->
             uuids_drawn w1 = uuids_drawn w0 -> tidy w1 -> carries md last ->
             requests (write_stderr last w1)
             = requests w ++ [fetch_init (http_options rt
                                            (GetIssue.request_options jira issueKey md))]
             /\ stderr (write_stderr last w1) = stderr w ++ ([first] ++ client ++ [last])
             /\ 2 <= length ([first] ++ client ++ [last]) <= 3
             /\ Forall (carries md) ([first] ++ client ++ [last])
             /\ uuids_drawn (write_stderr last w1) = S (uuids_drawn w)
             /\ tidy (write_stderr last w1)).
  { intros last w1 H1 H2 H3 H4 H5.
    apply (invocation_ends md w w0 w1 first client last); auto.
    apply carries_plain. }
  destruct (jiraRequest rt (GetIssue.request_options jira issueKey md) w0)
    as [[[data | r] | err |] w1] eqn:Hjira; cbn [fst snd] in *;
    [ | | | contradiction].
  - pose proof (parseResponse_settles _ JiraIssueResponseSchema data md) as Hparse.
    destruct (parseResponse JiraIssueResponseSchema data md) as [issue | err |] eqn:Hp;
      [ | | contradiction].
    + destruct (formatJiraIssue_cases rt issue) as [[rest Htext] | Htext];
        rewrite Htext in Hrun; rewrite Hrun.
      * do 3 eexists. split; [reflexivity | ]. split.
        -- intros _. exists data, issue. eexists.
           split; [ | split; [exact Htext | reflexivity]].
           unfold parseResponse in Hp. destruct (safeParse JiraIssueResponseSchema data);
             congruence.
        -- apply Hends; auto. apply carries_timed.
      * do 3 eexists. split; [reflexivity | ]. split; [discriminate | ].
        apply Hends; auto. apply carries_failed.
    + rewrite Hrun. do 3 eexists. split; [reflexivity | ]. split; [discriminate | ].
      apply Hends; auto. apply carries_failed.
  - rewrite Hrun. do 3 eexists. split; [reflexivity | ]. split.
    + intro Hok. rewrite (Hflag r eq_refl) in Hok. discriminate.
    + apply Hends; auto. apply carries_timed.
  - rewrite Hrun. do 3 eexists. split; [reflexivity | ]. split; [discriminate | ].
    apply Hends; auto. apply carries_failed.
Qed.

Lemma get_issue_always_answers_witness :
  exists result w' emitted,
    GetIssue.handler (Sample.runtime Sample.silent) Sample.jira "PROJ-1" (Sample.start 0)
    = (Return result, w')
    /\ (isError result = false ->
        exists data issue text,
          safeParse JiraIssueResponseSchema data = Success issue
          /\ formatJiraIssue (Sample.runtime Sample.silent) issue = Return text
          /\ result = {| isError := false; content := [TextContent text] |})
    /\ requests w'
       = [] ++ [fetch_init
                  (http_options (Sample.runtime Sample.silent)
                     (GetIssue.request_options Sample.jira "PROJ-1"
                        {| toolName := "jira_get_issue"; operation := "getIssue";
                           correlationId := Sample.uuid 0 |}))]
    /\ stderr w' = [] ++ emitted
    /\ 2 <= length emitted <= 3
    /\ Forall (carries {| toolName := "jira_get_issue"; operation := "getIssue";
                          correlationId := Sample.uuid 0 |}) emitted
    /\ uuids_drawn w' = 1
    /\ tidy w'.
Proof.
  apply (get_issue_always_answers (Sample.runtime Sample.silent) Sample.jira "PROJ-1"
           (Sample.start 0)).
  intros t [].
Defined.



(** X12.  In a world without stray timers an invocation of
    jira_search_issues always ends with a result: it neither throws nor
    hangs, whatever the network does and whatever the upstream answers.  It
    draws one correlation id, makes one call of [fetch] and writes two
    or three lines to standard error, each of which carries the tool name,
    the operation and that correlation id.  A result that is not flagged as
    an error holds the formatted text of a payload that passed the search
    schema. *)
Theorem search_issues_always_answers :
  forall (rt : Runtime) (jira : JiraConfig) (jql : string) (maxResults : Z) (w : World),
    tidy w ->
    let md := {| toolName := "jira_search_issues"; operation := "searchIssues";
                 correlationId := randomUUID rt (uuids_drawn w) |} in
    exists result w' emitted,
      SearchIssues.handler rt jira jql maxResults w = (Return result, w')
      /\ (isError result = false ->
          exists data validated,
            safeParse JiraSearchResponseSchema data = Success validated
            /\ result
               = {| isError := false;
                    content := [TextContent (formatJiraSearchResults validated)] |})
      /\ requests w' = requests w ++ [fetch_init (http_options rt (SearchIssues.request_options rt jira jql maxResults md))]
      /\ stderr w' = stderr w ++ emitted
      /\ 2 <= length emitted <= 3
      /\ Forall (carries md) emitted
      /\ uuids_drawn w' = S (uuids_drawn w)
      /\ tidy w'.
Proof.
  intros rt jira jql maxResults w Htidy md.
  pose proof (search_issues_run rt jira jql maxResults w) as Hrun. cbv zeta in Hrun.
  fold md in Hrun.
  set (first := written rt (now w) (entry info "Searching Jira issues with JQL" (metadata_fields md)))
    in Hrun.
  set (w0 := write_stderr first (draw_uuid w)) in Hrun.
  destruct (jiraRequest_effects rt (SearchIssues.request_options rt jira jql maxResults md) w0 (opening_keeps_tidy w first Htidy))
    as (client & Hnever & Hlines & Hcarry & Hlen & _ & Hreq & Hid & Htidy1).
  pose proof (jiraRequest_envelope_flagged rt (SearchIssues.request_options rt jira jql maxResults md) w0) as Hflag.
  assert (Hends : forall last w1,
             stderr w1 = stderr w0 ++ client ->
             requests w1 = requests w0 ++ [fetch_init (http_options rt (SearchIssues.request_options rt jira jql maxResults md))] ->
             uuids_drawn w1 = uuids_drawn w0 -> tidy w1 -> carries md last ->
             requests (write_stderr last w1) = requests w ++ [fetch_init (http_options rt (SearchIssues.request_options rt jira jql maxResults md))]
             /\ stderr (write_stderr last w1) = stderr w ++ ([first] ++ client ++ [last])
             /\ 2 <= length ([first] ++ client ++ [last]) <= 3
             /\ Forall (carries md) ([first] ++ client ++ [last])
             /\ uuids_drawn (write_stderr last w1) = S (uuids_drawn w)
             /\ tidy (write_stderr last w1)).
  { intros last w1 H1 H2 H3 H4 H5.
    apply (invocation_ends md w w0 w1 first client last); auto.
    apply carries_plain. }
  destruct (jiraRequest rt (SearchIssues.request_options rt jira jql maxResults md) w0)
    as [[[data | r] | err |] w1] eqn:Hjira; cbn [fst snd] in *;
    [ | | | contradiction].
  - pose proof (parseResponse_settles _ JiraSearchResponseSchema data md) as Hparse.
    destruct (parseResponse JiraSearchResponseSchema data md) as [validated | err |] eqn:Hp;
      [ | | contradiction].
    + rewrite Hrun. do 3 eexists. split; [reflexivity | ]. split.
      * intros _. exists data, validated. split; [ | reflexivity].
        unfold parseResponse in Hp. destruct (safeParse JiraSearchResponseSchema data); congruence.
      * apply Hends; auto. apply carries_timed.
    + rewrite Hrun. destruct (is_external_with_status err 400);
        (do 3 eexists; split; [reflexivity | ]; split; [discriminate | ];
         apply Hends; auto; apply carries_failed).
  - rewrite Hrun. do 3 eexists. split; [reflexivity | ]. split.
    + intro Hok. rewrite (Hflag r eq_refl) in Hok. discriminate.
    + apply Hends; auto. apply carries_timed.
  - rewrite Hrun. destruct (is_external_with_status err 400);
      (do 3 eexists; split; [reflexivity | ]; split; [discriminate | ];
       apply Hends; auto; apply carries_failed).
Qed.

Lemma search_issues_always_answers_witness :
  exists result w' emitted,
    SearchIssues.handler (Sample.runtime Sample.silent) Sample.jira
      "project = PROJ" 50 (Sample.start 0) = (Return result, w')
    /\ (isError result = false ->
        exists data validated,
          safeParse JiraSearchResponseSchema data = Success validated
          /\ result
             = {| isError := false;
                  content := [TextContent (formatJiraSearchResults validated)] |})
    /\ requests w'
       = [] ++ [fetch_init
                  (http_options (Sample.runtime Sample.silent)
                     (SearchIssues.request_options (Sample.runtime Sample.silent) Sample.jira
                        "project = PROJ" 50
                        {| toolName := "jira_search_issues"; operation := "searchIssues";
                           correlationId := Sample.uuid 0 |}))]
    /\ stderr w' = [] ++ emitted
    /\ 2 <= length emitted <= 3
    /\ Forall (carries {| toolName := "jira_search_issues"; operation := "searchIssues";
                          correlationId := Sample.uuid 0 |}) emitted
    /\ uuids_drawn w' = 1
    /\ tidy w'.
Proof.
  apply (search_issues_always_answers (Sample.runtime Sample.silent) Sample.jira "project = PROJ" 50%Z
           (Sample.start 0)).
  intros t [].
Defined.

(** X13.  In a world without stray timers an invocation of
    jira_create_issue always ends with a result: it neither throws nor
    hangs, whatever the network does and whatever the upstream answers.  It
    draws one correlation id, makes one call of [fetch] and writes two
    or three lines to standard error, each of which carries the tool name,
    the operation and that correlation id.  A result that is not flagged as
    an error names the key of a payload that passed the schema of created
    issues, with the summary, the type and the project that the caller
    gave. *)
Theorem create_issue_always_answers :
  forall (rt : Runtime) (jira : JiraConfig) (project summary issueType : string)
         (description : option string) (w : World),
    tidy w ->
    let md := {| toolName := "jira_create_issue"; operation := "createIssue";
                 correlationId := randomUUID rt (uuids_drawn w) |} in
    exists result w' emitted,
      CreateIssue.handler rt jira project summary issueType description w = (Return result, w')
      /\ (isError result = false ->
          exists data validated,
            safeParse (JiraCreateIssueResponseSchema rt) data = Success validated
            /\ result
               = {| isError := false;
                    content := [TextContent
                                  ("Created " +++ created_key validated +++ ": " +++ summary
                                     +++ nl +++ nl +++ "Type: " +++ issueType +++ nl
                                     +++ "Project: " +++ project)] |})
      /\ requests w' = requests w ++ [fetch_init (http_options rt (CreateIssue.request_options rt jira project summary issueType description md))]
      /\ stderr w' = stderr w ++ emitted
      /\ 2 <= length emitted <= 3
      /\ Forall (carries md) emitted
      /\ uuids_drawn w' = S (uuids_drawn w)
      /\ tidy w'.
Proof.
  intros rt jira project summary issueType description w Htidy md.
  pose proof (create_issue_run rt jira project summary issueType description w) as Hrun. cbv zeta in Hrun.
  fold md in Hrun.
  set (first := written rt (now w) (entry info ("Creating Jira issue in project " +++ project) (metadata_fields md)))
    in Hrun.
  set (w0 := write_stderr first (draw_uuid w)) in Hrun.
  destruct (jiraRequest_effects rt (CreateIssue.request_options rt jira project summary issueType description md) w0 (opening_keeps_tidy w first Htidy))
    as (client & Hnever & Hlines & Hcarry & Hlen & _ & Hreq & Hid & Htidy1).
  pose proof (jiraRequest_envelope_flagged rt (CreateIssue.request_options rt jira project summary issueType description md) w0) as Hflag.
  assert (Hends : forall last w1,
             stderr w1 = stderr w0 ++ client ->
             requests w1 = requests w0 ++ [fetch_init (http_options rt (CreateIssue.request_options rt jira project summary issueType description md))] ->
             uuids_drawn w1 = uuids_drawn w0 -> tidy w1 -> carries md last ->
             requests (write_stderr last w1) = requests w ++ [fetch_init (http_options rt (CreateIssue.request_options rt jira project summary issueType description md))]
             /\ stderr (write_stderr last w1) = stderr w ++ ([first] ++ client ++ [last])
             /\ 2 <= length ([first] ++ client ++ [last]) <= 3
             /\ Forall (carries md) ([first] ++ client ++ [last])
             /\ uuids_drawn (write_stderr last w1) = S (uuids_drawn w)
             /\ tidy (write_stderr last w1)).
  { intros last w1 H1 H2 H3 H4 H5.
    apply (invocation_ends md w w0 w1 first client last); auto.
    apply carries_plain. }
  destruct (jiraRequest rt (CreateIssue.request_options rt jira project summary issueType description md) w0)
    as [[[data | r] | err |] w1] eqn:Hjira; cbn [fst snd] in *;
    [ | | | contradiction].
  - pose proof (parseResponse_settles _ (JiraCreateIssueResponseSchema rt) data md) as Hparse.
    destruct (parseResponse (JiraCreateIssueResponseSchema rt) data md) as [validated | err |] eqn:Hp;
      [ | | contradiction].
    + rewrite Hrun. do 3 eexists. split; [reflexivity | ]. split.
      * intros _. exists data, validated. split; [ | reflexivity].
        unfold parseResponse in Hp. destruct (safeParse (JiraCreateIssueResponseSchema rt) data); congruence.
      * apply Hends; auto. apply carries_timed.
    + rewrite Hrun. destruct (is_external_with_status err 400);
        (do 3 eexists; split; [reflexivity | ]; split; [discriminate | ];
         apply Hends; auto; apply carries_failed).
  - rewrite Hrun. do 3 eexists. split; [reflexivity | ]. split.
    + intro Hok. rewrite (Hflag r eq_refl) in Hok. discriminate.
    + apply Hends; auto. apply carries_timed.
  - rewrite Hrun. destruct (is_external_with_status err 400);
      (do 3 eexists; split; [reflexivity | ]; split; [discriminate | ];
       apply Hends; auto; apply carries_failed).
Qed.

Lemma create_issue_always_answers_witness :
  exists result w' emitted,
    CreateIssue.handler (Sample.runtime Sample.silent) Sample.jira
      "PROJ" "Title" "Task" None (Sample.start 0) = (Return result, w')
    /\ (isError result = false ->
        exists data validated,
          safeParse (JiraCreateIssueResponseSchema (Sample.runtime Sample.silent)) data
          = Success validated
          /\ result
             = {| isError := false;
                  content := [TextContent
                                ("Created " +++ created_key validated +++ ": " +++ "Title"
                                   +++ nl +++ nl +++ "Type: " +++ "Task" +++ nl
                                   +++ "Project: " +++ "PROJ")] |})
    /\ requests w'
       = [] ++ [fetch_init
                  (http_options (Sample.runtime Sample.silent)
                     (CreateIssue.request_options (Sample.runtime Sample.silent) Sample.jira
                        "PROJ" "Title" "Task" None
                        {| toolName := "jira_create_issue"; operation := "createIssue";
                           correlationId := Sample.uuid 0 |}))]
    /\ stderr w' = [] ++ emitted
    /\ 2 <= length emitted <= 3
    /\ Forall (carries {| toolName := "jira_create_issue"; operation := "createIssue";
                          correlationId := Sample.uuid 0 |}) emitted
    /\ uuids_drawn w' = 1
    /\ tidy w'.
Proof.
  apply (create_issue_always_answers (Sample.runtime Sample.silent) Sample.jira "PROJ" "Title" "Task" None
           (Sample.start 0)).
  intros t [].
Defined.

(** X14.  When the upstream answers the request of a jira_get_issue
    invocation in time with a status in 200..299 and a body that parses to
    a payload that the issue schema accepts, with a description that the
    stack is deeper than, the result is not flagged as an error and its text
    is the formatted issue; two lines are written, both at level info: the
    opening line, stamped with the time of the call, and the closing line,
    stamped with the time of the response and holding the time that the
    request took. *)
Theorem get_issue_returns_formatted_issue :
  forall (rt : Runtime) (jira : JiraConfig) (issueKey : string) (w : World)
         (after status : Z) (body : string) (data : JsValue) (issue : JiraIssueResponse),
    tidy w ->
    (forall md,
        network rt (fetch_init (http_options rt (GetIssue.request_options jira issueKey md)))
        = Responds after status body) ->
    (after <= DEFAULT_TIMEOUT_MS)%Z ->
    (200 <= status < 300)%Z ->
    JSON_parse rt body = Some data ->
    safeParse JiraIssueResponseSchema data = Success issue ->
    depth (description (fields issue)) < call_stack rt ->
    let id := JString (randomUUID rt (uuids_drawn w)) in
    exists text,
      formatJiraIssue rt issue = Return text
      /\ fst (GetIssue.handler rt jira issueKey w)
         = Return {| isError := false; content := [TextContent text] |}
      /\ stderr (snd (GetIssue.handler rt jira issueKey w))
         = stderr w
             ++ [ JObject [ ("timestamp", JString (toISOString rt (now w)));
                            ("level", JString "info");
                            ("message", JString ("Fetching Jira issue " +++ issueKey));
                            ("toolName", JString "jira_get_issue");
                            ("operation", JString "getIssue");
                            ("correlationId", id) ];
                  JObject [ ("timestamp", JString (toISOString rt (now w + after)));
                            ("level", JString "info");
                            ("message", JString ("Fetched issue " +++ issueKey));
                            ("durationMs", JNumber after);
                            ("toolName", JString "jira_get_issue");
                            ("operation", JString "getIssue");
                            ("correlationId", id) ] ].
Proof.
  intros rt jira issueKey w after status body data issue
         Htidy Hnet Hafter Hstatus Hjson Hschema Hdepth id.
  pose proof (get_issue_run rt jira issueKey w) as Hrun. cbv zeta in Hrun.
  match type of Hrun with
  | context [jiraRequest rt ?o ?w0] =>
      destruct (jiraRequest_on_response rt o w0 after status body)
        as (w1 & Hjira & Hnow & Herr & _);
        [exact (opening_keeps_tidy w _ Htidy) | apply Hnet | exact Hafter | ];
        rewrite Hjira, (classify_success_status rt o status body w1 Hstatus), Hjson in Hrun
  end.
  unfold parseResponse in Hrun. rewrite Hschema in Hrun.
  destruct (formatJiraIssue_returns rt issue (fun _ => Hdepth)) as [text Htext].
  rewrite Htext in Hrun.
  exists text. split; [exact Htext | ].
  rewrite Hrun. cbn [fst snd stderr write_stderr]. split; [reflexivity | ].
  rewrite Herr. cbn [stderr write_stderr now draw_uuid] in Hnow |- *.
  rewrite written_plain, written_timed, Hnow, <- app_assoc.
  replace (now w + after - now w)%Z with after by lia.
  reflexivity.
Qed.

Lemma get_issue_returns_formatted_issue_witness :
  exists text,
    formatJiraIssue
      (Sample.runtime (Sample.answers 200 (Sample.stringify Cases.issue_payload)))
      Cases.issue
    = Return text
    /\ fst (GetIssue.handler
              (Sample.runtime (Sample.answers 200 (Sample.stringify Cases.issue_payload)))
              Sample.jira "PROJ-1" (Sample.start 1000))
       = Return {| isError := false; content := [TextContent text] |}
    /\ stderr (snd (GetIssue.handler
                      (Sample.runtime (Sample.answers 200
                                         (Sample.stringify Cases.issue_payload)))
                      Sample.jira "PROJ-1" (Sample.start 1000)))
       = [] ++ [ JObject [ ("timestamp", JString (Sample.iso 1000));
                           ("level", JString "info");
                           ("message", JString ("Fetching Jira issue " +++ "PROJ-1"));
                           ("toolName", JString "jira_get_issue");
                           ("operation", JString "getIssue");
                           ("correlationId", JString (Sample.uuid 0)) ];
                 JObject [ ("timestamp", JString (Sample.iso (1000 + 80)));
                           ("level", JString "info");
                           ("message", JString ("Fetched issue " +++ "PROJ-1"));
                           ("durationMs", JNumber 80);
                           ("toolName", JString "jira_get_issue");
                           ("operation", JString "getIssue");
                           ("correlationId", JString (Sample.uuid 0)) ] ].
Proof.
  apply (get_issue_returns_formatted_issue
           (Sample.runtime (Sample.answers 200 (Sample.stringify Cases.issue_payload)))
           Sample.jira "PROJ-1" (Sample.start 1000) 80 200
           (Sample.stringify Cases.issue_payload) Cases.issue_payload Cases.issue).
  - intros t [].
  - intro md. reflexivity.
  - discriminate.
  - lia.
  - vm_compute. reflexivity.
  - reflexivity.
  - vm_compute. lia.
Defined.

(** X15.  What the caller of jira_get_issue sees of a failure is a fixed
    text that depends on the issue key alone; the reason goes to standard
    error.  When the upstream answers in time with a status other than 401,
    403 and 404 outside 200..299, or with a status in 200..299 and a body
    that does not parse as JSON, or with one that parses to a payload that
    the issue schema rejects, the result is flagged as an error with that
    text, and the closing line is an error line whose [error] field names
    the reason. *)
Theorem get_issue_failure_is_logged_not_shown :
  forall (rt : Runtime) (jira : JiraConfig) (issueKey : string) (w : World)
         (after status : Z) (body reason : string),
    tidy w ->
    (forall md,
        network rt (fetch_init (http_options rt (GetIssue.request_options jira issueKey md)))
        = Responds after status body) ->
    (after <= DEFAULT_TIMEOUT_MS)%Z ->
    (status <> 401%Z /\ status <> 403%Z /\ status <> 404%Z
     /\ (status < 200 \/ 300 <= status)%Z
     /\ reason = "Jira API returned unexpected status " +++ Number_toString status)
    \/ ((200 <= status < 300)%Z /\ JSON_parse rt body = None
        /\ reason = "Failed to parse Jira API response as JSON")
    \/ ((200 <= status < 300)%Z
        /\ (exists data issues,
               JSON_parse rt body = Some data
               /\ safeParse JiraIssueResponseSchema data = Failure issues)
        /\ reason = "API response did not match expected schema") ->
    let id := JString (randomUUID rt (uuids_drawn w)) in
    fst (GetIssue.handler rt jira issueKey w)
    = Return {| isError := true;
                content := [TextContent ("An error occurred while fetching Jira issue "
                                           +++ issueKey
                                           +++ ". Check server logs for details.")] |}
    /\ stderr (snd (GetIssue.handler rt jira issueKey w))
       = stderr w
           ++ [ JObject [ ("timestamp", JString (toISOString rt (now w)));
                          ("level", JString "info");
                          ("message", JString ("Fetching Jira issue " +++ issueKey));
                          ("toolName", JString "jira_get_issue");
                          ("operation", JString "getIssue");
                          ("correlationId", id) ];
                JObject [ ("timestamp", JString (toISOString rt (now w + after)));
                          ("level", JString "error");
                          ("message", JString ("Failed to fetch issue " +++ issueKey));
                          ("error", JString reason);
                          ("durationMs", JNumber after);
                          ("toolName", JString "jira_get_issue");
                          ("operation", JString "getIssue");
                          ("correlationId", id) ] ].
Proof.
  intros rt jira issueKey w after status body reason Htidy Hnet Hafter Hcase id.
  pose proof (get_issue_run rt jira issueKey w) as Hrun. cbv zeta in Hrun.
  match type of Hrun with
  | context [jiraRequest rt ?o ?w0] =>
      destruct (jiraRequest_on_response rt o w0 after status body)
        as (w1 & Hjira & Hnow & Herr & _);
        [exact (opening_keeps_tidy w _ Htidy) | apply Hnet | exact Hafter | ];
        rewrite Hjira in Hrun;
        pose proof (classify_unexpected rt o status body w1) as Hunexpected;
        pose proof (classify_success_status rt o status body w1) as Hsuccess
  end.
  cbn [stderr write_stderr now draw_uuid] in Hnow, Herr.
  assert (Hfailed :
            forall text,
              text = reason ->
              GetIssue.handler rt jira issueKey w
              = (Return (error_response
                           ("An error occurred while fetching Jira issue " +++ issueKey
                              +++ ". Check server logs for details.")),
                 write_stderr
                   (written rt (now w1)
                      (entry error ("Failed to fetch issue " +++ issueKey)
                         ([ ("error", JString text);
                            ("durationMs", JNumber (now w1 - now w)) ]
                            ++ metadata_fields
                                 {| toolName := "jira_get_issue"; operation := "getIssue";
                                    correlationId := randomUUID rt (uuids_drawn w) |})))
                   w1) ->
              fst (GetIssue.handler rt jira issueKey w)
              = Return (error_response
                          ("An error occurred while fetching Jira issue " +++ issueKey
                             +++ ". Check server logs for details."))
              /\ stderr (snd (GetIssue.handler rt jira issueKey w))
                 = stderr w
                     ++ [ written rt (now w)
                            (entry info ("Fetching Jira issue " +++ issueKey)
                               (metadata_fields
                                  {| toolName := "jira_get_issue"; operation := "getIssue";
                                     correlationId := randomUUID rt (uuids_drawn w) |}));
                          written rt (now w + after)
                            (entry error ("Failed to fetch issue " +++ issueKey)
                               ([ ("error", JString reason);
                                  ("durationMs", JNumber after) ]
                                  ++ metadata_fields
                                       {| toolName := "jira_get_issue";
                                          operation := "getIssue";
                                          correlationId := randomUUID rt (uuids_drawn w) |})) ]).
  { intros text -> Heq. rewrite Heq. cbn [fst snd stderr write_stderr].
    split; [reflexivity | ].
    rewrite Herr, Hnow, <- app_assoc.
    replace (now w + after - now w)%Z with after by lia. reflexivity. }
  destruct Hcase as [(H1 & H3 & H4 & Hout & ->) | [(H2xx & Hjson & ->) | (H2xx & Hrej & ->)]].
  - rewrite (Hunexpected H1 H3 H4 Hout) in Hrun.
    exact (Hfailed _ eq_refl Hrun).
  - rewrite (Hsuccess H2xx), Hjson in Hrun.
    exact (Hfailed _ eq_refl Hrun).
  - destruct Hrej as (data & issues & Hjson & Hschema).
    rewrite (Hsuccess H2xx), Hjson in Hrun.
    unfold parseResponse in Hrun. rewrite Hschema in Hrun.
    exact (Hfailed _ eq_refl Hrun).
Qed.

Lemma get_issue_failure_is_logged_not_shown_witness :
  fst (GetIssue.handler
         (Sample.runtime (Sample.answers 200 (Sample.stringify Cases.bare_payload)))
         Sample.jira "PROJ-1" (Sample.start 1000))
  = Return {| isError := true;
              content := [TextContent ("An error occurred while fetching Jira issue "
                                         +++ "PROJ-1"
                                         +++ ". Check server logs for details.")] |}
  /\ stderr (snd (GetIssue.handler
                    (Sample.runtime (Sample.answers 200
                                       (Sample.stringify Cases.bare_payload)))
                    Sample.jira "PROJ-1" (Sample.start 1000)))
     = [] ++ [ JObject [ ("timestamp", JString (Sample.iso 1000));
                         ("level", JString "info");
                         ("message", JString ("Fetching Jira issue " +++ "PROJ-1"));
                         ("toolName", JString "jira_get_issue");
                         ("operation", JString "getIssue");
                         ("correlationId", JString (Sample.uuid 0)) ];
               JObject [ ("timestamp", JString (Sample.iso (1000 + 80)));
                         ("level", JString "error");
                         ("message", JString ("Failed to fetch issue " +++ "PROJ-1"));
                         ("error", JString "API response did not match expected schema");
                         ("durationMs", JNumber 80);
                         ("toolName", JString "jira_get_issue");
                         ("operation", JString "getIssue");
                         ("correlationId", JString (Sample.uuid 0)) ] ].
Proof.
  apply (get_issue_failure_is_logged_not_shown
           (Sample.runtime (Sample.answers 200 (Sample.stringify Cases.bare_payload)))
           Sample.jira "PROJ-1" (Sample.start 1000) 80 200
           (Sample.stringify Cases.bare_payload)
           "API response did not match expected schema").
  - intros t [].
  - intro md. reflexivity.
  - discriminate.
  - right. right. split; [lia | split; [ | reflexivity]].
    exists Cases.bare_payload. eexists. split; vm_compute; reflexivity.
Defined.

(** X16.  When the network does not settle the request of a
    jira_get_issue invocation within the default timeout, the invocation
    ends exactly 30 000 ms after it began, with the fixed failure text as a
    result flagged as an error; its one request was aborted in flight, and
    the closing line is an error line that names the origin and the path of
    the request and the timeout. *)
Theorem get_issue_times_out :
  forall (rt : Runtime) (jira : JiraConfig) (issueKey : string) (w : World),
    tidy w ->
    (forall md,
        settles_within DEFAULT_TIMEOUT_MS
          (network rt (fetch_init (http_options rt (GetIssue.request_options jira issueKey md))))
        = false) ->
    let id := JString (randomUUID rt (uuids_drawn w)) in
    exists request w',
      GetIssue.handler rt jira issueKey w
      = (Return {| isError := true;
                   content := [TextContent ("An error occurred while fetching Jira issue "
                                              +++ issueKey
                                              +++ ". Check server logs for details.")] |}, w')
      /\ now w' = (now w + 30000)%Z
      /\ requests w' = requests w ++ [request]
      /\ aborted w' = aborted w ++ [request]
      /\ stderr w'
         = stderr w
             ++ [ JObject [ ("timestamp", JString (toISOString rt (now w)));
                            ("level", JString "info");
                            ("message", JString ("Fetching Jira issue " +++ issueKey));
                            ("toolName", JString "jira_get_issue");
                            ("operation", JString "getIssue");
                            ("correlationId", id) ];
                  JObject [ ("timestamp", JString (toISOString rt (now w + 30000)));
                            ("level", JString "error");
                            ("message", JString ("Failed to fetch issue " +++ issueKey));
                            ("error",
                              JString ("Request to "
                                         +++ safeUrl rt (baseUrl jira
                                                           +++ GetIssue.request_path issueKey)
                                         +++ " timed out after 30000ms"));
                            ("durationMs", JNumber 30000);
                            ("toolName", JString "jira_get_issue");
                            ("operation", JString "getIssue");
                            ("correlationId", id) ] ].
Proof.
  intros rt jira issueKey w Htidy Hslow id.
  pose proof (get_issue_run rt jira issueKey w) as Hrun. cbv zeta in Hrun.
  match type of Hrun with
  | context [jiraRequest rt ?o ?w0] =>
      destruct (jiraRequest_on_timeout rt o w0)
        as (w1 & Hjira & Hnow & Hab & Herr & Hreq & _);
        [exact (opening_keeps_tidy w _ Htidy) | apply Hslow | ];
        rewrite Hjira in Hrun
  end.
  cbn [stderr write_stderr now draw_uuid requests aborted] in Hnow, Herr, Hreq, Hab.
  eexists. eexists. split; [exact Hrun | ].
  cbn [now requests aborted stderr write_stderr].
  split; [exact Hnow | ]. split; [exact Hreq | ]. split; [exact Hab | ].
  rewrite Herr, Hnow, <- app_assoc. cbn [instanceof_Error error_message].
  rewrite written_plain, written_failed.
  replace (now w + 30000 - now w)%Z with 30000%Z by lia.
  reflexivity.
Qed.

Lemma get_issue_times_out_witness :
  exists request w',
    GetIssue.handler (Sample.runtime Sample.silent) Sample.jira "PROJ-1" (Sample.start 0)
    = (Return {| isError := true;
                 content := [TextContent ("An error occurred while fetching Jira issue "
                                            +++ "PROJ-1"
                                            +++ ". Check server logs for details.")] |}, w')
    /\ now w' = (0 + 30000)%Z
    /\ requests w' = [] ++ [request]
    /\ aborted w' = [] ++ [request]
    /\ stderr w'
       = [] ++ [ JObject [ ("timestamp", JString (Sample.iso 0));
                           ("level", JString "info");
                           ("message", JString ("Fetching Jira issue " +++ "PROJ-1"));
                           ("toolName", JString "jira_get_issue");
                           ("operation", JString "getIssue");
                           ("correlationId", JString (Sample.uuid 0)) ];
                 JObject [ ("timestamp", JString (Sample.iso (0 + 30000)));
                           ("level", JString "error");
                           ("message", JString ("Failed to fetch issue " +++ "PROJ-1"));
                           ("error",
                             JString ("Request to "
                                        +++ safeUrl (Sample.runtime Sample.silent)
                                              ("https://jira.example.test"
                                                 +++ GetIssue.request_path "PROJ-1")
                                        +++ " timed out after 30000ms"));
                           ("durationMs", JNumber 30000);
                           ("toolName", JString "jira_get_issue");
                           ("operation", JString "getIssue");
                           ("correlationId", JString (Sample.uuid 0)) ] ].
Proof.
  apply (get_issue_times_out (Sample.runtime Sample.silent) Sample.jira "PROJ-1"
           (Sample.start 0)).
  - intros t [].
  - intro md. reflexivity.
Defined.

(** X17.  A status 400 is explained to the caller by the three tools that
    send a body.  When the upstream answers the request of an invocation in
    time with status 400, jira_search_issues, jira_create_issue and
    jira_update_issue each return their own text about the invalid input,
    flagged as an error, and close with a warning line, not an error line,
    whose [error] field holds the message of the client. *)
Theorem bad_request_is_explained :
  forall (rt : Runtime) (jira : JiraConfig) (w : World) (after : Z) (body : string),
    tidy w ->
    (after <= DEFAULT_TIMEOUT_MS)%Z ->
    let closing (message tool operation : string) :=
      JObject [ ("timestamp", JString (toISOString rt (now w + after)));
                ("level", JString "warn");
                ("message", JString message);
                ("error", JString "Jira API returned unexpected status 400");
                ("durationMs", JNumber after);
                ("toolName", JString tool);
                ("operation", JString operation);
                ("correlationId", JString (randomUUID rt (uuids_drawn w))) ] in
    (forall jql maxResults,
        (forall md,
            network rt (fetch_init (http_options rt
                          (SearchIssues.request_options rt jira jql maxResults md)))
            = Responds after 400 body) ->
        exists opening,
          fst (SearchIssues.handler rt jira jql maxResults w)
          = Return {| isError := true;
                      content := [TextContent
                        "Invalid JQL query. Check the syntax and field names, then try again."] |}
          /\ stderr (snd (SearchIssues.handler rt jira jql maxResults w))
             = stderr w ++ [ opening;
                             closing "Invalid JQL query" "jira_search_issues" "searchIssues" ])
    /\ (forall project summary issueType description,
           (forall md,
               network rt (fetch_init (http_options rt
                             (CreateIssue.request_options rt jira project summary issueType
                                description md)))
               = Responds after 400 body) ->
           exists opening,
             fst (CreateIssue.handler rt jira project summary issueType description w)
             = Return {| isError := true;
                         content := [TextContent
                           "Failed to create issue. Check the project key and issue type are valid, then try again."] |}
             /\ stderr (snd (CreateIssue.handler rt jira project summary issueType
                               description w))
                = stderr w ++ [ opening;
                                closing "Invalid project key or issue type"
                                  "jira_create_issue" "createIssue" ])
    /\ (forall issueKey fields,
           (forall md,
               network rt (fetch_init (http_options rt
                             (UpdateIssue.request_options rt jira issueKey fields md)))
               = Responds after 400 body) ->
           exists opening,
             fst (UpdateIssue.handler rt jira issueKey fields w)
             = Return {| isError := true;
                         content := [TextContent
                           "Failed to update issue. Check the field names and values are valid, then try again."] |}
             /\ stderr (snd (UpdateIssue.handler rt jira issueKey fields w))
                = stderr w ++ [ opening;
                                closing "Invalid field names or values in update request"
                                  "jira_update_issue" "updateIssue" ]).
Proof.
  intros rt jira w after body Htidy Hafter closing.
  assert (Hclient : forall options line,
             network rt (fetch_init (http_options rt options)) = Responds after 400 body ->
             exists w1,
               jiraRequest rt options (write_stderr line (draw_uuid w))
               = (Throw (ExternalServiceError "Jira API returned unexpected status 400"
                           (req_metadata options) (Some 400%Z)), w1)
               /\ now w1 = (now w + after)%Z
               /\ stderr w1 = stderr w ++ [line]).
  { intros options line Hnet.
    destruct (jiraRequest_on_response rt options (write_stderr line (draw_uuid w))
                after 400 body (opening_keeps_tidy w line Htidy) Hnet Hafter)
      as (w1 & Hjira & Hnow & Herr & _).
    exists w1. rewrite Hjira.
    rewrite (classify_unexpected rt options 400 body w1)
      by (try discriminate; right; lia).
    auto. }
  split; [ | split].
  - intros jql maxResults Hnet.
    pose proof (search_issues_run rt jira jql maxResults w) as Hrun. cbv zeta in Hrun.
    match type of Hrun with
    | context [jiraRequest rt ?o (write_stderr ?line _)] =>
        destruct (Hclient o line (Hnet _)) as (w1 & Hjira & Hnow & Herr);
          rewrite Hjira in Hrun
    end.
    cbn [is_external_with_status Z.eqb Pos.eqb] in Hrun.
    eexists. rewrite Hrun. cbn [fst snd stderr write_stderr error_message req_metadata].
    split; [reflexivity | ].
    rewrite Herr, Hnow, written_failed, <- app_assoc.
    replace (now w + after - now w)%Z with after by lia. reflexivity.
  - intros project summary issueType description Hnet.
    pose proof (create_issue_run rt jira project summary issueType description w) as Hrun.
    cbv zeta in Hrun.
    match type of Hrun with
    | context [jiraRequest rt ?o (write_stderr ?line _)] =>
        destruct (Hclient o line (Hnet _)) as (w1 & Hjira & Hnow & Herr);
          rewrite Hjira in Hrun
    end.
    cbn [is_external_with_status Z.eqb Pos.eqb] in Hrun.
    eexists. rewrite Hrun. cbn [fst snd stderr write_stderr error_message req_metadata].
    split; [reflexivity | ].
    rewrite Herr, Hnow, written_failed, <- app_assoc.
    replace (now w + after - now w)%Z with after by lia. reflexivity.
  - intros issueKey fields Hnet.
    pose proof (update_issue_run rt jira issueKey fields w) as Hrun. cbv zeta in Hrun.
    match type of Hrun with
    | context [jiraRequest rt ?o (write_stderr ?line _)] =>
        destruct (Hclient o line (Hnet _)) as (w1 & Hjira & Hnow & Herr);
          rewrite Hjira in Hrun
    end.
    cbn [is_external_with_status Z.eqb Pos.eqb] in Hrun.
    eexists. rewrite Hrun. cbn [fst snd stderr write_stderr error_message req_metadata].
    split; [reflexivity | ].
    rewrite Herr, Hnow, written_failed, <- app_assoc.
    replace (now w + after - now w)%Z with after by lia. reflexivity.
Qed.

Lemma bad_request_is_explained_witness :
  exists opening,
    fst (SearchIssues.handler (Sample.runtime (Sample.answers 400 "{}")) Sample.jira
           "project = " 50 (Sample.start 0))
    = Return {| isError := true;
                content := [TextContent
                  "Invalid JQL query. Check the syntax and field names, then try again."] |}
    /\ stderr (snd (SearchIssues.handler (Sample.runtime (Sample.answers 400 "{}"))
                      Sample.jira "project = " 50 (Sample.start 0)))
       = [] ++ [ opening;
                 JObject [ ("timestamp", JString (Sample.iso (0 + 80)));
                           ("level", JString "warn");
                           ("message", JString "Invalid JQL query");
                           ("error", JString "Jira API returned unexpected status 400");
                           ("durationMs", JNumber 80);
                           ("toolName", JString "jira_search_issues");
                           ("operation", JString "searchIssues");
                           ("correlationId", JString (Sample.uuid 0)) ] ].
Proof.
  destruct (bad_request_is_explained (Sample.runtime (Sample.answers 400 "{}")) Sample.jira
              (Sample.start 0) 80 "{}") as (Hsearch & _ & _).
  - intros t [].
  - discriminate.
  - apply (Hsearch "project = " 50%Z). intro md. reflexivity.
Defined.

(** X18.  The answer to an update is read as JSON.  When the upstream
    answers the request of a jira_update_issue invocation in time with a
    status in 200..299 and a body that [JSON.parse] rejects (the empty body
    of a 204 No Content is one), the invocation ends with the fixed failure
    text, flagged as an error, and with an error line that names the parse
    failure, although the update was put on the network. *)
Theorem update_issue_needs_a_json_answer :
  forall (rt : Runtime) (jira : JiraConfig) (issueKey : string) (fields : Entries)
         (w : World) (after status : Z) (body : string),
    tidy w ->
    (forall md,
        network rt (fetch_init (http_options rt
                                  (UpdateIssue.request_options rt jira issueKey fields md)))
        = Responds after status body) ->
    (after <= DEFAULT_TIMEOUT_MS)%Z ->
    (200 <= status < 300)%Z ->
    JSON_parse rt body = None ->
    exists opening request,
      fst (UpdateIssue.handler rt jira issueKey fields w)
      = Return {| isError := true;
                  content := [TextContent
                    "An error occurred while updating the Jira issue. Check server logs for details."] |}
      /\ requests (snd (UpdateIssue.handler rt jira issueKey fields w))
         = requests w ++ [request]
      /\ init_method request = "PUT"
      /\ stderr (snd (UpdateIssue.handler rt jira issueKey fields w))
         = stderr w
             ++ [ opening;
                  JObject [ ("timestamp", JString (toISOString rt (now w + after)));
                            ("level", JString "error");
                            ("message", JString "Failed to update Jira issue");
                            ("error", JString "Failed to parse Jira API response as JSON");
                            ("durationMs", JNumber after);
                            ("toolName", JString "jira_update_issue");
                            ("operation", JString "updateIssue");
                            ("correlationId", JString (randomUUID rt (uuids_drawn w))) ] ].
Proof.
  intros rt jira issueKey fields w after status body Htidy Hnet Hafter Hstatus Hjson.
  destruct (update_handler_requests rt jira issueKey fields w Htidy) as [md0 Hrequests].
  pose proof (update_issue_run rt jira issueKey fields w) as Hrun. cbv zeta in Hrun.
  match type of Hrun with
  | context [jiraRequest rt ?o ?w0] =>
      destruct (jiraRequest_on_response rt o w0 after status body)
        as (w1 & Hjira & Hnow & Herr & _);
        [exact (opening_keeps_tidy w _ Htidy) | apply Hnet | exact Hafter | ];
        rewrite Hjira, (classify_success_status rt o status body w1 Hstatus), Hjson in Hrun
  end.
  cbn [is_external_with_status instanceof_Error error_message] in Hrun.
  cbn [stderr write_stderr now draw_uuid] in Hnow, Herr.
  eexists. eexists. split; [rewrite Hrun; reflexivity | ].
  split; [exact Hrequests | ]. split; [reflexivity | ].
  rewrite Hrun. cbn [snd stderr write_stderr].
  rewrite Herr, Hnow, written_failed, <- app_assoc.
  replace (now w + after - now w)%Z with after by lia. reflexivity.
Qed.

Lemma update_issue_needs_a_json_answer_witness :
  Sample.parse "" = None
  /\ exists opening request,
       fst (UpdateIssue.handler (Sample.runtime (Sample.answers 204 "")) Sample.jira
              "PROJ-1" Sample.update_fields (Sample.start 0))
       = Return {| isError := true;
                   content := [TextContent
                     "An error occurred while updating the Jira issue. Check server logs for details."] |}
       /\ requests (snd (UpdateIssue.handler (Sample.runtime (Sample.answers 204 ""))
                           Sample.jira "PROJ-1" Sample.update_fields (Sample.start 0)))
          = [] ++ [request]
       /\ init_method request = "PUT"
       /\ stderr (snd (UpdateIssue.handler (Sample.runtime (Sample.answers 204 ""))
                         Sample.jira "PROJ-1" Sample.update_fields (Sample.start 0)))
          = [] ++ [ opening;
                    JObject [ ("timestamp", JString (Sample.iso (0 + 80)));
                              ("level", JString "error");
                              ("message", JString "Failed to update Jira issue");
                              ("error", JString "Failed to parse Jira API response as JSON");
                              ("durationMs", JNumber 80);
                              ("toolName", JString "jira_update_issue");
                              ("operation", JString "updateIssue");
                              ("correlationId", JString (Sample.uuid 0)) ] ].
Proof.
  split; [reflexivity | ].
  apply (update_issue_needs_a_json_answer (Sample.runtime (Sample.answers 204 ""))
           Sample.jira "PROJ-1" Sample.update_fields (Sample.start 0) 80 204 "").
  - intros t [].
  - intro md. reflexivity.
  - discriminate.
  - lia.
  - reflexivity.
Defined.

(** X19.  When the upstream answers the request of a jira_update_issue
    invocation in time with a status in 200..299 and a body that parses as
    JSON, the result is not flagged as an error and names the issue and,
    after "Fields changed: ", the keys of the caller's field map in their
    order, separated by ", "; the closing line is an info line. *)
Theorem update_issue_names_the_fields :
  forall (rt : Runtime) (jira : JiraConfig) (issueKey : string) (fields : Entries)
         (w : World) (after status : Z) (body : string) (data : JsValue),
    tidy w ->
    NoDup (keys fields) ->
    (forall md,
        network rt (fetch_init (http_options rt
                                  (UpdateIssue.request_options rt jira issueKey fields md)))
        = Responds after status body) ->
    (after <= DEFAULT_TIMEOUT_MS)%Z ->
    (200 <= status < 300)%Z ->
    JSON_parse rt body = Some data ->
    exists opening,
      fst (UpdateIssue.handler rt jira issueKey fields w)
      = Return {| isError := false;
                  content := [TextContent
                                ("Updated " +++ issueKey +++ nl +++ nl +++ "Fields changed: "
                                   +++ join ", " (keys fields))] |}
      /\ stderr (snd (UpdateIssue.handler rt jira issueKey fields w))
         = stderr w
             ++ [ opening;
                  JObject [ ("timestamp", JString (toISOString rt (now w + after)));
                            ("level", JString "info");
                            ("message", JString ("Updated issue " +++ issueKey));
                            ("durationMs", JNumber after);
                            ("toolName", JString "jira_update_issue");
                            ("operation", JString "updateIssue");
                            ("correlationId", JString (randomUUID rt (uuids_drawn w))) ] ].
Proof.
  intros rt jira issueKey fields w after status body data
         Htidy Hnd Hnet Hafter Hstatus Hjson.
  assert (Hkeys : keys (UpdateIssue.processedFields fields) = keys fields).
  { unfold UpdateIssue.processedFields. rewrite (copy_distinct fields Hnd).
    destruct (own "description" fields) as [[] |] eqn:Hd; try reflexivity.
    apply keys_assign_present. congruence. }
  pose proof (update_issue_run rt jira issueKey fields w) as Hrun. cbv zeta in Hrun.
  match type of Hrun with
  | context [jiraRequest rt ?o ?w0] =>
      destruct (jiraRequest_on_response rt o w0 after status body)
        as (w1 & Hjira & Hnow & Herr & _);
        [exact (opening_keeps_tidy w _ Htidy) | apply Hnet | exact Hafter | ];
        rewrite Hjira, (classify_success_status rt o status body w1 Hstatus), Hjson in Hrun
  end.
  cbn [stderr write_stderr now draw_uuid] in Hnow, Herr.
  eexists. rewrite Hrun, Hkeys. cbn [fst snd stderr write_stderr].
  split; [reflexivity | ].
  rewrite Herr, Hnow, written_timed, <- app_assoc.
  replace (now w + after - now w)%Z with after by lia. reflexivity.
Qed.

Lemma update_issue_names_the_fields_witness :
  exists opening,
    fst (UpdateIssue.handler (Sample.runtime (Sample.answers 200 "{}")) Sample.jira
           "PROJ-1" Sample.update_fields (Sample.start 0))
    = Return {| isError := false;
                content := [TextContent
                              ("Updated " +++ "PROJ-1" +++ nl +++ nl +++ "Fields changed: "
                                 +++ join ", " ["summary"; "description"; "priority"])] |}
    /\ stderr (snd (UpdateIssue.handler (Sample.runtime (Sample.answers 200 "{}"))
                      Sample.jira "PROJ-1" Sample.update_fields (Sample.start 0)))
       = [] ++ [ opening;
                 JObject [ ("timestamp", JString (Sample.iso (0 + 80)));
                           ("level", JString "info");
                           ("message", JString ("Updated issue " +++ "PROJ-1"));
                           ("durationMs", JNumber 80);
                           ("toolName", JString "jira_update_issue");
                           ("operation", JString "updateIssue");
                           ("correlationId", JString (Sample.uuid 0)) ] ].
Proof.
  apply (update_issue_names_the_fields (Sample.runtime (Sample.answers 200 "{}"))
           Sample.jira "PROJ-1" Sample.update_fields (Sample.start 0) 80 200 "{}"
           (JObject [])).
  - intros t [].
  - repeat constructor; simpl; intuition discriminate.
  - intro md. reflexivity.
  - discriminate.
  - lia.
  - reflexivity.
Defined.

(** X20.  Whatever becomes of it, an invocation of jira_search_issues makes
    exactly one call of [fetch]: a POST to the search path under the
    base URL, whose body is the JSON text of the query, the page size and
    the eight fields that the tool asks for, in this order. *)
Theorem search_issues_sends_the_query :
  forall (rt : Runtime) (jira : JiraConfig) (jql : string) (maxResults : Z) (w : World),
    tidy w ->
    exists request,
      requests (snd (SearchIssues.handler rt jira jql maxResults w)) = requests w ++ [request]
      /\ init_url request = baseUrl jira +++ "/rest/api/3/search/jql"
      /\ init_method request = "POST"
      /\ init_body request
         = Some (JSON_stringify rt
                   (JObject
                      [ ("jql", JString jql);
                        ("maxResults", JNumber maxResults);
                        ("fields",
                          JArray [ JString "summary"; JString "status"; JString "assignee";
                                   JString "priority"; JString "issuetype";
                                   JString "description"; JString "created";
                                   JString "updated" ]) ])).
Proof.
  intros rt jira jql maxResults w Htidy.
  destruct (search_handler_requests rt jira jql maxResults w Htidy) as [md Hreq].
  eexists. split; [exact Hreq | ]. repeat split.
Qed.

Lemma search_issues_sends_the_query_witness :
  exists request,
    requests (snd (SearchIssues.handler (Sample.runtime Sample.silent) Sample.jira
                     "project = PROJ" 50 (Sample.start 0)))
    = [] ++ [request]
    /\ init_url request = "https://jira.example.test" +++ "/rest/api/3/search/jql"
    /\ init_method request = "POST"
    /\ init_body request
       = Some (Sample.stringify
                 (JObject
                    [ ("jql", JString "project = PROJ");
                      ("maxResults", JNumber 50);
                      ("fields",
                        JArray [ JString "summary"; JString "status"; JString "assignee";
                                 JString "priority"; JString "issuetype";
                                 JString "description"; JString "created";
                                 JString "updated" ]) ])).
Proof.
  apply (search_issues_sends_the_query (Sample.runtime Sample.silent) Sample.jira
           "project = PROJ" 50%Z (Sample.start 0)).
  intros t [].
Defined.

(** X21.  When the upstream answers the request of a jira_search_issues
    invocation in time with a status in 200..299 and a body that parses to
    a payload that the search schema accepts, the result is not flagged as
    an error and its text is that of [formatJiraSearchResults]; the closing
    line is an info line that tells how many issues the page holds. *)
Theorem search_issues_returns_formatted_results :
  forall (rt : Runtime) (jira : JiraConfig) (jql : string) (maxResults : Z) (w : World)
         (after status : Z) (body : string) (data : JsValue)
         (validated : JiraSearchResponse),
    tidy w ->
    (forall md,
        network rt (fetch_init (http_options rt
                                  (SearchIssues.request_options rt jira jql maxResults md)))
        = Responds after status body) ->
    (after <= DEFAULT_TIMEOUT_MS)%Z ->
    (200 <= status < 300)%Z ->
    JSON_parse rt body = Some data ->
    safeParse JiraSearchResponseSchema data = Success validated ->
    exists opening,
      fst (SearchIssues.handler rt jira jql maxResults w)
      = Return {| isError := false;
                  content := [TextContent (formatJiraSearchResults validated)] |}
      /\ stderr (snd (SearchIssues.handler rt jira jql maxResults w))
         = stderr w
             ++ [ opening;
                  JObject [ ("timestamp", JString (toISOString rt (now w + after)));
                            ("level", JString "info");
                            ("message",
                              JString ("Search returned "
                                         +++ Number_toString
                                               (Z.of_nat (length (issues validated)))
                                         +++ " issue(s)"));
                            ("durationMs", JNumber after);
                            ("toolName", JString "jira_search_issues");
                            ("operation", JString "searchIssues");
                            ("correlationId", JString (randomUUID rt (uuids_drawn w))) ] ].
Proof.
  intros rt jira jql maxResults w after status body data validated
         Htidy Hnet Hafter Hstatus Hjson Hschema.
  pose proof (search_issues_run rt jira jql maxResults w) as Hrun. cbv zeta in Hrun.
  match type of Hrun with
  | context [jiraRequest rt ?o ?w0] =>
      destruct (jiraRequest_on_response rt o w0 after status body)
        as (w1 & Hjira & Hnow & Herr & _);
        [exact (opening_keeps_tidy w _ Htidy) | apply Hnet | exact Hafter | ];
        rewrite Hjira, (classify_success_status rt o status body w1 Hstatus), Hjson in Hrun
  end.
  unfold parseResponse in Hrun. rewrite Hschema in Hrun.
  cbn [stderr write_stderr now draw_uuid] in Hnow, Herr.
  eexists. rewrite Hrun. cbn [fst snd stderr write_stderr].
  split; [reflexivity | ].
  rewrite Herr, Hnow, written_timed, <- app_assoc.
  replace (now w + after - now w)%Z with after by lia. reflexivity.
Qed.

Lemma search_issues_returns_formatted_results_witness :
  exists opening,
    fst (SearchIssues.handler
           (Sample.runtime (Sample.answers 200 (Sample.stringify Cases.search_payload)))
           Sample.jira "project = PROJ" 1 (Sample.start 0))
    = Return {| isError := false;
                content := [TextContent (formatJiraSearchResults Cases.search_response)] |}
    /\ stderr (snd (SearchIssues.handler
                      (Sample.runtime (Sample.answers 200
                                         (Sample.stringify Cases.search_payload)))
                      Sample.jira "project = PROJ" 1 (Sample.start 0)))
       = [] ++ [ opening;
                 JObject [ ("timestamp", JString (Sample.iso (0 + 80)));
                           ("level", JString "info");
                           ("message",
                             JString ("Search returned "
                                        +++ Number_toString
                                              (Z.of_nat (length (issues Cases.search_response)))
                                        +++ " issue(s)"));
                           ("durationMs", JNumber 80);
                           ("toolName", JString "jira_search_issues");
                           ("operation", JString "searchIssues");
                           ("correlationId", JString (Sample.uuid 0)) ] ].
Proof.
  apply (search_issues_returns_formatted_results
           (Sample.runtime (Sample.answers 200 (Sample.stringify Cases.search_payload)))
           Sample.jira "project = PROJ" 1%Z (Sample.start 0) 80 200
           (Sample.stringify Cases.search_payload) Cases.search_payload).
  - intros t [].
  - intro md. reflexivity.
  - discriminate.
  - lia.
  - vm_compute. reflexivity.
  - reflexivity.
Defined.

(** X22.  Whatever becomes of it, an invocation of jira_create_issue makes
    exactly one call of [fetch]: a POST to the issue path under the
    base URL, whose body is the JSON text of [{ fields }], where [fields]
    holds the project by its key, the summary and the issue type by its
    name, in this order, followed by the description as the ADF document of
    [textToAdf] exactly when the caller gave a description. *)
Theorem create_issue_sends_the_fields :
  forall (rt : Runtime) (jira : JiraConfig) (project summary issueType : string)
         (description : option string) (w : World),
    tidy w ->
    exists request,
      requests (snd (CreateIssue.handler rt jira project summary issueType description w))
      = requests w ++ [request]
      /\ init_url request = baseUrl jira +++ "/rest/api/3/issue"
      /\ init_method request = "POST"
      /\ init_body request
         = Some (JSON_stringify rt
                   (JObject
                      [ ("fields",
                          JObject
                            ([ ("project", JObject [("key", JString project)]);
                               ("summary", JString summary);
                               ("issuetype", JObject [("name", JString issueType)]) ]
                               ++ match description with
                                  | Some text => [ ("description", textToAdf text) ]
                                  | None => []
                                  end)) ])).
Proof.
  intros rt jira project summary issueType description w Htidy.
  destruct (create_handler_requests rt jira project summary issueType description w Htidy)
    as [md Hreq].
  eexists. split; [exact Hreq | ].
  split; [reflexivity | ]. split; [reflexivity | ].
  cbn [init_body fetch_init http_options body req_body CreateIssue.request_options].
  unfold CreateIssue.request_body, CreateIssue.issue_fields.
  destruct description; reflexivity.
Qed.

Lemma create_issue_sends_the_fields_witness :
  exists request,
    requests (snd (CreateIssue.handler (Sample.runtime Sample.silent) Sample.jira
                     "PROJ" "Title" "Task" (Some "Body") (Sample.start 0)))
    = [] ++ [request]
    /\ init_url request = "https://jira.example.test" +++ "/rest/api/3/issue"
    /\ init_method request = "POST"
    /\ init_body request
       = Some (Sample.stringify
                 (JObject
                    [ ("fields",
                        JObject
                          ([ ("project", JObject [("key", JString "PROJ")]);
                             ("summary", JString "Title");
                             ("issuetype", JObject [("name", JString "Task")]) ]
                             ++ [ ("description", textToAdf "Body") ])) ])).
Proof.
  apply (create_issue_sends_the_fields (Sample.runtime Sample.silent) Sample.jira
           "PROJ" "Title" "Task" (Some "Body") (Sample.start 0)).
  intros t [].
Defined.

(** X23.  When the upstream answers the request of a jira_create_issue
    invocation in time with a status in 200..299 and a body that parses to
    a payload with a string [id], a string [key] and a [self] that is a URL,
    the result is not flagged as an error and names the key of the payload
    with the summary, the type and the project that the caller gave; the
    closing line is an info line that names the key. *)
Theorem create_issue_names_the_new_issue :
  forall (rt : Runtime) (jira : JiraConfig) (project summary issueType : string)
         (description : option string) (w : World)
         (after status : Z) (body : string) (entries : Entries) (id key self : string),
    tidy w ->
    (forall md,
        network rt (fetch_init
                      (http_options rt
                         (CreateIssue.request_options rt jira project summary issueType
                            description md)))
        = Responds after status body) ->
    (after <= DEFAULT_TIMEOUT_MS)%Z ->
    (200 <= status < 300)%Z ->
    JSON_parse rt body = Some (JObject entries) ->
    own "id" entries = Some (JString id) ->
    own "key" entries = Some (JString key) ->
    own "self" entries = Some (JString self) ->
    URL_parse rt self <> None ->
    exists opening,
      fst (CreateIssue.handler rt jira project summary issueType description w)
      = Return {| isError := false;
                  content := [TextContent
                                ("Created " +++ key +++ ": " +++ summary +++ nl +++ nl
                                   +++ "Type: " +++ issueType +++ nl
                                   +++ "Project: " +++ project)] |}
      /\ stderr (snd (CreateIssue.handler rt jira project summary issueType description w))
         = stderr w
             ++ [ opening;
                  JObject [ ("timestamp", JString (toISOString rt (now w + after)));
                            ("level", JString "info");
                            ("message", JString ("Created issue " +++ key));
                            ("durationMs", JNumber after);
                            ("toolName", JString "jira_create_issue");
                            ("operation", JString "createIssue");
                            ("correlationId", JString (randomUUID rt (uuids_drawn w))) ] ].
Proof.
  intros rt jira project summary issueType description w after status body entries
         id key self Htidy Hnet Hafter Hstatus Hjson Hid Hkey Hself Hurl.
  assert (Hschema : safeParse (JiraCreateIssueResponseSchema rt) (JObject entries)
                    = Success {| created_id := id; created_key := key;
                                 created_self := self |}).
  { unfold safeParse, JiraCreateIssueResponseSchema, z_object, with_field, shape_of.
    rewrite Hid, Hkey, Hself. cbn [z_string z_string_url app].
    destruct (URL_parse rt self); [reflexivity | contradiction]. }
  pose proof (create_issue_run rt jira project summary issueType description w) as Hrun.
  cbv zeta in Hrun.
  match type of Hrun with
  | context [jiraRequest rt ?o ?w0] =>
      destruct (jiraRequest_on_response rt o w0 after status body)
        as (w1 & Hjira & Hnow & Herr & _);
        [exact (opening_keeps_tidy w _ Htidy) | apply Hnet | exact Hafter | ];
        rewrite Hjira, (classify_success_status rt o status body w1 Hstatus), Hjson in Hrun
  end.
  unfold parseResponse in Hrun. rewrite Hschema in Hrun.
  cbn [stderr write_stderr now draw_uuid created_key] in Hnow, Herr, Hrun.
  eexists. rewrite Hrun. cbn [fst snd stderr write_stderr].
  split; [reflexivity | ].
  rewrite Herr, Hnow, written_timed, <- app_assoc.
  replace (now w + after - now w)%Z with after by lia. reflexivity.
Qed.

Lemma create_issue_names_the_new_issue_witness :
  exists opening,
    fst (CreateIssue.handler
           (Sample.runtime (Sample.answers 201 (Sample.stringify Cases.created_payload)))
           Sample.jira "PROJ" "Title" "Task" None (Sample.start 0))
    = Return {| isError := false;
                content := [TextContent
                              ("Created " +++ "PROJ-2" +++ ": " +++ "Title" +++ nl +++ nl
                                 +++ "Type: " +++ "Task" +++ nl
                                 +++ "Project: " +++ "PROJ")] |}
    /\ stderr (snd (CreateIssue.handler
                      (Sample.runtime (Sample.answers 201
                                         (Sample.stringify Cases.created_payload)))
                      Sample.jira "PROJ" "Title" "Task" None (Sample.start 0)))
       = [] ++ [ opening;
                 JObject [ ("timestamp", JString (Sample.iso (0 + 80)));
                           ("level", JString "info");
                           ("message", JString ("Created issue " +++ "PROJ-2"));
                           ("durationMs", JNumber 80);
                           ("toolName", JString "jira_create_issue");
                           ("operation", JString "createIssue");
                           ("correlationId", JString (Sample.uuid 0)) ] ].
Proof.
  apply (create_issue_names_the_new_issue
           (Sample.runtime (Sample.answers 201 (Sample.stringify Cases.created_payload)))
           Sample.jira "PROJ" "Title" "Task" None (Sample.start 0) 80 201
           (Sample.stringify Cases.created_payload)
           [ ("id", JString "10001"); ("key", JString "PROJ-2");
             ("self", JString "https://jira.example.test/rest/api/3/issue/10001") ]
           "10001" "PROJ-2" "https://jira.example.test/rest/api/3/issue/10001").
  - intros t [].
  - intro md. reflexivity.
  - discriminate.
  - lia.
  - vm_compute. reflexivity.
  - reflexivity.
  - reflexivity.
  - reflexivity.
  - vm_compute. discriminate.
Defined.

(** ** Plain text and rich text *)

Section Paragraphs.

Lemma append_assoc :
  forall a b c : string, (a +++ b) +++ c = a +++ b +++ c.
Proof. induction a as [| x a IH]; intros b c; [reflexivity | ]. simpl. now rewrite IH. Qed.

Lemma append_empty_r : forall a : string, a +++ "" = a.
Proof. induction a as [| x a IH]; [reflexivity | ]. simpl. now rewrite IH. Qed.

Lemma ends_LF_app :
  forall a b, ends_LF (a +++ b) = match b with EmptyString => ends_LF a | _ => ends_LF b end.
Proof.
  induction a as [| x a IH]; intro b.
  - destruct b; reflexivity.
  - cbn [append]. destruct b as [| y b].
    + rewrite append_empty_r. reflexivity.
    + specialize (IH (String y b)). cbn [ends_LF].
      destruct a as [| x' a']; [reflexivity | ].
      cbn [append] in IH |- *. exact IH.
Qed.

Lemma starts_LF_app :
  forall a b, starts_LF (a +++ b) = match a with EmptyString => starts_LF b | _ => starts_LF a end.
Proof. intros [| x a] b; reflexivity. Qed.

Lemma no_blank_line_app :
  forall a b,
    no_blank_line (a +++ b)
    = no_blank_line a && no_blank_line b && negb (ends_LF a && starts_LF b).
Proof.
  induction a as [| x a IH]; intro b.
  - cbn. now rewrite andb_true_r.
  - cbn [append no_blank_line]. rewrite IH, starts_LF_app.
    destruct a as [| y a].
    + cbn. destruct (is_LF x), (starts_LF b), (no_blank_line b); reflexivity.
    + cbn [starts_LF ends_LF].
      destruct (is_LF x), (is_LF y), (no_blank_line (String y a)), (no_blank_line b),
        (ends_LF (String y a)), (starts_LF b); reflexivity.
Qed.

(** *** The pieces of [split_blank_lines] *)

Lemma split_blank_go_pieces :
  forall s cur pending,
    no_blank_line cur = true -> ends_LF cur = false ->
    Forall (fun piece => no_blank_line piece = true) (split_blank_go s cur pending).
Proof.
  induction s as [| c s IH]; intros cur pending Hcur Hend.
  - cbn [split_blank_go]. destruct pending as [| [| p]].
    + constructor; [exact Hcur | constructor].
    + constructor; [ | constructor].
      rewrite no_blank_line_app, Hcur, Hend. reflexivity.
    + constructor; [exact Hcur | constructor; [reflexivity | constructor]].
  - cbn [split_blank_go]. destruct (is_LF c) eqn:Hc.
    + apply IH; assumption.
    + assert (Hone : forall t, no_blank_line t = true -> ends_LF t = false ->
                       no_blank_line (t +++ String c EmptyString) = true
                       /\ ends_LF (t +++ String c EmptyString) = false).
      { intros t Ht Het. rewrite no_blank_line_app, ends_LF_app, Ht, Het.
        cbn. rewrite Hc. split; reflexivity. }
      destruct pending as [| [| p]].
      * destruct (Hone cur Hcur Hend). now apply IH.
      * assert (Hnl : no_blank_line (cur +++ nl) = true /\ ends_LF (cur +++ nl) = true).
        { rewrite no_blank_line_app, ends_LF_app, Hcur, Hend. split; reflexivity. }
        destruct Hnl as [Hnl Hnl'].
        rewrite <- append_assoc. apply IH.
        -- rewrite no_blank_line_app, Hnl, Hnl'. cbn. rewrite Hc. reflexivity.
        -- rewrite ends_LF_app. cbn. exact Hc.
      * constructor; [exact Hcur | ].
        apply IH; cbn; rewrite ?Hc; reflexivity.
Qed.

(** A text without a blank line is one piece. *)
Lemma split_blank_go_whole :
  forall t cur,
    no_blank_line t = true ->
    split_blank_go t cur 0 = [cur +++ t]
    /\ (starts_LF t = false -> split_blank_go t cur 1 = [cur +++ nl +++ t]).
Proof.
  induction t as [| c t IH]; intros cur Ht.
  - cbn. rewrite !append_empty_r. auto.
  - cbn [no_blank_line] in Ht. apply andb_prop in Ht. destruct Ht as [Hct Ht].
    cbn [split_blank_go]. destruct (is_LF c) eqn:Hc.
    + cbn [andb negb] in Hct. apply negb_true_iff in Hct.
      assert (Heq : c = LF) by (now apply Ascii.eqb_eq).
      split.
      * cbn [Nat.min]. rewrite (proj2 (IH cur Ht) Hct). subst c. reflexivity.
      * cbn [starts_LF]. congruence.
    + split.
      * rewrite (proj1 (IH (cur +++ String c EmptyString) Ht)), append_assoc. reflexivity.
      * intros _. rewrite (proj1 (IH _ Ht)), !append_assoc. reflexivity.
Qed.

(** A block that is followed by a blank line and a text is the first
    piece. *)
Lemma split_blank_go_block :
  forall b d rest cur,
    no_blank_line b = true -> ends_LF b = false -> is_LF d = false ->
    split_blank_go (b +++ nl +++ nl +++ String d rest) cur 0
    = (cur +++ b) :: split_blank_go (String d rest) EmptyString 0
    /\ (b <> EmptyString -> starts_LF b = false ->
        split_blank_go (b +++ nl +++ nl +++ String d rest) cur 1
        = (cur +++ nl +++ b) :: split_blank_go (String d rest) EmptyString 0).
Proof.
  induction b as [| c b IH]; intros d rest cur Hb Hend Hd.
  - split; [ | intro H; contradiction].
    cbn. rewrite Hd. cbn. rewrite append_empty_r. reflexivity.
  - cbn [no_blank_line] in Hb. apply andb_prop in Hb. destruct Hb as [Hcb Hb].
    assert (Hend' : ends_LF b = false).
    { destruct b; [reflexivity | exact Hend]. }
    cbn [append split_blank_go]. destruct (is_LF c) eqn:Hc.
    + cbn [andb negb] in Hcb. apply negb_true_iff in Hcb.
      assert (Hne : b <> EmptyString).
      { intros ->. cbn in Hend. congruence. }
      assert (Heq : c = LF) by (now apply Ascii.eqb_eq).
      split.
      * cbn [Nat.min].
        rewrite (proj2 (IH d rest cur Hb Hend' Hd) Hne Hcb). subst c. reflexivity.
      * intros _ Hstart. cbn [starts_LF] in Hstart. congruence.
    + split.
      * rewrite (proj1 (IH d rest _ Hb Hend' Hd)), append_assoc. reflexivity.
      * intros _ _. rewrite (proj1 (IH d rest _ Hb Hend' Hd)), !append_assoc. reflexivity.
Qed.

(** *** What [trim] returns *)

Lemma trimStart_solid :
  forall s, trimStart s = EmptyString \/ starts_solid (trimStart s) = true.
Proof.
  induction s as [| c s IH]; [now left | ].
  cbn [trimStart]. destruct (isWhiteSpace c) eqn:Hc; [exact IH | ].
  right. cbn. now rewrite Hc.
Qed.

Lemma trimEnd_head :
  forall c s, isWhiteSpace c = false -> exists t, trimEnd (String c s) = String c t.
Proof.
  intros c s Hc. cbn [trimEnd]. destruct (trimEnd s); [rewrite Hc | ]; eexists; reflexivity.
Qed.

Lemma trimEnd_solid :
  forall s, trimEnd s = EmptyString \/ ends_solid (trimEnd s) = true.
Proof.
  induction s as [| c s IH]; [now left | ].
  cbn [trimEnd]. destruct (trimEnd s) as [| a t] eqn:Ht.
  - destruct (isWhiteSpace c) eqn:Hc; [now left | right]. cbn. now rewrite Hc.
  - right. destruct IH as [IH | IH]; [discriminate | exact IH].
Qed.

(** A trimmed text that is not empty begins and ends with a solid
    unit. *)
Lemma trim_solid :
  forall s,
    trim s <> EmptyString ->
    starts_solid (trim s) = true /\ ends_solid (trim s) = true.
Proof.
  intros s Hne. unfold trim in *.
  destruct (trimStart_solid s) as [H | H].
  - rewrite H in Hne. now contradiction Hne.
  - destruct (trimStart s) as [| c u]; [discriminate | ].
    cbn in H. apply negb_true_iff in H.
    split.
    + destruct (trimEnd_head c u H) as [t ->]. cbn. now rewrite H.
    + destruct (trimEnd_solid (String c u)) as [He | He]; [contradiction | exact He].
Qed.

Lemma trimEnd_fixed :
  forall s, ends_solid s = true -> trimEnd s = s.
Proof.
  induction s as [| c s IH]; intro H; [discriminate | ].
  cbn [trimEnd]. destruct s as [| a s'].
  - cbn in H |- *. apply negb_true_iff in H. now rewrite H.
  - rewrite (IH H). reflexivity.
Qed.

Lemma trim_fixed :
  forall s, starts_solid s = true -> ends_solid s = true -> trim s = s.
Proof.
  intros s Hs He. unfold trim.
  destruct s as [| c s]; [discriminate | ].
  cbn in Hs. apply negb_true_iff in Hs. cbn [trimStart]. rewrite Hs.
  now apply trimEnd_fixed.
Qed.

Lemma no_blank_line_tail :
  forall c s, no_blank_line (String c s) = true -> no_blank_line s = true.
Proof. intros c s H. cbn in H. now apply andb_prop in H. Qed.

Lemma trimStart_no_blank_line :
  forall s, no_blank_line s = true -> no_blank_line (trimStart s) = true.
Proof.
  induction s as [| c s IH]; intro H; [reflexivity | ].
  cbn [trimStart]. destruct (isWhiteSpace c); [ | exact H].
  apply IH. exact (no_blank_line_tail c s H).
Qed.

Lemma trimEnd_starts :
  forall s, trimEnd s <> EmptyString -> starts_LF (trimEnd s) = starts_LF s.
Proof.
  intros [| c s] H; [reflexivity | ].
  cbn [trimEnd] in *. destruct (trimEnd s); [ | reflexivity].
  destruct (isWhiteSpace c); [contradiction | reflexivity].
Qed.

Lemma trimEnd_no_blank_line :
  forall s, no_blank_line s = true -> no_blank_line (trimEnd s) = true.
Proof.
  induction s as [| c s IH]; intro H; [reflexivity | ].
  cbn [no_blank_line] in H. apply andb_prop in H. destruct H as [Hc Hs].
  cbn [trimEnd]. destruct (trimEnd s) as [| a t] eqn:Ht.
  - destruct (isWhiteSpace c); [reflexivity | ]. cbn. now rewrite andb_false_r.
  - change (no_blank_line (String c (String a t)))
      with (negb (is_LF c && starts_LF (String a t)) && no_blank_line (String a t)).
    rewrite (IH Hs), andb_true_r, <- Ht.
    rewrite trimEnd_starts by (rewrite Ht; discriminate). exact Hc.
Qed.

Lemma solid_is_no_LF :
  forall s,
    (starts_solid s = true -> starts_LF s = false)
    /\ (ends_solid s = true -> ends_LF s = false).
Proof.
  assert (Hws : forall c, negb (isWhiteSpace c) = true -> is_LF c = false).
  { intros c H. apply negb_true_iff in H. unfold is_LF.
    destruct (Ascii.eqb c LF) eqn:E; [ | reflexivity].
    apply Ascii.eqb_eq in E. subst c. discriminate H. }
  intro s. split.
  - destruct s as [| c s]; [reflexivity | ]. cbn. apply Hws.
  - induction s as [| c s IH]; [reflexivity | ].
    cbn [ends_solid ends_LF]. destruct s as [| a s']; [apply Hws | exact IH].
Qed.

(** The blocks of a text, as [textToAdf] takes them: pieces between blank
    lines, trimmed, the empty ones left out. *)
Lemma blocks_are_solid :
  forall text,
    Forall (fun b => no_blank_line b = true /\ starts_solid b = true /\ ends_solid b = true)
           (filter truthy (map trim (split_blank_lines text))).
Proof.
  intro text. apply Forall_forall. intros b Hb.
  apply filter_In in Hb. destruct Hb as [Hb Hne].
  apply in_map_iff in Hb. destruct Hb as [piece [<- Hpiece]].
  pose proof (split_blank_go_pieces text EmptyString 0 eq_refl eq_refl) as Hall.
  rewrite Forall_forall in Hall. specialize (Hall piece Hpiece).
  split.
  - unfold trim. now apply trimEnd_no_blank_line, trimStart_no_blank_line.
  - apply trim_solid. intro H. rewrite H in Hne. discriminate.
Qed.

(** Splitting what was joined with blank lines gives the blocks back. *)
Lemma split_joined_blocks :
  forall bs,
    bs <> [] ->
    Forall (fun b => no_blank_line b = true /\ starts_solid b = true /\ ends_solid b = true)
           bs ->
    split_blank_lines (join (nl +++ nl) bs) = bs.
Proof.
  unfold split_blank_lines.
  induction bs as [| b bs IH]; intros Hne Hall; [contradiction | ].
  inversion Hall as [| ? ? (Hb & Hs & He) Hrest]; subst.
  destruct bs as [| b2 bs'].
  - cbn [join String.concat].
    now rewrite (proj1 (split_blank_go_whole b EmptyString Hb)).
  - change (join (nl +++ nl) (b :: b2 :: bs'))
      with (b +++ (nl +++ nl) +++ join (nl +++ nl) (b2 :: bs')).
    inversion Hrest as [| ? ? (Hb2 & Hs2 & He2) Hrest']; subst.
    destruct b2 as [| d b2']; [discriminate | ].
    assert (Hd : is_LF d = false).
    { exact (proj1 (solid_is_no_LF (String d b2')) Hs2). }
    assert (Hjoin : exists rest, join (nl +++ nl) (String d b2' :: bs') = String d rest).
    { destruct bs'; cbn [join String.concat append]; eexists; reflexivity. }
    destruct Hjoin as [rest Hjoin]. rewrite Hjoin.
    rewrite append_assoc.
    rewrite (proj1 (split_blank_go_block b d rest EmptyString Hb
                      (proj2 (solid_is_no_LF b) He) Hd)).
    rewrite <- Hjoin. rewrite IH; [reflexivity | discriminate | exact Hrest].
Qed.

(** The text of the document that [textToAdf] makes: its blocks, joined
    with blank lines. *)
Lemma textToAdf_text :
  forall rt text,
    extractTextFromAdf rt (textToAdf text)
    = Return (join (nl +++ nl) (filter truthy (map trim (split_blank_lines text)))).
Proof.
  intros rt text. unfold textToAdf, extractTextFromAdf.
  set (bs := filter truthy (map trim (split_blank_lines text))).
  assert (Hpara : forall b, text_of (paragraph_node b) = b) by reflexivity.
  assert (Hmap : map text_of (map paragraph_node bs) = bs).
  { rewrite map_map. rewrite <- (map_id bs) at 2. apply map_ext. exact Hpara. }
  assert (Hdepth : forall b, depth (paragraph_node b) = 3) by reflexivity.
  match goal with
  | |- extractTextFromAdf_in _ (JObject ?entries) = _ =>
      rewrite (container_text_of (call_stack rt) entries "doc"
                 (if 0 <? length (map paragraph_node bs) then map paragraph_node bs
                  else [paragraph_node ""]) eq_refl eq_refl eq_refl eq_refl)
  end.
  - unfold joined. cbn [String.eqb Ascii.eqb Bool.eqb].
    destruct bs as [| b bs']; [reflexivity | ].
    change (0 <? length (map paragraph_node (b :: bs'))) with true. cbv iota.
    now rewrite Hmap.
  - assert (Hitems : forall items,
               Forall (fun x => depth x = 3) items ->
               fold_right (fun x d => Nat.max (depth x) d) 0 items <= 3).
    { intros items H. induction H as [| x rest Hx Hrest IH]; cbn [fold_right]; lia. }
    cbn [depth fold_right snd Nat.max].
    unfold call_stack, MIN_CALL_STACK.
    match goal with
    | |- context [fold_right _ 0 ?items] =>
        assert (Hle : fold_right (fun x d => Nat.max (depth x) d) 0 items <= 3)
    end.
    { apply Hitems. destruct (0 <? length (map paragraph_node bs)).
      - apply Forall_forall. intros x Hx. apply in_map_iff in Hx.
        destruct Hx as [b [<- _]]. apply Hdepth.
      - repeat constructor. }
    lia.
Qed.

End Paragraphs.

(** X24.  What [extractTextFromAdf] reads from the document that
    [textToAdf] makes of a text are the blocks of the text (its pieces
    between runs of two or more line feeds, trimmed, the empty ones left
    out) joined with blank lines; a text without a blank line comes back
    trimmed. *)
Theorem textToAdf_reads_back :
  forall (rt : Runtime) (text : string),
    extractTextFromAdf rt (textToAdf text)
    = Return (join (nl +++ nl) (filter truthy (map trim (split_blank_lines text))))
    /\ (no_blank_line text = true ->
        extractTextFromAdf rt (textToAdf text) = Return (trim text)).
Proof.
  intros rt text. split; [apply textToAdf_text | ].
  intro H. rewrite textToAdf_text. unfold split_blank_lines.
  rewrite (proj1 (split_blank_go_whole text EmptyString H)).
  cbn [append map filter]. destruct (trim text) eqn:Ht; reflexivity.
Qed.

Lemma textToAdf_reads_back_witness :
  extractTextFromAdf (Sample.runtime Sample.silent)
    (textToAdf ("  one" +++ nl +++ "two  "))
  = Return ("one" +++ nl +++ "two").
Proof.
  apply (proj2 (textToAdf_reads_back (Sample.runtime Sample.silent)
                  ("  one" +++ nl +++ "two  "))).
  reflexivity.
Defined.

(** X25.  Writing a text as a document and reading the document back
    normalises the text once and for all: the text that
    [extractTextFromAdf] reads from [textToAdf text] gives, through
    [textToAdf], the same document again. *)
Theorem textToAdf_round_trip_is_stable :
  forall (rt : Runtime) (text : string),
    exists shown,
      extractTextFromAdf rt (textToAdf text) = Return shown
      /\ textToAdf shown = textToAdf text.
Proof.
  intros rt text. eexists. split; [apply textToAdf_text | ].
  pose proof (blocks_are_solid text) as Hsolid.
  unfold textToAdf at 2.
  set (bs := filter truthy (map trim (split_blank_lines text))) in *.
  destruct bs as [| b bs'] eqn:Hbs; [reflexivity | ].
  rewrite <- Hbs in *. assert (Hne : bs <> []) by (rewrite Hbs; discriminate).
  unfold textToAdf. rewrite (split_joined_blocks bs Hne Hsolid).
  assert (Htrim : map trim bs = bs).
  { rewrite <- (map_id bs) at 2. apply map_ext_in. intros x Hx.
    rewrite Forall_forall in Hsolid. destruct (Hsolid x Hx) as (_ & Hs & He).
    now apply trim_fixed. }
  assert (Hfilter : filter truthy bs = bs).
  { clear - Hsolid. induction bs as [| x bs IH]; [reflexivity | ].
    inversion Hsolid as [| ? ? (_ & Hs & _) Hrest]; subst.
    cbn [filter]. destruct x; [discriminate | ]. cbn [truthy]. now rewrite IH. }
  rewrite Htrim, Hfilter. reflexivity.
Qed.

Lemma textToAdf_round_trip_is_stable_witness :
  exists shown,
    extractTextFromAdf (Sample.runtime Sample.silent)
      (textToAdf (nl +++ " one " +++ nl +++ nl +++ nl +++ nl +++ "two" +++ nl))
    = Return shown
    /\ textToAdf shown
       = textToAdf (nl +++ " one " +++ nl +++ nl +++ nl +++ nl +++ "two" +++ nl).
Proof.
  apply (textToAdf_round_trip_is_stable (Sample.runtime Sample.silent)
           (nl +++ " one " +++ nl +++ nl +++ nl +++ nl +++ "two" +++ nl)).
Defined.

(** ** The formatters, further *)

Section FormattersFurther.



(** The code units that [encodeURIComponent] writes for one unit. *)
Lemma encoded_unit :
  forall c,
    all_units segment_unit
      (if is_alnum (nat_of_ascii c) || uri_mark (nat_of_ascii c)
       then String c EmptyString else percent_utf8 (nat_of_ascii c)) = true.
Proof. intro c. destruct c as [[] [] [] [] [] [] [] []]; reflexivity. Qed.

Lemma encodeURIComponent_units :
  forall s, all_units segment_unit (encodeURIComponent s) = true.
Proof.
  unfold encodeURIComponent. induction s as [| c s IH]; [reflexivity | ].
  cbn [escape_with]. rewrite all_units_app, IH, andb_true_r. apply encoded_unit.
Qed.

Lemma key_unit_is_kept :
  forall c,
    key_unit (nat_of_ascii c) = true ->
    is_alnum (nat_of_ascii c) || uri_mark (nat_of_ascii c) = true.
Proof.
  intro c. destruct c as [[] [] [] [] [] [] [] []]; vm_compute; intro H;
    first [exact H | reflexivity].
Qed.

Lemma encodeURIComponent_kept :
  forall s, all_units key_unit s = true -> encodeURIComponent s = s.
Proof.
  unfold encodeURIComponent. induction s as [| c s IH]; intro H; [reflexivity | ].
  cbn [all_units] in H. apply andb_prop in H. destruct H as [Hc Hs].
  cbn [escape_with]. rewrite (key_unit_is_kept c Hc), (IH Hs). reflexivity.
Qed.

Lemma well_formed_key_units :
  forall k, JIRA_ISSUE_KEY_PATTERN k = true -> all_units key_unit k = true.
Proof.
  intros k H. destruct k as [| c rest]; [discriminate | ].
  unfold JIRA_ISSUE_KEY_PATTERN in H. apply andb_prop in H. destruct H as [Hc Ht].
  cbn [all_units]. rewrite (key_tail_units _ Ht), andb_true_r.
  unfold key_unit, is_key_char. now rewrite Hc.
Qed.

End FormattersFurther.

(** X26.  [formatJiraIssue] returns a text for every validated issue whose
    description, when it has one, the stack is deeper than: twelve entries
    joined by line feeds, in which an absent priority reads "None", an
    absent assignee "Unassigned", and the description is never empty: it is
    the trimmed text of the description, or "No description provided." when
    the description is absent or its text is blank.  On any stack it
    returns a text or throws the RangeError of a stack that is used up. *)
Theorem formatJiraIssue_is_null_safe :
  forall (rt : Runtime) (issue : JiraIssueResponse),
    let f := fields issue in
    ((truthy_value (description f) = true -> depth (description f) < call_stack rt) ->
     exists shown,
       formatJiraIssue rt issue
       = Return
           (join nl
              [ key issue +++ ": " +++ summary f;
                "";
                "Type:     " +++ name (issuetype f);
                "Status:   " +++ name (status f);
                "Priority: " +++ match priority f with Some p => name p | None => "None" end;
                "Assignee: " +++ match assignee f with
                                 | Some a => displayName a
                                 | None => "Unassigned"
                                 end;
                "";
                "Created:  " +++ created f;
                "Updated:  " +++ updated f;
                "";
                "Description:";
                shown ])
       /\ shown <> ""
       /\ (truthy_value (description f) = false -> shown = "No description provided.")
       /\ (trim (text_of (description f)) = "" -> shown = "No description provided.")
       /\ (truthy_value (description f) = true ->
           trim (text_of (description f)) <> "" ->
           extractTextFromAdf rt (description f) = Return (text_of (description f))
           /\ shown = trim (text_of (description f))))
    /\ ((exists text, formatJiraIssue rt issue = Return text)
        \/ formatJiraIssue rt issue
           = Throw (PlatformError "RangeError" "Maximum call stack size exceeded")).
Proof.
  intros rt issue f. split.
  - intro Hdepth. unfold formatJiraIssue. fold f.
    destruct (truthy_value (description f)) eqn:Hd.
    + rewrite (extractTextFromAdf_text_of rt _ (Hdepth eq_refl)). cbn [bindC].
      destruct (trim (text_of (description f))) as [| c t] eqn:Ht; cbn [truthy].
      * eexists. split; [reflexivity | ].
        split; [discriminate | ]. split; [reflexivity | ]. split; [reflexivity | ].
        intros _ H. now contradiction H.
      * eexists. split; [reflexivity | ].
        split; [discriminate | ]. split; [discriminate | ]. split; [discriminate | ].
        intros _ _. split; reflexivity.
    + cbn [bindC]. change (trim "") with "". cbn [truthy].
      eexists. split; [reflexivity | ].
      split; [discriminate | ]. split; [reflexivity | ]. split; [reflexivity | ].
      discriminate.
  - destruct (formatJiraIssue_cases rt issue) as [[rest H] | H]; rewrite H.
    + left. eexists. reflexivity.
    + right. reflexivity.
Qed.

Lemma formatJiraIssue_is_null_safe_witness :
  exists shown,
    formatJiraIssue (Sample.runtime Sample.silent) Cases.issue
    = Return
        (join nl
           [ "PROJ-1" +++ ": " +++ "Login fails";
             "";
             "Type:     " +++ "Bug";
             "Status:   " +++ "Open";
             "Priority: " +++ "None";
             "Assignee: " +++ "Ada";
             "";
             "Created:  " +++ "2026-01-01T00:00:00.000+0000";
             "Updated:  " +++ "2026-01-02T00:00:00.000+0000";
             "";
             "Description:";
             shown ])
    /\ shown = "Steps to reproduce".
Proof.
  destruct (proj1 (formatJiraIssue_is_null_safe (Sample.runtime Sample.silent) Cases.issue))
    as (shown & Htext & _ & _ & _ & Hshown).
  - intros _. vm_compute. lia.
  - exists shown. split; [exact Htext | ].
    apply Hshown; [reflexivity | discriminate].
Defined.



(** X28.  An issue key reaches the path of a request as one path segment:
    in the paths of jira_get_issue and jira_update_issue it stands encoded
    between the fixed prefix and the query, made of letters, digits, the
    marks [- _ . ! ~ * ' ( )] and percent escapes only, so that it can add
    neither a segment nor a query to the path; a key of the form that the
    input schema asks for stands there as it is. *)
Theorem issue_key_is_one_path_segment :
  forall issueKey : string,
    exists segment,
      GetIssue.request_path issueKey
      = "/rest/api/3/issue/" +++ segment
          +++ "?fields=summary%2Cstatus%2Cassignee%2Cpriority%2Cissuetype%2Cdescription%2Ccreated%2Cupdated"
      /\ (forall rt jira fields md,
             path (UpdateIssue.request_options rt jira issueKey fields md)
             = "/rest/api/3/issue/" +++ segment)
      /\ all_units segment_unit segment = true
      /\ (JIRA_ISSUE_KEY_PATTERN issueKey = true -> segment = issueKey).
Proof.
  intro issueKey. exists (encodeURIComponent issueKey).
  split; [reflexivity | ]. split; [reflexivity | ].
  split; [apply encodeURIComponent_units | ].
  intro H. apply encodeURIComponent_kept, well_formed_key_units, H.
Qed.

Lemma issue_key_is_one_path_segment_witness :
  GetIssue.request_path "PROJ-12"
  = "/rest/api/3/issue/" +++ "PROJ-12"
      +++ "?fields=summary%2Cstatus%2Cassignee%2Cpriority%2Cissuetype%2Cdescription%2Ccreated%2Cupdated"
  /\ encodeURIComponent "a/b?c" = "a%2Fb%3Fc".
Proof.
  destruct (issue_key_is_one_path_segment "PROJ-12") as (segment & Hpath & _ & _ & Hkey).
  rewrite (Hkey eq_refl) in Hpath. split; [exact Hpath | reflexivity].
Defined.

(** ** The configuration loader *)

(** X29.  [loadConfig] fails fast: it returns the typed configuration when
    the schema accepts what the environment holds, and otherwise throws a
    [ConfigurationError], under the metadata of the server's start, whose
    message lists, below a heading, every issue that the schema reports,
    one per line, in order.  It reads seven variables of the environment
    and depends on no other. *)
Theorem loadConfig_fails_fast :
  forall (T : Type) (schema : ZodType T) (env : string -> option string),
    (forall data,
        safeParse schema (Config.raw_config env) = Success data ->
        Config.loadConfig T schema env = Return data)
    /\ (forall issues,
           safeParse schema (Config.raw_config env) = Failure issues ->
           issues <> [] ->
           Forall (fun issue => has_LF (Config.issue_line issue) = false) issues ->
           exists message,
             Config.loadConfig T schema env
             = Throw (ConfigurationError message
                        {| toolName := "server"; operation := "loadConfig";
                           correlationId := "startup" |})
             /\ split LF message
                = "Configuration validation failed:"
                    :: map (fun issue =>
                              "  - " +++ join "." (map segment_text (Zod.path issue))
                                +++ ": " +++ Zod.message issue)
                           issues)
    /\ (forall env',
           (forall variable,
               In variable
                  [ "JIRA_BASE_URL_MCP_RELAY"; "JIRA_USER_EMAIL_MCP_RELAY";
                    "JIRA_API_TOKEN_MCP_RELAY"; "AWS_ACCESS_KEY_ID";
                    "AWS_SECRET_ACCESS_KEY"; "AWS_REGION"; "S3_BUCKET_NAME" ] ->
               env' variable = env variable) ->
           Config.loadConfig T schema env' = Config.loadConfig T schema env).
Proof.
  intros T schema env. split; [ | split].
  - intros data H. unfold Config.loadConfig. now rewrite H.
  - intros issues H Hne Hall. unfold Config.loadConfig. rewrite H.
    eexists. split; [reflexivity | ].
    rewrite (split_first_line "Configuration validation failed:") by reflexivity.
    f_equal. apply split_join_lines.
    + destruct issues; [contradiction | discriminate].
    + rewrite Forall_map. exact Hall.
  - intros env' Hsame. unfold Config.loadConfig, Config.raw_config, Config.env_value.
    rewrite !Hsame by (simpl; tauto). reflexivity.
Qed.

Lemma loadConfig_fails_fast_witness :
  exists message,
    Config.loadConfig _ Cases.settings_schema Cases.jira_only
    = Throw (ConfigurationError message
               {| toolName := "server"; operation := "loadConfig";
                  correlationId := "startup" |})
    /\ split LF message
       = [ "Configuration validation failed:"; "  - s3.region: Required" ].
Proof.
  destruct (loadConfig_fails_fast _ Cases.settings_schema Cases.jira_only)
    as (_ & Hfail & _).
  apply (Hfail [ {| Zod.path := [Key "s3"; Key "region"]; Zod.message := "Required" |} ]).
  - reflexivity.
  - discriminate.
  - repeat constructor.
Defined.

(** ** What the log does not hold *)

Section Confidentiality.
Variable rt : Runtime.

(** [classify] looks at the options for the metadata and the not-found
    text only, and at the world for the clock and standard error. *)
Lemma classify_same :
  forall o1 o2 response w1 w2,
    req_metadata o1 = req_metadata o2 ->
    notFoundMessage o1 = notFoundMessage o2 ->
    now w1 = now w2 -> stderr w1 = stderr w2 ->
    fst (classify rt o1 response w1) = fst (classify rt o2 response w2)
    /\ stderr (snd (classify rt o1 response w1)) = stderr (snd (classify rt o2 response w2))
    /\ now (snd (classify rt o1 response w1)) = now (snd (classify rt o2 response w2)).
Proof.
  intros o1 o2 response w1 w2 Hmd Hnf Hnow Herr. unfold classify.
  rewrite Hmd, Hnf.
  destruct (HttpClient.status response =? 401)%Z;
    [ | destruct (HttpClient.status response =? 403)%Z;
        [ | destruct (HttpClient.status response =? 404)%Z;
            [ | destruct ((HttpClient.status response <? 200)%Z
                          || (300 <=? HttpClient.status response)%Z);
                [ | destruct (JSON_parse rt (response_body response)) ] ] ] ];
    unfold bind, ret, throw; rewrite ?log_plain;
    cbn [fst snd stderr now write_stderr]; rewrite ?Hnow, ?Herr; auto.
Qed.

(** Two calls of [jiraRequest] that differ in method and body only and
    that the network settles in the same way end in the same way, at the
    same time, with the same lines written. *)
Lemma jiraRequest_same :
  forall o1 o2 w,
    tidy w ->
    req_metadata o1 = req_metadata o2 ->
    notFoundMessage o1 = notFoundMessage o2 ->
    baseUrl (config o1) +++ path o1 = baseUrl (config o2) +++ path o2 ->
    network rt (fetch_init (http_options rt o1)) = network rt (fetch_init (http_options rt o2)) ->
    fst (jiraRequest rt o1 w) = fst (jiraRequest rt o2 w)
    /\ stderr (snd (jiraRequest rt o1 w)) = stderr (snd (jiraRequest rt o2 w))
    /\ now (snd (jiraRequest rt o1 w)) = now (snd (jiraRequest rt o2 w)).
Proof.
  intros o1 o2 w Htidy Hmd Hnf Hurl Hnet.
  destruct (httpRequest_run rt (http_options rt o1) w Htidy) as (w1 & Hrun1 & _ & Herr1 & _).
  destruct (httpRequest_run rt (http_options rt o2) w Htidy) as (w2 & Hrun2 & _ & Herr2 & _).
  rewrite Hnet in Hrun1.
  cbn [url timeoutMs metadata http_options or_default] in Hrun1, Hrun2.
  change (timer_delay DEFAULT_TIMEOUT_MS) with DEFAULT_TIMEOUT_MS in Hrun1, Hrun2.
  rewrite Hurl, Hmd in Hrun1.
  unfold jiraRequest, bind.
  destruct (network rt (fetch_init (http_options rt o2))) as [after status body | after err |];
    try destruct (after <=? DEFAULT_TIMEOUT_MS)%Z;
    destruct Hrun1 as (-> & Hnow1 & _); destruct Hrun2 as (-> & Hnow2 & _);
    try (cbn [fst snd]; rewrite Herr1, Herr2, Hnow1, Hnow2; auto).
  apply classify_same; congruence.
Qed.

End Confidentiality.

(** X30.  What the tools write to standard error does not depend on what
    the caller sends in the body of the request, but through the answer of
    the upstream.  Two invocations in the same world whose requests the
    network settles in the same way write the same lines, whatever their
    queries and page sizes (jira_search_issues, which also returns the same
    result), their field maps (jira_update_issue, for the same issue key),
    or their summaries, issue types and descriptions (jira_create_issue,
    for the same project). *)
Theorem log_is_independent_of_the_payload :
  forall (rt : Runtime) (jira : JiraConfig) (w : World),
    tidy w ->
    (forall jql1 maxResults1 jql2 maxResults2,
        (forall md,
            network rt (fetch_init (http_options rt
                          (SearchIssues.request_options rt jira jql1 maxResults1 md)))
            = network rt (fetch_init (http_options rt
                            (SearchIssues.request_options rt jira jql2 maxResults2 md)))) ->
        fst (SearchIssues.handler rt jira jql1 maxResults1 w)
        = fst (SearchIssues.handler rt jira jql2 maxResults2 w)
        /\ stderr (snd (SearchIssues.handler rt jira jql1 maxResults1 w))
           = stderr (snd (SearchIssues.handler rt jira jql2 maxResults2 w)))
    /\ (forall issueKey fields1 fields2,
           (forall md,
               network rt (fetch_init (http_options rt
                             (UpdateIssue.request_options rt jira issueKey fields1 md)))
               = network rt (fetch_init (http_options rt
                               (UpdateIssue.request_options rt jira issueKey fields2 md)))) ->
           stderr (snd (UpdateIssue.handler rt jira issueKey fields1 w))
           = stderr (snd (UpdateIssue.handler rt jira issueKey fields2 w)))
    /\ (forall project summary1 issueType1 description1 summary2 issueType2 description2,
           (forall md,
               network rt (fetch_init (http_options rt
                             (CreateIssue.request_options rt jira project summary1
                                issueType1 description1 md)))
               = network rt (fetch_init (http_options rt
                               (CreateIssue.request_options rt jira project summary2
                                  issueType2 description2 md)))) ->
           stderr (snd (CreateIssue.handler rt jira project summary1 issueType1
                          description1 w))
           = stderr (snd (CreateIssue.handler rt jira project summary2 issueType2
                            description2 w))).
Proof.
  intros rt jira w Htidy. split; [ | split].
  - intros jql1 m1 jql2 m2 Hnet.
    pose proof (search_issues_run rt jira jql1 m1 w) as Hrun1.
    pose proof (search_issues_run rt jira jql2 m2 w) as Hrun2.
    cbv zeta in Hrun1, Hrun2. rewrite Hrun1, Hrun2. clear Hrun1 Hrun2.
    match goal with
    | |- context [jiraRequest rt (SearchIssues.request_options rt jira jql1 m1 ?md) ?w0] =>
        destruct (jiraRequest_same rt
                    (SearchIssues.request_options rt jira jql1 m1 md)
                    (SearchIssues.request_options rt jira jql2 m2 md) w0
                    (opening_keeps_tidy w _ Htidy) eq_refl eq_refl eq_refl (Hnet md))
          as (Hfst & Herr & Hnow);
        destruct (jiraRequest rt (SearchIssues.request_options rt jira jql1 m1 md) w0)
          as [c1 w1];
        destruct (jiraRequest rt (SearchIssues.request_options rt jira jql2 m2 md) w0)
          as [c2 w2]
    end.
    cbn [fst snd] in Hfst, Herr, Hnow. subst c2.
    destruct c1 as [[data | r] | err |]; cbn [fst snd stderr write_stderr];
      rewrite ?Hnow, ?Herr; auto.
    + destruct (parseResponse JiraSearchResponseSchema data _) as [validated | err |];
        try destruct (is_external_with_status err 400);
        cbn [fst snd stderr write_stderr]; rewrite ?Hnow, ?Herr; auto.
    + destruct (is_external_with_status err 400);
        cbn [fst snd stderr write_stderr]; rewrite ?Hnow, ?Herr; auto.
  - intros issueKey fields1 fields2 Hnet.
    pose proof (update_issue_run rt jira issueKey fields1 w) as Hrun1.
    pose proof (update_issue_run rt jira issueKey fields2 w) as Hrun2.
    cbv zeta in Hrun1, Hrun2. rewrite Hrun1, Hrun2. clear Hrun1 Hrun2.
    match goal with
    | |- context [jiraRequest rt (UpdateIssue.request_options rt jira issueKey fields1 ?md)
                    ?w0] =>
        destruct (jiraRequest_same rt
                    (UpdateIssue.request_options rt jira issueKey fields1 md)
                    (UpdateIssue.request_options rt jira issueKey fields2 md) w0
                    (opening_keeps_tidy w _ Htidy) eq_refl eq_refl eq_refl (Hnet md))
          as (Hfst & Herr & Hnow);
        destruct (jiraRequest rt (UpdateIssue.request_options rt jira issueKey fields1 md) w0)
          as [c1 w1];
        destruct (jiraRequest rt (UpdateIssue.request_options rt jira issueKey fields2 md) w0)
          as [c2 w2]
    end.
    cbn [fst snd] in Hfst, Herr, Hnow. subst c2.
    destruct c1 as [[data | r] | err |]; cbn [fst snd stderr write_stderr];
      rewrite ?Hnow, ?Herr; auto.
    destruct (is_external_with_status err 400);
      cbn [fst snd stderr write_stderr]; rewrite ?Hnow, ?Herr; auto.
  - intros project summary1 issueType1 description1 summary2 issueType2 description2 Hnet.
    pose proof (create_issue_run rt jira project summary1 issueType1 description1 w)
      as Hrun1.
    pose proof (create_issue_run rt jira project summary2 issueType2 description2 w)
      as Hrun2.
    cbv zeta in Hrun1, Hrun2. rewrite Hrun1, Hrun2. clear Hrun1 Hrun2.
    match goal with
    | |- context [jiraRequest rt
                    (CreateIssue.request_options rt jira project summary1 issueType1
                       description1 ?md) ?w0] =>
        destruct (jiraRequest_same rt
                    (CreateIssue.request_options rt jira project summary1 issueType1
                       description1 md)
                    (CreateIssue.request_options rt jira project summary2 issueType2
                       description2 md) w0
                    (opening_keeps_tidy w _ Htidy) eq_refl eq_refl eq_refl (Hnet md))
          as (Hfst & Herr & Hnow);
        destruct (jiraRequest rt
                    (CreateIssue.request_options rt jira project summary1 issueType1
                       description1 md) w0) as [c1 w1];
        destruct (jiraRequest rt
                    (CreateIssue.request_options rt jira project summary2 issueType2
                       description2 md) w0) as [c2 w2]
    end.
    cbn [fst snd] in Hfst, Herr, Hnow. subst c2.
    destruct c1 as [[data | r] | err |]; cbn [fst snd stderr write_stderr];
      rewrite ?Hnow, ?Herr; auto.
    + destruct (parseResponse (JiraCreateIssueResponseSchema rt) data _)
        as [validated | err |];
        try destruct (is_external_with_status err 400);
        cbn [fst snd stderr write_stderr]; rewrite ?Hnow, ?Herr; auto.
    + destruct (is_external_with_status err 400);
        cbn [fst snd stderr write_stderr]; rewrite ?Hnow, ?Herr; auto.
Qed.

Lemma log_is_independent_of_the_payload_witness :
  stderr (snd (UpdateIssue.handler (Sample.runtime (Sample.answers 200 "{}")) Sample.jira
                 "PROJ-1" Sample.update_fields (Sample.start 0)))
  = stderr (snd (UpdateIssue.handler (Sample.runtime (Sample.answers 200 "{}")) Sample.jira
                   "PROJ-1" [ ("summary", JString "s3cr3t plans") ] (Sample.start 0))).
Proof.
  destruct (log_is_independent_of_the_payload (Sample.runtime (Sample.answers 200 "{}"))
              Sample.jira (Sample.start 0)) as (_ & Hupdate & _).
  - intros t [].
  - apply Hupdate. intro md. reflexivity.
Defined.
